(** * Benchmark report generator

    A shallow embedding of [plot_scripts/gdpruler_benchmark_plot.py]: the
    loader, the pandas operations the script uses, the seven views and the
    driver [main].

    Conventions of the embedding.
    - The five experiment parameters are integer columns ([Z]); the four
      measurements are modelled as exact rationals ([Q]).  Rounding of
      binary64 arithmetic and non-finite measurements are outside the
      model.
    - A [DataFrame] carries the names of its columns next to its rows, so
      that [df['name']] on an absent column raises [KeyError] as pandas
      does.  A field of a [Row] whose column is absent is never read.
    - Plotting calls are an external collaborator: the embedding records
      what is handed to them ([Draw]) and [savefig] stores the prepared
      figure under the file name.  Two of them can fail on what the script
      hands over and are modelled with that failure: [ax.bar] broadcasts
      positions against heights, [sns.heatmap] needs a table with cells.
    - Paths are opaque keys and directories are not tracked: failures that
      depend on the components of a path or on permissions are outside the
      model.
    - [print] appends to the console; Python exceptions are values of
      [Exn]. *)

From Stdlib Require Import ZArith QArith List Ascii String Sorted Lia Bool.
From stdpp Require Import base gmap strings.
Import ListNotations.
Local Open Scope Z_scope.

(** ** Exceptions and the error monad *)

Inductive Exn :=
| FileNotFoundError (path : string)
| FileExistsError (path : string)
| EmptyDataError
| ParserError
| UnicodeDecodeError
| KeyError (column : string)
| IndexError
| ValueError.

Inductive result (A : Type) :=
| Ok (a : A)
| Raise (e : Exn).
Arguments Ok {A} a.
Arguments Raise {A} e.

Definition bind {A B} (m : result A) (k : A -> result B) : result B :=
  match m with
  | Ok a => k a
  | Raise e => Raise e
  end.

Notation "x <- m ;; k" := (bind m (fun x => k))
  (at level 100, m at next level, right associativity).

(** ** Data model *)

Record Row := mkRow {
  batch_size : Z;
  entry_size_bytes : Z;
  consumers : Z;
  use_encryption : Z;
  compression_level : Z;
  entries_per_sec : Q;
  write_amplification : Q;
  avg_latency_ms : Q;
  logical_throughput_gib_sec : Q;
  encryption_label : option string;
  compression_label : option string;
  entry_size_label : option string
}.

Record DataFrame := mkFrame {
  columns : list string;
  rows : list Row
}.

Inductive Dim :=
| BatchSize | EntrySizeBytes | Consumers | UseEncryption | CompressionLevel.

Inductive Metric :=
| EntriesPerSec | WriteAmplification | AvgLatencyMs | LogicalThroughputGibSec.

Definition dim_name (d : Dim) : string :=
  match d with
  | BatchSize => "batch_size"
  | EntrySizeBytes => "entry_size_bytes"
  | Consumers => "consumers"
  | UseEncryption => "use_encryption"
  | CompressionLevel => "compression_level"
  end.

Definition dim_of (d : Dim) : Row -> Z :=
  match d with
  | BatchSize => batch_size
  | EntrySizeBytes => entry_size_bytes
  | Consumers => consumers
  | UseEncryption => use_encryption
  | CompressionLevel => compression_level
  end.

Definition metric_name (m : Metric) : string :=
  match m with
  | EntriesPerSec => "entries_per_sec"
  | WriteAmplification => "write_amplification"
  | AvgLatencyMs => "avg_latency_ms"
  | LogicalThroughputGibSec => "logical_throughput_gib_sec"
  end.

Definition metric_of (m : Metric) : Row -> Q :=
  match m with
  | EntriesPerSec => entries_per_sec
  | WriteAmplification => write_amplification
  | AvgLatencyMs => avg_latency_ms
  | LogicalThroughputGibSec => logical_throughput_gib_sec
  end.

(** ** The pandas operations used by the script *)

Definition has_column (df : DataFrame) (c : string) : bool :=
  existsb (String.eqb c) (columns df).

(** [df[c]]: the column must exist. *)
Definition getitem (df : DataFrame) (c : string) : result unit :=
  if has_column df c then Ok tt else Raise (KeyError c).

Definition int_column (df : DataFrame) (d : Dim) : result (list Z) :=
  _ <- getitem df (dim_name d) ;;
  Ok (map (dim_of d) (rows df)).

(** [df[df[d] == v]] *)
Definition where_eq (df : DataFrame) (d : Dim) (v : Z) : result DataFrame :=
  _ <- getitem df (dim_name d) ;;
  Ok (mkFrame (columns df) (List.filter (fun r => dim_of d r =? v) (rows df))).

(** [df[(df[d1] == v1) & (df[d2] == v2)]] *)
Definition where_eq2 (df : DataFrame) (d1 : Dim) (v1 : Z) (d2 : Dim) (v2 : Z)
  : result DataFrame :=
  _ <- getitem df (dim_name d1) ;;
  _ <- getitem df (dim_name d2) ;;
  Ok (mkFrame (columns df)
        (List.filter (fun r => (dim_of d1 r =? v1) && (dim_of d2 r =? v2)) (rows df))).

(** [df.empty]: no rows or no columns. *)
Definition empty (df : DataFrame) : bool :=
  match rows df, columns df with
  | [], _ => true
  | _, [] => true
  | _, _ => false
  end.

(** [Series.unique()]: distinct values in order of first appearance. *)
Fixpoint unique (l : list Z) : list Z :=
  match l with
  | [] => []
  | x :: t => x :: List.filter (fun y => negb (y =? x)) (unique t)
  end.

Fixpoint insert_sorted (x : Z) (l : list Z) : list Z :=
  match l with
  | [] => [x]
  | y :: t => if x <=? y then x :: l else y :: insert_sorted x t
  end.

(** [sorted(...)] on integers. *)
Definition sorted (l : list Z) : list Z := fold_right insert_sorted [] l.

(** [sorted(df[d].unique())] *)
Definition sorted_unique (df : DataFrame) (d : Dim) : result (list Z) :=
  col <- int_column df d ;;
  Ok (sorted (unique col)).

(** A result indexed by group key, keys ascending. *)
Definition Indexed (X : Type) := list (Z * X).
Definition Series := Indexed Q.

(** [k in data.index] and [data[k]] in one optional lookup. *)
Fixpoint index_get {X} (k : Z) (s : Indexed X) : option X :=
  match s with
  | [] => None
  | (k', v) :: t => if k =? k' then Some v else index_get k t
  end.

(** [groupby] splits the rows by key; groups are kept in ascending key
    order ([sort=True]) and each group keeps the rows in their order. *)
Fixpoint add_to_group {X} (k : Z) (x : X) (gs : Indexed (list X)) : Indexed (list X) :=
  match gs with
  | [] => [(k, [x])]
  | (k', xs) :: rest =>
      match k ?= k' with
      | Lt => (k, [x]) :: gs
      | Eq => (k', xs ++ [x]) :: rest
      | Gt => (k', xs) :: add_to_group k x rest
      end
  end.

Definition split_groups {X} (kv : list (Z * X)) : Indexed (list X) :=
  fold_left (fun gs p => add_to_group (fst p) (snd p) gs) kv [].

Definition total (xs : list Q) : Q := fold_left Qplus xs 0%Q.

(** [.mean()] of one group: sum over count. *)
Definition mean (xs : list Q) : Q :=
  (total xs / inject_Z (Z.of_nat (length xs)))%Q.

Definition group_means {X} (f : list X -> Q) (gs : Indexed (list X)) : Series :=
  map (fun g => (fst g, f (snd g))) gs.

(** [df.groupby(d)[m].mean()] *)
Definition groupby_mean (df : DataFrame) (d : Dim) (m : Metric) : result Series :=
  _ <- getitem df (dim_name d) ;;
  _ <- getitem df (metric_name m) ;;
  Ok (group_means mean
        (split_groups (map (fun r => (dim_of d r, metric_of m r)) (rows df)))).

(** [df.groupby([d1, d2])[m].mean().unstack()]: rows are the observed values
    of [d1], columns the observed values of [d2], both ascending; a
    combination without rows is an empty cell (NaN). *)
Record Pivot := mkPivot {
  p_index : list Z;
  p_columns : list Z;
  p_cells : list (list (option Q))
}.

Definition pivot_mean (df : DataFrame) (d1 d2 : Dim) (m : Metric) : result Pivot :=
  _ <- getitem df (dim_name d1) ;;
  _ <- getitem df (dim_name d2) ;;
  _ <- getitem df (metric_name m) ;;
  let outer := split_groups (map (fun r => (dim_of d1 r, r)) (rows df)) in
  let cols := sorted (unique (map (dim_of d2) (rows df))) in
  Ok (mkPivot (map fst outer) cols
        (map (fun g =>
                let inner :=
                  group_means mean
                    (split_groups (map (fun r => (dim_of d2 r, metric_of m r)) (snd g))) in
                map (fun c => index_get c inner) cols)
             outer)).

(** [pivot_data / u] *)
Definition pivot_div (p : Pivot) (u : Q) : Pivot :=
  mkPivot (p_index p) (p_columns p)
    (map (map (option_map (fun v => (v / u)%Q))) (p_cells p)).

(** ** What is handed to the plotting library *)

(** A text as Python formats it: literal pieces and formatted values. *)
Inductive Piece :=
| Str (s : string)
| Int (n : Z)
| Keys (ks : list Z).

Definition Text := list Piece.

(** A literal, and an f-string with one integer hole. *)
Definition Lit (s : string) : Text := [Str s].
Definition FInt (pre : string) (n : Z) (post : string) : Text := [Str pre; Int n; Str post].

(** [PlotNonFinite] is an [ax.plot] whose values are not finite (they come
    from a division by zero), which the rationals do not have. *)
Inductive Draw :=
| Bar (x height : list Q) (label : Text) (hatch : string)
| Plot (x y : list Q) (label : Text)
| PlotNonFinite (x : list Q) (label : Text).

(** One subplot.  [axis] is the key list laid along the x axis: the keys
    behind the tick labels of a bar chart, the x coordinates of a line
    chart. *)
Inductive Subplot :=
| Chart (title : string) (axis : list Z) (draws : list Draw)
| Heatmap (title : string) (table : Pivot).

Definition Figure := list Subplot.

Definition hatches : list string :=
  [""; "///"; "\\\"; "xxx"; "..."; "+++"; "|||"; "---"; "ooo"; "***"].

(** [l[i]] on a Python list. *)
Definition item {A} (l : list A) (i : nat) : result A :=
  match nth_error l i with
  | Some a => Ok a
  | None => Raise IndexError
  end.

(** [np.arange(n)] *)
Definition arange (n : nat) : list Q :=
  map (fun i => inject_Z (Z.of_nat i)) (seq 0 n).

Definition shift (xs : list Q) (d : Q) : list Q := map (fun x => (x + d)%Q) xs.

Definition as_floats (ks : list Z) : list Q := map inject_Z ks.

(** [for i, a in enumerate(l): ...], stopping at the first exception. *)
Fixpoint for_each {A B} (f : nat -> A -> result B) (i : nat) (l : list A)
  : result (list B) :=
  match l with
  | [] => Ok []
  | a :: t =>
      b <- f i a ;;
      bs <- for_each f (S i) t ;;
      Ok (b :: bs)
  end.

Definition enumerate {A B} (f : nat -> A -> result B) (l : list A) : result (list B) :=
  for_each f 0%nat l.

(** [v / u] where the chart rescales, [v] where it does not. *)
Definition scaled (per : option Q) (v : Q) : Q :=
  match per with
  | Some u => (v / u)%Q
  | None => v
  end.

(** The comprehension [[data[k] / u if k in data.index else d for k in keys]]
    with its metric, its unit and its default. *)
Record Fill := mkFill {
  fill_metric : Metric;
  fill_per : option Q;
  fill_default : Q
}.

Definition fill (p : Fill) (data : Series) (keys : list Z) : list Q :=
  map (fun k =>
         match index_get k data with
         | Some v => scaled (fill_per p) v
         | None => fill_default p
         end) keys.

(** [data[k] / 1000 if k in data.index else 0] on [entries_per_sec] *)
Definition throughput_k : Fill := mkFill EntriesPerSec (Some 1000%Q) 0%Q.
(** [data[cl] if cl in data.index else 0] on [logical_throughput_gib_sec] *)
Definition data_throughput : Fill := mkFill LogicalThroughputGibSec None 0%Q.
(** [data[c] if c in data.index else 0] on [avg_latency_ms] *)
Definition latency : Fill := mkFill AvgLatencyMs None 0%Q.
(** [data[c] if c in data.index else 1.0] on [write_amplification] *)
Definition write_amp : Fill := mkFill WriteAmplification None 1%Q.

(** [data = df[df[g] == v].groupby(x)[m].mean()] followed by the
    comprehension over [keys]. *)
Definition series_for (df : DataFrame) (g : Dim) (v : Z) (x : Dim) (p : Fill)
    (keys : list Z) : result (list Q) :=
  sub <- where_eq df g v ;;
  data <- groupby_mean sub x (fill_metric p) ;;
  Ok (fill p data keys).

(** The loop [for i, v in enumerate(groups)] drawing one series per value
    of [g]. *)
Definition group_loop (df : DataFrame) (g : Dim) (groups : list Z) (x : Dim)
    (keys : list Z) (p : Fill) (draw : nat -> Z -> list Q -> result Draw)
  : result (list Draw) :=
  enumerate (fun i v => vals <- series_for df g v x p keys ;; draw i v vals) groups.

(** [ax.bar(x_positions + i*width, vals, width, label=..., hatch=hatches[i])] *)
Definition bar_at (x_positions : list Q) (width : Q) (label : Z -> Text)
    (i : nat) (v : Z) (vals : list Q) : result Draw :=
  h <- item hatches i ;;
  Ok (Bar (shift x_positions (inject_Z (Z.of_nat i) * width)%Q) vals (label v) h).

(** [ax.plot(keys, vals, label=...)] *)
Definition line_over (keys : list Z) (label : Z -> Text)
    (i : nat) (v : Z) (vals : list Q) : result Draw :=
  Ok (Plot (as_floats keys) vals (label v)).

(** The loop over encryption/compression combinations:
    [subset = df[(df.use_encryption == enc) & (df.compression_level == comp)]],
    drawn only [if not subset.empty].  Each combination is written next to
    its entry of the parallel label list. *)
Definition combo_loop (df : DataFrame) (combos : list (Z * Z * string)) (x : Dim)
    (keys : list Z) (p : Fill) : result (list Draw) :=
  ds <- enumerate (fun (i : nat) (c : Z * Z * string) =>
          let '(enc, comp, label) := c in
          subset <- where_eq2 df UseEncryption enc CompressionLevel comp ;;
          if empty subset then Ok []
          else
            data <- groupby_mean subset x (fill_metric p) ;;
            Ok [Plot (as_floats keys) (fill p data keys) (Lit label)])
        combos ;;
  Ok (concat ds).

Definition kb_label (entry_size : Z) : Text := FInt "" (entry_size / 1024) "KB".

(** numpy broadcasting of two one-dimensional arrays: arrays of equal length
    pair up, an array of length one is stretched to the length of the other
    (to nothing when the other is empty), any other pair of lengths is a
    shape mismatch. *)
Definition broadcast {A B} (xs : list A) (ys : list B) : option (list A * list B) :=
  if Nat.eqb (length xs) (length ys) then Some (xs, ys)
  else
    match xs, ys with
    | [x], _ => Some (repeat x (length ys), ys)
    | _, [y] => Some (xs, repeat y (length xs))
    | _, _ => None
    end.

(** [ax.bar(x, height, width, label=..., hatch=...)] on arrays: positions
    and heights are broadcast against each other, and a shape mismatch
    raises [ValueError].  ([bar_at] above is called with one height per
    position, where the broadcast changes nothing.) *)
Definition ax_bar (x height : list Q) (label : Text) (hatch : string) : result Draw :=
  match broadcast x height with
  | Some (x', height') => Ok (Bar x' height' label hatch)
  | None => Raise ValueError
  end.

(** [sns.heatmap(table, annot=True, ...)]: the colour range is taken from
    the smallest and the largest cell, which a table without cells does not
    have ([ValueError]). *)
Definition sns_heatmap (title : string) (table : Pivot) : result Subplot :=
  match p_index table, p_columns table with
  | [], _ => Raise ValueError
  | _, [] => Raise ValueError
  | _, _ => Ok (Heatmap title table)
  end.

(** ** The views: what each one prepares for its four (or two) subplots *)

(** One panel of [create_encryption_effect_plots]: two bar series, taken
    positionally from [no_enc.values] and [with_enc.values], each handed to
    [ax.bar] with the positions of all the keys. *)
Definition encryption_panel (df : DataFrame) (title : string) (d : Dim)
    (m : Metric) (per : option Q) : result Subplot :=
  keys <- sorted_unique df d ;;
  let x_positions := arange (length keys) in
  let width := 0.35%Q in
  off <- where_eq df UseEncryption 0 ;;
  no_enc <- groupby_mean off d m ;;
  on <- where_eq df UseEncryption 1 ;;
  with_enc <- groupby_mean on d m ;;
  h0 <- item hatches 0 ;;
  bars0 <- ax_bar (shift x_positions (- (width / 2))%Q)
             (map (scaled per) (map snd no_enc)) (Lit "No Encryption") h0 ;;
  h1 <- item hatches 1 ;;
  bars1 <- ax_bar (shift x_positions (width / 2)%Q)
             (map (scaled per) (map snd with_enc)) (Lit "With Encryption") h1 ;;
  Ok (Chart title keys [bars0; bars1]).

Definition encryption_effect_figure (df : DataFrame) : result Figure :=
  a <- encryption_panel df "(a) Encryption Impact vs Batch Size"
         BatchSize EntriesPerSec (Some 1000%Q) ;;
  b <- encryption_panel df "(b) Encryption Impact vs Entry Size"
         EntrySizeBytes EntriesPerSec (Some 1000%Q) ;;
  c <- encryption_panel df "(c) Encryption Impact on Write Amplification"
         CompressionLevel WriteAmplification None ;;
  d <- encryption_panel df "(d) Encryption Impact vs Writer Threads"
         Consumers EntriesPerSec (Some 1000%Q) ;;
  Ok [a; b; c; d].

Definition compression_effect_figure (df : DataFrame) : result Figure :=
  compression_levels <- sorted_unique df CompressionLevel ;;
  let label := fun c => FInt "Compression " c "" in
  let width := 0.25%Q in
  batch_sizes <- sorted_unique df BatchSize ;;
  a <- group_loop df CompressionLevel compression_levels BatchSize batch_sizes
         throughput_k (bar_at (arange (length batch_sizes)) width label) ;;
  entry_sizes <- sorted_unique df EntrySizeBytes ;;
  b <- group_loop df CompressionLevel compression_levels EntrySizeBytes entry_sizes
         throughput_k (bar_at (arange (length entry_sizes)) width label) ;;
  let encryption_settings := [0; 1] in
  c <- group_loop df CompressionLevel compression_levels UseEncryption
         encryption_settings
         write_amp (bar_at (arange (length encryption_settings)) width label) ;;
  consumers_list <- sorted_unique df Consumers ;;
  d <- group_loop df CompressionLevel compression_levels Consumers consumers_list
         write_amp (bar_at (arange (length consumers_list)) width label) ;;
  Ok [Chart "(a) Compression vs Batch Size" batch_sizes a;
      Chart "(b) Compression vs Entry Size" entry_sizes b;
      Chart "(c) Compression vs Encryption" encryption_settings c;
      Chart "(d) Compression vs Writer Threads" consumers_list d].

Definition entry_size_effect_figure (df : DataFrame) : result Figure :=
  entry_sizes <- sorted_unique df EntrySizeBytes ;;
  let width := 0.25%Q in
  batch_sizes <- sorted_unique df BatchSize ;;
  a <- group_loop df EntrySizeBytes entry_sizes BatchSize batch_sizes
         throughput_k (bar_at (arange (length batch_sizes)) width kb_label) ;;
  comp_levels <- sorted_unique df CompressionLevel ;;
  b <- group_loop df EntrySizeBytes entry_sizes CompressionLevel comp_levels
         data_throughput (bar_at (arange (length comp_levels)) width kb_label) ;;
  let encryption_settings := [0; 1] in
  c <- group_loop df EntrySizeBytes entry_sizes UseEncryption encryption_settings
         throughput_k (bar_at (arange (length encryption_settings)) width kb_label) ;;
  consumers_list <- sorted_unique df Consumers ;;
  d <- group_loop df EntrySizeBytes entry_sizes Consumers consumers_list
         throughput_k (bar_at (arange (length consumers_list)) width kb_label) ;;
  Ok [Chart "(a) Entry Size vs Batch Size" batch_sizes a;
      Chart "(b) Entry Size vs Compression" comp_levels b;
      Chart "(c) Entry Size vs Encryption" encryption_settings c;
      Chart "(d) Entry Size vs Writer Threads" consumers_list d].

(** [x > 0] on measurements *)
Definition positive (x : Q) : bool := negb (Qle_bool x 0).

(** [data[c] / baseline if c in data.index else 0] on [entries_per_sec] *)
Definition normalized_by (baseline : Q) : Fill :=
  mkFill EntriesPerSec (Some baseline) 0%Q.

(** One pass of the scaling-efficiency loop of
    [create_writer_threads_effect_plots]: the series of [entry_size], drawn
    only when the baseline exists and is positive. *)
Definition scaling_line (df : DataFrame) (consumers_list : list Z)
    (i : nat) (entry_size : Z) : result (list Draw) :=
  sub <- where_eq df EntrySizeBytes entry_size ;;
  data <- groupby_mean sub Consumers EntriesPerSec ;;
  c0 <- item consumers_list 0 ;;
  match index_get c0 data with
  | Some baseline =>
      if positive baseline then
        let normalized := fill (normalized_by baseline) data consumers_list in
        Ok [Plot (as_floats consumers_list) normalized (kb_label entry_size)]
      else Ok []
  | None => Ok []
  end.

(** [[c/consumers_list[0] for c in consumers_list]]: the subscript is only
    evaluated inside the comprehension, so an empty list raises nothing. *)
Definition ideal_scaling (consumers_list : list Z) : list Q :=
  map (fun c => (inject_Z c / inject_Z (hd 0%Z consumers_list))%Q) consumers_list.

(** [ax.plot(consumers_list, [c/consumers_list[0] ...], label='Ideal
    Scaling')].  With a smallest thread count of 0 the division is a numpy
    division by zero: it warns, raises nothing and yields values that are
    not finite. *)
Definition ideal_line (consumers_list : list Z) : Draw :=
  match consumers_list with
  | 0 :: _ => PlotNonFinite (as_floats consumers_list) (Lit "Ideal Scaling")
  | _ =>
      Plot (as_floats consumers_list) (ideal_scaling consumers_list)
           (Lit "Ideal Scaling")
  end.

Definition writer_combinations : list (Z * Z * string) :=
  [(0, 0, "No Enc, No Comp"); (0, 9, "No Enc, High Comp");
   (1, 0, "Enc, No Comp"); (1, 9, "Enc, High Comp")].

Definition writer_threads_effect_figure (df : DataFrame) : result Figure :=
  consumers_list <- sorted_unique df Consumers ;;
  batch_sizes <- sorted_unique df BatchSize ;;
  a <- group_loop df BatchSize batch_sizes Consumers consumers_list throughput_k
         (line_over consumers_list (fun b => FInt "Batch " b "")) ;;
  b <- combo_loop df writer_combinations Consumers consumers_list throughput_k ;;
  entry_sizes <- sorted_unique df EntrySizeBytes ;;
  c <- enumerate (scaling_line df consumers_list) entry_sizes ;;
  let ideal := ideal_line consumers_list in
  d <- combo_loop df writer_combinations Consumers consumers_list latency ;;
  Ok [Chart "(a) Writer Threads vs Batch Size" consumers_list a;
      Chart "(b) Writer Threads vs Enc/Comp" consumers_list b;
      Chart "(c) Scaling Efficiency by Entry Size" consumers_list
            (concat c ++ [ideal]);
      Chart "(d) Latency vs Writer Threads" consumers_list d].

Definition batch_combinations : list (Z * Z * string) :=
  [(0, 0, "No Enc, No Comp"); (0, 5, "No Enc, Med Comp"); (0, 9, "No Enc, High Comp");
   (1, 0, "Enc, No Comp"); (1, 5, "Enc, Med Comp"); (1, 9, "Enc, High Comp")].

Definition selected_combinations : list (Z * Z * string) :=
  [(0, 0, "No Enc, No Comp"); (1, 0, "Enc, No Comp");
   (0, 9, "No Enc, High Comp"); (1, 9, "Enc, High Comp")].

Definition batch_size_effect_figure (df : DataFrame) : result Figure :=
  batch_sizes <- sorted_unique df BatchSize ;;
  a <- combo_loop df batch_combinations BatchSize batch_sizes throughput_k ;;
  entry_sizes <- sorted_unique df EntrySizeBytes ;;
  b <- group_loop df EntrySizeBytes entry_sizes BatchSize batch_sizes throughput_k
         (line_over batch_sizes kb_label) ;;
  consumers_list <- sorted_unique df Consumers ;;
  c <- group_loop df Consumers consumers_list BatchSize batch_sizes latency
         (line_over batch_sizes (fun c => FInt "" c " Writers")) ;;
  d <- combo_loop df selected_combinations BatchSize batch_sizes write_amp ;;
  Ok [Chart "(a) Batch Size vs Enc/Comp Settings" batch_sizes a;
      Chart "(b) Batch Size vs Entry Size" batch_sizes b;
      Chart "(c) Batch Size vs Latency" batch_sizes c;
      Chart "(d) Batch Size vs Write Amplification" batch_sizes d].

(** Each table is computed and drawn before the next one is computed. *)
Definition heatmaps_figure (df : DataFrame) : result Figure :=
  pivot_data <- pivot_mean df BatchSize CompressionLevel EntriesPerSec ;;
  a <- sns_heatmap "(a) Throughput: Batch Size vs Compression"
         (pivot_div pivot_data 1000) ;;
  pivot_data <- pivot_mean df EntrySizeBytes UseEncryption WriteAmplification ;;
  b <- sns_heatmap "(b) Write Amplification: Size vs Encryption" pivot_data ;;
  pivot_data <- pivot_mean df Consumers EntrySizeBytes EntriesPerSec ;;
  c <- sns_heatmap "(c) Throughput: Writers vs Entry Size"
         (pivot_div pivot_data 1000) ;;
  pivot_data <- pivot_mean df BatchSize Consumers AvgLatencyMs ;;
  d <- sns_heatmap "(d) Latency: Batch Size vs Writers" pivot_data ;;
  Ok [a; b; c; d].

(** The batch-analysis view. *)
Definition variants : list (Z * Z * string) :=
  [(4, 256, "4 Writers, 256B Entry"); (8, 256, "8 Writers, 256B Entry");
   (4, 1024, "4 Writers, 1KB Entry"); (8, 1024, "8 Writers, 1KB Entry");
   (4, 4096, "4 Writers, 4KB Entry"); (8, 4096, "8 Writers, 4KB Entry")].

(** [throughput_data[bs] / 1000] *)
Definition to_k (v : Q) : Q := (v / 1000)%Q.

(** [(wa_data[bs] - 1) * 100] *)
Definition wa_percent (ratio : Q) : Q := ((ratio - 1) * 100)%Q.

(** The inner loop [for i, bs in enumerate(batch_sizes): if bs in data.index:
    x_vals.append(x_positions[i]); y_vals.append(f(data[bs]))]. *)
Definition present_points (f : Q -> Q) (data : Series) (x_positions : list Q)
    (keys : list Z) : list (Q * Q) :=
  flat_map (fun xk =>
              match index_get (snd xk) data with
              | Some v => [(fst xk, f v)]
              | None => []
              end)
           (combine x_positions keys).

Definition variant_lines (filtered_df : DataFrame) (m : Metric) (f : Q -> Q)
    (x_positions : list Q) (batch_sizes : list Z) : result (list Draw) :=
  ds <- enumerate (fun (i : nat) (variant : Z * Z * string) =>
          let '(c, e, label) := variant in
          variant_df <- where_eq2 filtered_df Consumers c EntrySizeBytes e ;;
          if empty variant_df then Ok []
          else
            data <- groupby_mean variant_df BatchSize m ;;
            let pts := present_points f data x_positions batch_sizes in
            Ok [Plot (map fst pts) (map snd pts) (Lit label)])
        variants ;;
  Ok (concat ds).

(** Subplot titles are kept to their first line. *)
Definition batch_analysis_figure (filtered_df : DataFrame) : result Figure :=
  batch_sizes <- sorted_unique filtered_df BatchSize ;;
  let x_positions := map (fun i => inject_Z (Z.of_nat i)) (seq 1 (length batch_sizes)) in
  left <- variant_lines filtered_df EntriesPerSec to_k x_positions batch_sizes ;;
  right <- variant_lines filtered_df WriteAmplification wa_percent x_positions
             batch_sizes ;;
  Ok [Chart "(a) Throughput" batch_sizes left;
      Chart "(b) Write Amplification" batch_sizes right].

(** ** The process: the files and the console *)

(** What [pd.read_csv] finds in a text file: nothing to parse columns from
    (a file of zero bytes), text that does not parse, or a table with its
    header and rows. *)
Inductive CsvFile :=
| EmptyFile
| Malformed
| Table (df : DataFrame).

(** The files by path: [inputs] holds the text files, [files] the rendered
    figures; a path that [savefig] writes holds the figure from then on,
    whatever it held before.  [console] is what has been printed so far. *)
Record World := mkWorld {
  inputs : gmap string CsvFile;
  files : gmap string Figure;
  console : list Text
}.

(** Effects with exceptions: the world at the point of the exception is
    what the process leaves behind. *)
Definition M (A : Type) := World -> result A * World.

Definition ret {A} (a : A) : M A := fun w => (Ok a, w).

Definition bindM {A B} (m : M A) (k : A -> M B) : M B :=
  fun w =>
    match m w with
    | (Ok a, w') => k a w'
    | (Raise e, w') => (Raise e, w')
    end.

Notation "x <~ m ;; k" := (bindM m (fun x => k))
  (at level 100, m at next level, right associativity).

Definition lift {A} (r : result A) : M A := fun w => (r, w).

Definition print (t : Text) : M unit :=
  fun w => (Ok tt, mkWorld (inputs w) (files w) (console w ++ [t])).

(** [plt.savefig(path)]: the file is created or overwritten, also when it
    was a text file. *)
Definition savefig (path : string) (fig : Figure) : M unit :=
  fun w => (Ok tt, mkWorld (delete path (inputs w)) (<[path := fig]> (files w))
                     (console w)).

(** [pd.read_csv(path)].  A rendered figure is not text: its first bytes do
    not decode. *)
Definition read_csv (path : string) : M DataFrame :=
  fun w =>
    (match inputs w !! path with
     | Some EmptyFile => Raise EmptyDataError
     | Some Malformed => Raise ParserError
     | Some (Table df) => Ok df
     | None =>
         match files w !! path with
         | Some _ => Raise UnicodeDecodeError
         | None => Raise (FileNotFoundError path)
         end
     end, w).

(** [os.makedirs(path, exist_ok=True)]: an existing directory is accepted
    and a missing one is created, so directories are not tracked; the empty
    path does not name anything, and a path that holds a file cannot become
    a directory. *)
Definition makedirs (path : string) : M unit :=
  fun w =>
    (match path with
     | EmptyString => Raise (FileNotFoundError path)
     | _ =>
         match inputs w !! path, files w !! path with
         | None, None => Ok tt
         | _, _ => Raise (FileExistsError path)
         end
     end, w).

Fixpoint for_M {A} (f : A -> M unit) (l : list A) : M unit :=
  match l with
  | [] => ret tt
  | a :: t => _ <~ f a ;; for_M f t
  end.

Fixpoint ends_with_slash (s : string) : bool :=
  match s with
  | EmptyString => false
  | String c EmptyString => Ascii.eqb c "/"%char
  | String _ t => ends_with_slash t
  end.

Definition is_absolute (name : string) : bool :=
  match name with
  | String c _ => Ascii.eqb c "/"%char
  | EmptyString => false
  end.

(** [os.path.join(dir, name)]: an absolute [name] stands alone. *)
Definition path_join (dir name : string) : string :=
  if is_absolute name then name
  else
    match dir with
    | EmptyString => name
    | _ => if ends_with_slash dir then dir ++ name else dir ++ "/" ++ name
    end.

(** ** The loader *)

(** [Series.map(dict)]: a value without an entry maps to a missing label. *)
Fixpoint dict_get (d : list (Z * string)) (k : Z) : option string :=
  match d with
  | [] => None
  | (k', v) :: t => if k =? k' then Some v else dict_get t k
  end.

Definition encryption_labels : list (Z * string) :=
  [(0, "No Encryption"); (1, "With Encryption")].
Definition compression_labels : list (Z * string) :=
  [(0, "No Compression"); (5, "Medium (5)"); (9, "High (9)")].
Definition entry_size_labels : list (Z * string) :=
  [(1024, "1KB"); (2048, "2KB"); (4096, "4KB")].

Definition set_encryption_label (l : option string) (r : Row) : Row :=
  mkRow (batch_size r) (entry_size_bytes r) (consumers r) (use_encryption r)
        (compression_level r) (entries_per_sec r) (write_amplification r)
        (avg_latency_ms r) (logical_throughput_gib_sec r)
        l (compression_label r) (entry_size_label r).

Definition set_compression_label (l : option string) (r : Row) : Row :=
  mkRow (batch_size r) (entry_size_bytes r) (consumers r) (use_encryption r)
        (compression_level r) (entries_per_sec r) (write_amplification r)
        (avg_latency_ms r) (logical_throughput_gib_sec r)
        (encryption_label r) l (entry_size_label r).

Definition set_entry_size_label (l : option string) (r : Row) : Row :=
  mkRow (batch_size r) (entry_size_bytes r) (consumers r) (use_encryption r)
        (compression_level r) (entries_per_sec r) (write_amplification r)
        (avg_latency_ms r) (logical_throughput_gib_sec r)
        (encryption_label r) (compression_label r) l.

(** [df[name] = df[src].map(table)]: the column is added, or replaced when
    the table already had one of that name; every row stays. *)
Definition assign_labels (df : DataFrame) (name : string) (src : Dim)
    (table : list (Z * string)) (set : option string -> Row -> Row)
  : result DataFrame :=
  _ <- getitem df (dim_name src) ;;
  Ok (mkFrame
        (if has_column df name then columns df else columns df ++ [name])
        (map (fun r => set (dict_get table (dim_of src r)) r) (rows df))).

Definition add_labels (df : DataFrame) : result DataFrame :=
  df <- assign_labels df "encryption_label" UseEncryption encryption_labels
          set_encryption_label ;;
  df <- assign_labels df "compression_label" CompressionLevel compression_labels
          set_compression_label ;;
  assign_labels df "entry_size_label" EntrySizeBytes entry_size_labels
    set_entry_size_label.

Definition load_gdpr_data (input_file : string) : M DataFrame :=
  df <~ read_csv input_file ;;
  lift (add_labels df).

(** ** The views as actions *)

(** The two [plt.savefig] calls that end a view. *)
Definition save_figure (output_dir name : string) (fig : Figure) : M unit :=
  _ <~ savefig (path_join output_dir (name ++ ".png")) fig ;;
  savefig (path_join output_dir (name ++ ".pdf")) fig.

Definition create_encryption_effect_plots (df : DataFrame) (output_dir : string)
  : M unit :=
  fig <~ lift (encryption_effect_figure df) ;;
  save_figure output_dir "encryption_effect" fig.

Definition create_compression_effect_plots (df : DataFrame) (output_dir : string)
  : M unit :=
  fig <~ lift (compression_effect_figure df) ;;
  save_figure output_dir "compression_effect" fig.

Definition create_entry_size_effect_plots (df : DataFrame) (output_dir : string)
  : M unit :=
  fig <~ lift (entry_size_effect_figure df) ;;
  save_figure output_dir "entry_size_effect" fig.

Definition create_writer_threads_effect_plots (df : DataFrame) (output_dir : string)
  : M unit :=
  fig <~ lift (writer_threads_effect_figure df) ;;
  save_figure output_dir "writer_threads_effect" fig.

Definition create_batch_size_effect_plots (df : DataFrame) (output_dir : string)
  : M unit :=
  fig <~ lift (batch_size_effect_figure df) ;;
  save_figure output_dir "batch_size_effect" fig.

Definition create_heatmaps (df : DataFrame) (output_dir : string) : M unit :=
  fig <~ lift (heatmaps_figure df) ;;
  save_figure output_dir "heatmaps" fig.

Definition len (df : DataFrame) : Z := Z.of_nat (length (rows df)).

Definition no_data_message : Text :=
  Lit "No data found for compression=0 and encryption=1".

Definition create_encryption_batch_analysis_plot (df : DataFrame)
    (output_dir : string) : M unit :=
  filtered_df <~ lift (where_eq2 df CompressionLevel 0 UseEncryption 1) ;;
  if empty filtered_df then print no_data_message
  else
    fig <~ lift (batch_analysis_figure filtered_df) ;;
    _ <~ save_figure output_dir "batch_analysis" fig ;;
    _ <~ print (FInt "Generated batch analysis paper plot with "
                     (Z.of_nat (length variants)) " variants:") ;;
    for_M (fun variant : Z * Z * string =>
             let '(c, e, label) := variant in
             variant_df <~ lift (where_eq2 filtered_df Consumers c EntrySizeBytes e) ;;
             print [Str "  - "; Str label; Str ": "; Int (len variant_df);
                    Str " data points"])
          variants.

(** ** The closing summary *)

Definition nl : string := String (ascii_of_nat 10) EmptyString.

Fixpoint times (s : string) (n : nat) : string :=
  match n with
  | O => EmptyString
  | S n' => s ++ times s n'
  end.

Definition plots : list (string * string) :=
  [("encryption_effect.png",
    "4-panel analysis of encryption impact across: (a) batch sizes, (b) entry sizes, (c) write amplification vs compression, (d) writer threads. Shows encryption overhead in different scenarios.");
   ("compression_effect.png",
    "4-panel analysis of compression impact across: (a) batch sizes, (b) entry sizes, (c) write amplification vs encryption, (d) writer threads. Shows compression efficiency tradeoffs.");
   ("entry_size_effect.png",
    "4-panel analysis of entry size impact across: (a) batch sizes, (b) data throughput vs compression, (c) encryption settings, (d) writer threads. Shows size vs performance relationships.");
   ("writer_threads_effect.png",
    "4-panel analysis of writer threads scaling: (a) throughput vs batch sizes, (b) throughput vs encryption/compression combinations, (c) scaling efficiency by entry size, (d) latency impact.");
   ("batch_size_effect.png",
    "4-panel analysis of batch size impact: (a) throughput vs encryption/compression combinations, (b) throughput vs entry sizes, (c) latency vs writer threads, (d) write amplification trends.");
   ("heatmaps.png",
    "4 heatmaps showing: (a) throughput vs batch size/compression, (b) write amplification vs entry size/encryption, (c) throughput vs writers/entry size, (d) latency vs batch size/writers.");
   ("batch_analysis.png",
    "2-panel analysis of batch size impact (with encryption=ON and compression=OFF): (a) throughput vs batch size, (b) write amplification vs batch size.")].

(** [enumerate(l, start)] *)
Fixpoint numbered {A} (start : Z) (l : list A) : list (Z * A) :=
  match l with
  | [] => []
  | a :: t => (start, a) :: numbered (start + 1) t
  end.

Definition print_plot_summary : M unit :=
  _ <~ print (Lit (nl ++ times "=" 70)) ;;
  _ <~ print (Lit "GDPR LOGGER BENCHMARK ANALYSIS - PLOT SUMMARY") ;;
  _ <~ print (Lit (times "=" 70)) ;;
  _ <~ for_M (fun ip : Z * (string * string) =>
                let '(i, (filename, description)) := ip in
                _ <~ print [Str nl; Int i; Str ". "; Str filename; Str ":"] ;;
                print [Str "   "; Str description])
             (numbered 1 plots) ;;
  _ <~ print [Str nl; Str (times "=" 70)] ;;
  _ <~ print (Lit "KEY FEATURES:") ;;
  _ <~ print (Lit "- Linear x-axis scales with actual values labeled") ;;
  _ <~ print (Lit "- All parameter combinations shown for each main effect") ;;
  _ <~ print (Lit "- Line plots for continuous relationships") ;;
  _ <~ print (Lit "- Bar plots for categorical comparisons") ;;
  _ <~ print (Lit "- Multiple heatmaps for interaction effects") ;;
  _ <~ print (Lit "- Detailed legends and consistent color schemes") ;;
  print [Str (times "=" 70)].

(** ** The driver *)

(** The seven views, in the order [main] calls them. *)
Definition generate_all_plots (df : DataFrame) (output_dir : string) : M unit :=
  _ <~ create_encryption_effect_plots df output_dir ;;
  _ <~ create_compression_effect_plots df output_dir ;;
  _ <~ create_entry_size_effect_plots df output_dir ;;
  _ <~ create_writer_threads_effect_plots df output_dir ;;
  _ <~ create_batch_size_effect_plots df output_dir ;;
  _ <~ create_heatmaps df output_dir ;;
  create_encryption_batch_analysis_plot df output_dir.

(** [print(f"  - {what}: {sorted(df[d].unique())}")] *)
Definition print_observed (what : string) (df : DataFrame) (d : Dim) : M unit :=
  ks <~ lift (sorted_unique df d) ;;
  print [Str "  - "; Str what; Str ": "; Keys ks].

(** [main] with its two parsed arguments. *)
Definition main (input_file output_dir : string) : M unit :=
  _ <~ makedirs output_dir ;;
  _ <~ print [Str "Loading data from "; Str input_file; Str "..."] ;;
  df <~ load_gdpr_data input_file ;;
  _ <~ print (FInt "Loaded " (len df) " benchmark results") ;;
  _ <~ print (Lit "Data summary:") ;;
  _ <~ print_observed "Batch sizes" df BatchSize ;;
  _ <~ print_observed "Entry sizes" df EntrySizeBytes ;;
  _ <~ print_observed "Writer threads" df Consumers ;;
  _ <~ print_observed "Encryption settings" df UseEncryption ;;
  _ <~ print_observed "Compression levels" df CompressionLevel ;;
  _ <~ print (Lit "Generating plots...") ;;
  _ <~ generate_all_plots df output_dir ;;
  _ <~ print [Str "All plots saved to "; Str output_dir; Str "/"] ;;
  print_plot_summary.

(** ** Vocabulary of the properties and the datasets they are tried on *)

(** [keys] is the ascending list of the distinct values of [observed]. *)
Definition sorted_distinct_of (keys observed : list Z) : Prop :=
  StronglySorted Z.lt keys /\ forall k, In k keys <-> In k observed.

(** The values paired with key [k], in their order. *)
Definition selected {X} (k : Z) (kv : list (Z * X)) : list X :=
  map snd (List.filter (fun p => fst p =? k) kv).

(** The sum of a list of measurements. *)
Definition sum_of (xs : list Q) : Q := fold_right Qplus 0%Q xs.

(** [v] is the arithmetic mean of [xs]: there is at least one value, and [v]
    times their number is their sum. *)
Definition arithmetic_mean (xs : list Q) (v : Q) : Prop :=
  xs <> [] /\ (v * inject_Z (Z.of_nat (length xs)) == sum_of xs)%Q.

Definition nine_fields : list string :=
  ["batch_size"; "entry_size_bytes"; "consumers"; "use_encryption";
   "compression_level"; "entries_per_sec"; "write_amplification";
   "avg_latency_ms"; "logical_throughput_gib_sec"].

(** The row of the specification's example, with its throughput left open. *)
Definition example_row (eps : Q) : Row :=
  mkRow 512 1024 4 1 0 eps 1.2%Q 3.5%Q 0.05%Q None None None.

Definition example_dataset : DataFrame :=
  mkFrame nine_fields [example_row 50000; example_row 70000].

(** The label tables as the specification gives them. *)
Definition spec_encryption_label (v : Z) : option string :=
  if v =? 0 then Some "No Encryption"
  else if v =? 1 then Some "With Encryption"
  else None.

Definition spec_compression_label (v : Z) : option string :=
  if v =? 0 then Some "No Compression"
  else if v =? 5 then Some "Medium (5)"
  else if v =? 9 then Some "High (9)"
  else None.

Definition spec_entry_size_label (v : Z) : option string :=
  if v =? 1024 then Some "1KB"
  else if v =? 2048 then Some "2KB"
  else if v =? 4096 then Some "4KB"
  else None.

(** A results file with one row whose entry size has no label. *)
Definition unmapped_dataset : DataFrame :=
  mkFrame nine_fields
    [mkRow 512 8192 4 1 0 50000 1.2%Q 3.5%Q 0.05%Q None None None;
     example_row 70000].

Definition unmapped_world : World :=
  mkWorld (<["results.csv" := Table unmapped_dataset]> ∅) ∅ [].

(** The row a loaded dataset holds for a row of the file. *)
Definition labelled (r : Row) : Row :=
  set_entry_size_label (dict_get entry_size_labels (entry_size_bytes r))
    (set_compression_label (dict_get compression_labels (compression_level r))
       (set_encryption_label (dict_get encryption_labels (use_encryption r)) r)).

(** A dataset measured without encryption only, and an output directory
    that already holds a batch-analysis image. *)
Definition unencrypted_dataset : DataFrame :=
  mkFrame nine_fields
    [mkRow 512 1024 4 0 0 50000 1.2%Q 3.5%Q 0.05%Q None None None;
     mkRow 2048 1024 4 0 9 70000 1.1%Q 2.5%Q 0.07%Q None None None].

Definition earlier_run : World :=
  mkWorld ∅ (<["gdpr_plots/batch_analysis.png" := []]> ∅) [].

(** The key lists along the axes of a subplot: the x axis of a chart, the
    row and column keys of a heatmap. *)
Definition axes_of (s : Subplot) : list (list Z) :=
  match s with
  | Chart _ axis _ => [axis]
  | Heatmap _ table => [p_index table; p_columns table]
  end.

(** The values of dimension [d] observed in a dataset, ascending. *)
Definition observed (df : DataFrame) (d : Dim) : list Z :=
  sorted (unique (map (dim_of d) (rows df))).

(** The columns the loader reads. *)
Definition has_loader_columns (table : DataFrame) : Prop :=
  has_column table "use_encryption" = true
  /\ has_column table "compression_level" = true
  /\ has_column table "entry_size_bytes" = true.

(** What [main] does before the first view, and after the last. *)
Definition startup (input_file output_dir : string) : M DataFrame :=
  _ <~ makedirs output_dir ;;
  _ <~ print [Str "Loading data from "; Str input_file; Str "..."] ;;
  df <~ load_gdpr_data input_file ;;
  _ <~ print (FInt "Loaded " (len df) " benchmark results") ;;
  _ <~ print (Lit "Data summary:") ;;
  _ <~ print_observed "Batch sizes" df BatchSize ;;
  _ <~ print_observed "Entry sizes" df EntrySizeBytes ;;
  _ <~ print_observed "Writer threads" df Consumers ;;
  _ <~ print_observed "Encryption settings" df UseEncryption ;;
  _ <~ print_observed "Compression levels" df CompressionLevel ;;
  _ <~ print (Lit "Generating plots...") ;;
  ret df.

Definition closing (output_dir : string) : M unit :=
  _ <~ print [Str "All plots saved to "; Str output_dir; Str "/"] ;;
  print_plot_summary.

(** A results file without the [logical_throughput_gib_sec] column. *)
Definition eight_fields : list string :=
  ["batch_size"; "entry_size_bytes"; "consumers"; "use_encryption";
   "compression_level"; "entries_per_sec"; "write_amplification";
   "avg_latency_ms"].

Definition no_data_throughput : DataFrame :=
  mkFrame eight_fields
    [mkRow 512 1024 4 0 0 50000 1.2%Q 3.5%Q 0 None None None;
     mkRow 512 1024 4 1 0 70000 1.3%Q 3.6%Q 0 None None None].

Definition no_data_throughput_world : World :=
  mkWorld (<["results.csv" := Table no_data_throughput]> ∅) ∅ [].

(** A results file without the [batch_size] column. *)
Definition no_batch_size_world : World :=
  mkWorld
    (<["results.csv" :=
         Table (mkFrame
                  ["entry_size_bytes"; "consumers"; "use_encryption";
                   "compression_level"; "entries_per_sec"; "write_amplification";
                   "avg_latency_ms"; "logical_throughput_gib_sec"]
                  [mkRow 0 1024 4 1 0 50000 1.2%Q 3.5%Q 0.05%Q None None None])]> ∅)
    ∅ [].

(** The views in the order [main] runs them: six that draw from the whole
    dataset, then the batch analysis. *)
Definition figure_views : list (DataFrame -> string -> M unit) :=
  [create_encryption_effect_plots; create_compression_effect_plots;
   create_entry_size_effect_plots; create_writer_threads_effect_plots;
   create_batch_size_effect_plots; create_heatmaps].

Definition views : list (DataFrame -> string -> M unit) :=
  figure_views ++ [create_encryption_batch_analysis_plot].

(** A results file with eleven compression levels, each measured with and
    without encryption. *)
Definition eleven_levels : DataFrame :=
  mkFrame nine_fields
    (flat_map
       (fun c =>
          [mkRow 512 1024 4 0 c 50000 1.2%Q 3.5%Q 0.05%Q None None None;
           mkRow 512 1024 4 1 c 70000 1.3%Q 3.6%Q 0.07%Q None None None])
       [0; 1; 2; 3; 4; 5; 6; 7; 8; 9; 10]).

Definition eleven_levels_world : World :=
  mkWorld (<["results.csv" := Table eleven_levels]> ∅) ∅ [].

(** A new process on the file system another one left: same input files,
    same artifacts, nothing printed yet. *)
Definition restart (w : World) : World := mkWorld (inputs w) (files w) [].

(** Writing files one after the other. *)
Definition write_all (ws : list (string * Figure)) (fs : gmap string Figure)
  : gmap string Figure :=
  fold_left (fun m p => <[fst p := snd p]> m) ws fs.

(** Removing files one after the other. *)
Definition remove_all (ps : list string) (ins : gmap string CsvFile)
  : gmap string CsvFile :=
  fold_left (fun m p => delete p m) ps ins.

(** An action that reads nothing: in every world it ends the same way,
    prints the same lines and writes the same figures, all of them under
    [paths]. *)
Definition writes_only {A} (paths : list string) (m : M A) : Prop :=
  exists (r : result A) (out : list Text) (ws : list (string * Figure)),
    incl (map fst ws) paths
    /\ forall w,
        m w = (r, mkWorld (remove_all (map fst ws) (inputs w))
                    (write_all ws (files w)) (console w ++ out)).

(** What [main] does with the loaded dataset. *)
Definition report (df : DataFrame) (output_dir : string) : M unit :=
  _ <~ print (FInt "Loaded " (len df) " benchmark results") ;;
  _ <~ print (Lit "Data summary:") ;;
  _ <~ print_observed "Batch sizes" df BatchSize ;;
  _ <~ print_observed "Entry sizes" df EntrySizeBytes ;;
  _ <~ print_observed "Writer threads" df Consumers ;;
  _ <~ print_observed "Encryption settings" df UseEncryption ;;
  _ <~ print_observed "Compression levels" df CompressionLevel ;;
  _ <~ print (Lit "Generating plots...") ;;
  _ <~ generate_all_plots df output_dir ;;
  _ <~ print [Str "All plots saved to "; Str output_dir; Str "/"] ;;
  print_plot_summary.

(** An action that only prints: it returns normally, whatever the world. *)
Definition prints_only (m : M unit) : Prop :=
  exists out : list Text,
  forall w, m w = (Ok tt, mkWorld (inputs w) (files w) (console w ++ out)).

(** ** Vocabulary of the further properties *)

(** The rows of a dataset with [d1 = a] and [d2 = b]. *)
Definition rows_at (df : DataFrame) (d1 : Dim) (a : Z) (d2 : Dim) (b : Z) : list Row :=
  List.filter (fun r => (dim_of d1 r =? a) && (dim_of d2 r =? b)) (rows df).

(** [p] is the table of means of [m] by [d1] (rows) and [d2] (columns), each
    mean divided by [u] when the heatmap rescales: the keys are the observed
    values, and the cell of [(a, b)] holds the arithmetic mean over the rows
    with these two values, or is empty when there is none. *)
Definition pivot_of (df : DataFrame) (d1 d2 : Dim) (m : Metric) (u : option Q)
    (p : Pivot) : Prop :=
  p_index p = observed df d1
  /\ p_columns p = observed df d2
  /\ length (p_cells p) = length (p_index p)
  /\ forall i j a b,
      nth_error (p_index p) i = Some a ->
      nth_error (p_columns p) j = Some b ->
      exists line,
        nth_error (p_cells p) i = Some line
        /\ length line = length (p_columns p)
        /\ match rows_at df d1 a d2 b with
           | [] => nth_error line j = Some None
           | g =>
               exists v,
                 nth_error line j = Some (Some (scaled u v))
                 /\ arithmetic_mean (map (metric_of m) g) v
           end.

(** The rows measured with encryption setting [e]. *)
Definition encrypted_as (df : DataFrame) (e : Z) : DataFrame :=
  mkFrame (columns df) (List.filter (fun r => dim_of UseEncryption r =? e) (rows df)).

(** One bar per value of [d] observed among the rows of setting [e], in
    ascending order of the value: the (rescaled) mean of [m] over them. *)
Definition bar_heights (df : DataFrame) (e : Z) (d : Dim) (m : Metric)
    (per : option Q) : list Q :=
  map (fun k => scaled per (mean (map (metric_of m) (rows_at df UseEncryption e d k))))
      (observed (encrypted_as df e) d).

(** Two lengths that broadcast against each other: they are equal, or one of
    them is 1. *)
Definition broadcastable (n k : nat) : Prop := n = k \/ n = 1%nat \/ k = 1%nat.

(** A dataset in which both encryption settings were measured at two
    compression levels. *)
Definition balanced_dataset : DataFrame :=
  mkFrame nine_fields
    [mkRow 512 1024 4 0 0 50000 1.2%Q 3.5%Q 0.05%Q None None None;
     mkRow 512 1024 4 1 0 40000 1.3%Q 4.5%Q 0.04%Q None None None;
     mkRow 512 1024 4 0 9 30000 1.1%Q 5.5%Q 0.03%Q None None None;
     mkRow 512 1024 4 1 9 20000 1.15%Q 6.5%Q 0.02%Q None None None].

Definition balanced_world : World :=
  mkWorld (<["results.csv" := Table balanced_dataset]> ∅) ∅ [].

(** A dataset with the nine columns of a results file. *)
Definition has_all_columns (df : DataFrame) : Prop :=
  (forall d, has_column df (dim_name d) = true)
  /\ (forall m, has_column df (metric_name m) = true).

(** A combination of encryption setting and compression level that at least
    one row was measured with. *)
Definition measured (df : DataFrame) (c : Z * Z * string) : bool :=
  match rows_at df UseEncryption (fst (fst c)) CompressionLevel (snd (fst c)) with
  | [] => false
  | _ => true
  end.

Definition label_of (d : Draw) : Text :=
  match d with
  | Bar _ _ label _ => label
  | Plot _ _ label => label
  | PlotNonFinite _ label => label
  end.

(** The values of a series that are numbers. *)
Definition heights_of (d : Draw) : list Q :=
  match d with
  | Bar _ height _ _ => height
  | Plot _ y _ => y
  | PlotNonFinite _ _ => []
  end.

Definition positions_of (d : Draw) : list Q :=
  match d with
  | Bar x _ _ _ => x
  | Plot x _ _ => x
  | PlotNonFinite x _ => x
  end.

(** The rows of one variant of the batch-analysis view. *)
Definition variant_rows (df : DataFrame) (c e : Z) : list Row :=
  List.filter (fun r => (dim_of Consumers r =? c) && (dim_of EntrySizeBytes r =? e))
    (rows df).

(** The x position of the i-th batch size of the axis (counted from 0). *)
Definition tick (i : nat) : Q := inject_Z (Z.of_nat (S i)).

(** Every line belongs to a variant that has rows, and has one point per
    batch size that variant was measured at, at the tick of that batch
    size. *)
Definition one_point_per_measured_batch_size (filtered_df : DataFrame)
    (draws : list Draw) : Prop :=
  forall d, In d draws ->
    exists c e label,
      In (c, e, label) variants
      /\ label_of d = Lit label
      /\ variant_rows filtered_df c e <> []
      /\ length (positions_of d) = length (heights_of d)
      /\ length (positions_of d)
         = length (sorted (unique (map batch_size (variant_rows filtered_df c e))))
      /\ (length (positions_of d) <= length (variant_rows filtered_df c e))%nat
      /\ forall i bs,
          nth_error (observed filtered_df BatchSize) i = Some bs ->
          (In (tick i) (positions_of d)
           <-> exists r, In r (variant_rows filtered_df c e) /\ batch_size r = bs).

(** The file names the seven views save under. *)
Definition artifact_names : list string :=
  ["encryption_effect.png"; "encryption_effect.pdf";
   "compression_effect.png"; "compression_effect.pdf";
   "entry_size_effect.png"; "entry_size_effect.pdf";
   "writer_threads_effect.png"; "writer_threads_effect.pdf";
   "batch_size_effect.png"; "batch_size_effect.pdf";
   "heatmaps.png"; "heatmaps.pdf";
   "batch_analysis.png"; "batch_analysis.pdf"].

Definition artifact_paths (output_dir : string) : list string :=
  map (path_join output_dir) artifact_names.

(** An action after which every path outside [paths] holds what it held
    before, and which only adds lines to the console. *)
Definition touches_only {A} (paths : list string) (m : M A) : Prop :=
  forall w,
    (forall p, ~ In p paths ->
               inputs (snd (m w)) !! p = inputs w !! p
               /\ files (snd (m w)) !! p = files w !! p)
    /\ exists out, console (snd (m w)) = console w ++ out.

(** The six views that draw from the whole dataset: the stem of their file
    names and the figure they prepare. *)
Definition figure_artifacts : list (string * (DataFrame -> result Figure)) :=
  [("encryption_effect", encryption_effect_figure);
   ("compression_effect", compression_effect_figure);
   ("entry_size_effect", entry_size_effect_figure);
   ("writer_threads_effect", writer_threads_effect_figure);
   ("batch_size_effect", batch_size_effect_figure);
   ("heatmaps", heatmaps_figure)].

(** The subset the batch-analysis view works on. *)
Definition batch_analysis_subset (df : DataFrame) : DataFrame :=
  mkFrame (columns df) (rows_at df CompressionLevel 0 UseEncryption 1).

(** [df[name] = ...] on the list of column names: a new name goes last, a
    name already there keeps its place. *)
Definition with_column (cols : list string) (name : string) : list string :=
  if existsb (String.eqb name) cols then cols else cols ++ [name].

(** What deriving the labels returns: [KeyError] for the first of the three
    source columns the table lacks, otherwise every row with its labels,
    under the table's columns followed by the label columns that were not
    there yet. *)
Definition labels_outcome (table : DataFrame) : result DataFrame :=
  if negb (has_column table "use_encryption")
  then Raise (KeyError "use_encryption")
  else if negb (has_column table "compression_level")
  then Raise (KeyError "compression_level")
  else if negb (has_column table "entry_size_bytes")
  then Raise (KeyError "entry_size_bytes")
  else Ok (mkFrame
             (with_column
                (with_column (with_column (columns table) "encryption_label")
                   "compression_label")
                "entry_size_label")
             (map labelled (rows table))).

Definition hatch_of (d : Draw) : option string :=
  match d with
  | Bar _ _ _ hatch => Some hatch
  | Plot _ _ _ => None
  | PlotNonFinite _ _ => None
  end.

(** The lines the closing summary prints. *)
Definition closing_lines (output_dir : string) : list Text :=
  console (snd (closing output_dir (mkWorld ∅ ∅ []))).

(** A dataset without any uncompressed encrypted row, as a results file in
    a directory that already holds a batch-analysis image. *)
Definition compressed_dataset : DataFrame :=
  mkFrame nine_fields
    [mkRow 512 1024 4 0 9 30000 1.1%Q 5.5%Q 0.03%Q None None None;
     mkRow 512 1024 4 1 9 20000 1.15%Q 6.5%Q 0.02%Q None None None].

Definition compressed_world : World :=
  mkWorld (<["results.csv" := Table compressed_dataset]> ∅) (files earlier_run) [].

(** ** Vocabulary of the fallback charts *)

(** The fallback by metric, as the specification gives it: 1.0 for write
    amplification, 0 for the throughput and latency metrics. *)
Definition fallback_of (m : Metric) : Q :=
  match m with
  | WriteAmplification => 1%Q
  | EntriesPerSec | LogicalThroughputGibSec | AvgLatencyMs => 0%Q
  end.

(** The rows of a dataset with [g = v]. *)
Definition rows_with (df : DataFrame) (g : Dim) (v : Z) : list Row :=
  List.filter (fun r => dim_of g r =? v) (rows df).

(** [ys] is a series over [keys] filled from the rows [rs]: one value per
    key, the (rescaled) arithmetic mean of [m] over the rows of [rs] with
    [x = k] where there are some, and the fallback of [m] where there are
    none. *)
Definition filled_from (m : Metric) (per : option Q) (x : Dim) (keys : list Z)
    (rs : list Row) (ys : list Q) : Prop :=
  length ys = length keys
  /\ forall i k,
      nth_error keys i = Some k ->
      match List.filter (fun r => dim_of x r =? k) rs with
      | [] => nth_error ys i = Some (fallback_of m)
      | g =>
          exists v,
            nth_error ys i = Some (scaled per v)
            /\ arithmetic_mean (map (metric_of m) g) v
      end.

(** A chart with one filled series per observed value of [g]. *)
Definition grouped_chart (df : DataFrame) (g x : Dim) (m : Metric) (per : option Q)
    (s : Subplot) : Prop :=
  exists title keys draws,
    s = Chart title keys draws
    /\ List.Forall2
         (fun v d => filled_from m per x keys (rows_with df g v) (heights_of d))
         (observed df g) draws.

(** A chart with one filled series per measured combination of [combos]. *)
Definition combination_chart (df : DataFrame) (combos : list (Z * Z * string))
    (x : Dim) (m : Metric) (per : option Q) (s : Subplot) : Prop :=
  exists title keys draws,
    s = Chart title keys draws
    /\ List.Forall2
         (fun c d =>
            filled_from m per x keys
              (rows_at df UseEncryption (fst (fst c)) CompressionLevel (snd (fst c)))
              (heights_of d))
         (List.filter (measured df) combos) draws.

(** The scaling-efficiency chart: filled series of throughput over the
    writer-thread counts, each divided by its baseline, then the ideal
    line. *)
Definition scaling_chart (df : DataFrame) (s : Subplot) : Prop :=
  exists title keys lines ideal,
    s = Chart title keys (lines ++ [ideal])
    /\ List.Forall
         (fun d =>
            exists entry_size baseline,
              filled_from EntriesPerSec (Some baseline) Consumers keys
                (rows_with df EntrySizeBytes entry_size) (heights_of d))
         lines.

(** A chart of the batch-analysis view: every line belongs to a variant and
    has no point at the tick of a batch size that variant has no row of. *)
Definition unfilled_chart (filtered_df : DataFrame) (s : Subplot) : Prop :=
  exists title draws,
    s = Chart title (observed filtered_df BatchSize) draws
    /\ forall d, In d draws ->
         exists c e label,
           In (c, e, label) variants
           /\ label_of d = Lit label
           /\ length (positions_of d) = length (heights_of d)
           /\ forall i bs,
               nth_error (observed filtered_df BatchSize) i = Some bs ->
               (forall r, In r (variant_rows filtered_df c e) -> batch_size r <> bs) ->
               ~ In (tick i) (positions_of d).

(** Uncompressed encrypted measurements in which the 4-writer variant lacks
    the batch size 2048. *)
Definition gap_dataset : DataFrame :=
  mkFrame nine_fields
    [mkRow 512 1024 4 1 0 50000 1.2%Q 3.5%Q 0.05%Q None None None;
     mkRow 2048 1024 8 1 0 60000 1.25%Q 3.0%Q 0.06%Q None None None;
     mkRow 8192 1024 4 1 0 70000 1.3%Q 2.5%Q 0.07%Q None None None].

(** A results file that lies at one of the paths the run writes. *)
Definition aliased_world : World :=
  mkWorld (<["gdpr_plots/encryption_effect.png" := Table balanced_dataset]> ∅) ∅ [].

(** * Properties *)

(** ** Lists of keys *)

Lemma strictly_sorted_NoDup (l : list Z) : StronglySorted Z.lt l -> List.NoDup l.
Proof.
  induction 1 as [|x l Hs IH Hx]; constructor; auto.
  intros Hin. rewrite List.Forall_forall in Hx. specialize (Hx x Hin). lia.
Qed.

Lemma strictly_sorted_ext (l1 l2 : list Z) :
  StronglySorted Z.lt l1 -> StronglySorted Z.lt l2 ->
  (forall k, In k l1 <-> In k l2) -> l1 = l2.
Proof.
  intros H1. revert l2.
  induction H1 as [|x l1 Hs1 IH Hx]; intros l2 H2 Hiff.
  - destruct l2 as [|y l2]; [reflexivity|].
    exfalso. apply (proj2 (Hiff y)). now left.
  - inversion H2 as [|y l2' Hs2 Hy]; subst.
    + exfalso. apply (proj1 (Hiff x)). now left.
    + rewrite List.Forall_forall in Hx, Hy.
      assert (x = y) as ->.
      { destruct (proj1 (Hiff x) (or_introl eq_refl)) as [->|Hin]; [reflexivity|].
        destruct (proj2 (Hiff y) (or_introl eq_refl)) as [->|Hin']; [reflexivity|].
        specialize (Hx _ Hin'). specialize (Hy _ Hin). lia. }
      f_equal. apply IH; [assumption|].
      intros k. split; intros Hin.
      * destruct (proj1 (Hiff k) (or_intror Hin)) as [->|]; [|assumption].
        specialize (Hx _ Hin). lia.
      * destruct (proj2 (Hiff k) (or_intror Hin)) as [->|]; [|assumption].
        specialize (Hy _ Hin). lia.
Qed.

Lemma unique_In (l : list Z) (k : Z) : In k (unique l) <-> In k l.
Proof.
  induction l as [|x l IH]; simpl; [tauto|].
  rewrite List.filter_In, IH.
  destruct (Z.eqb_spec k x); subst; simpl; intuition congruence.
Qed.

Lemma NoDup_List_filter {A} (f : A -> bool) (l : list A) :
  List.NoDup l -> List.NoDup (List.filter f l).
Proof.
  induction 1 as [|x l Hx Hl IH]; simpl; [constructor|].
  destruct (f x); [constructor|]; auto.
  rewrite List.filter_In. tauto.
Qed.

Lemma unique_NoDup (l : list Z) : List.NoDup (unique l).
Proof.
  induction l as [|x l IH]; simpl; constructor.
  - rewrite List.filter_In, Z.eqb_refl. simpl. intros [_ ?]. discriminate.
  - now apply NoDup_List_filter.
Qed.

Lemma insert_sorted_In (x k : Z) (l : list Z) :
  In k (insert_sorted x l) <-> k = x \/ In k l.
Proof.
  induction l as [|y l IH]; simpl; [intuition|].
  destruct (x <=? y); simpl; rewrite ?IH; intuition.
Qed.

Lemma insert_sorted_strict (x : Z) (l : list Z) :
  StronglySorted Z.lt l -> ~ In x l -> StronglySorted Z.lt (insert_sorted x l).
Proof.
  induction 1 as [|y l Hs IH Hy]; simpl; intros Hx.
  - repeat constructor.
  - rewrite List.Forall_forall in Hy.
    destruct (Z.leb_spec x y).
    + constructor; [now constructor; [|apply List.Forall_forall]|].
      constructor; [lia|]. apply List.Forall_forall. intros z Hz.
      specialize (Hy _ Hz). lia.
    + constructor; [apply IH; tauto|].
      apply List.Forall_forall. intros z Hz.
      apply insert_sorted_In in Hz as [->|Hz]; [lia|auto].
Qed.

Lemma sorted_In (l : list Z) (k : Z) : In k (sorted l) <-> In k l.
Proof.
  induction l as [|x l IH]; simpl; [tauto|].
  unfold sorted in *. simpl. rewrite insert_sorted_In, IH. intuition.
Qed.

Lemma sorted_strict (l : list Z) : List.NoDup l -> StronglySorted Z.lt (sorted l).
Proof.
  induction 1 as [|x l Hx Hl IH]; [constructor|].
  change (sorted (x :: l)) with (insert_sorted x (sorted l)).
  apply insert_sorted_strict; [assumption|]. now rewrite sorted_In.
Qed.

(** [sorted(col.unique())] is the ascending list of the distinct values. *)
Lemma sorted_unique_spec (l : list Z) : sorted_distinct_of (sorted (unique l)) l.
Proof.
  split.
  - apply sorted_strict, unique_NoDup.
  - intros k. now rewrite sorted_In, unique_In.
Qed.

(** ** Lookup in an indexed result *)

Lemma index_get_below {X} (s : Indexed X) (k : Z) :
  List.Forall (Z.lt k) (map fst s) -> index_get k s = None.
Proof.
  induction s as [|[k' v] s IH]; simpl; [reflexivity|].
  intros H. inversion H; subst. simpl in *.
  destruct (Z.eqb_spec k k'); [lia|auto].
Qed.

Lemma index_get_In {X} (s : Indexed X) (k : Z) (v : X) :
  index_get k s = Some v -> In (k, v) s.
Proof.
  induction s as [|[k' v'] s IH]; simpl; [discriminate|].
  destruct (Z.eqb_spec k k'); [intros [= ->]; subst; now left|auto].
Qed.

Lemma index_get_keys {X} (s : Indexed X) (k : Z) :
  In k (map fst s) <-> index_get k s <> None.
Proof.
  induction s as [|[k' v'] s IH]; simpl; [tauto|].
  destruct (Z.eqb_spec k k'); subst; [intuition congruence|].
  rewrite <- IH. intuition congruence.
Qed.

Lemma In_index_get {X} (s : Indexed X) (k : Z) (v : X) :
  StronglySorted Z.lt (map fst s) -> In (k, v) s -> index_get k s = Some v.
Proof.
  induction s as [|[k' v'] s IH]; simpl; [tauto|].
  intros Hs [[= -> ->]|Hin].
  - now rewrite Z.eqb_refl.
  - inversion Hs as [|? ? Hs' Hlt]; subst.
    destruct (Z.eqb_spec k k') as [->|]; [|auto].
    rewrite List.Forall_forall in Hlt.
    specialize (Hlt k' (in_map fst _ _ Hin)). lia.
Qed.

Lemma index_get_group_means {X} (f : list X -> Q) (gs : Indexed (list X)) (k : Z) :
  index_get k (group_means f gs) = option_map f (index_get k gs).
Proof.
  induction gs as [|[k' xs] gs IH]; simpl; [reflexivity|].
  now destruct (k =? k').
Qed.

Lemma keys_group_means {X} (f : list X -> Q) (gs : Indexed (list X)) :
  map fst (group_means f gs) = map fst gs.
Proof. unfold group_means. rewrite map_map. reflexivity. Qed.

(** ** Splitting into groups *)

Lemma selected_app {X} (k : Z) (kv1 kv2 : list (Z * X)) :
  selected k (kv1 ++ kv2) = selected k kv1 ++ selected k kv2.
Proof. unfold selected. now rewrite List.filter_app, map_app. Qed.

Lemma selected_rows {X} (key : Row -> Z) (val : Row -> X) (k : Z) (rs : list Row) :
  selected k (map (fun r => (key r, val r)) rs)
  = map val (List.filter (fun r => key r =? k) rs).
Proof.
  unfold selected. induction rs as [|r rs IH]; simpl; [reflexivity|].
  destruct (key r =? k); simpl; now rewrite IH.
Qed.

Lemma selected_nil_iff {X} (k : Z) (kv : list (Z * X)) :
  selected k kv = [] <-> ~ In k (map fst kv).
Proof.
  unfold selected. induction kv as [|[k' x] kv IH]; simpl; [tauto|].
  destruct (Z.eqb_spec k' k); simpl; [intuition congruence|].
  rewrite IH. intuition congruence.
Qed.

Lemma add_to_group_keys {X} (k k' : Z) (x : X) (gs : Indexed (list X)) :
  In k (map fst (add_to_group k' x gs)) <-> k = k' \/ In k (map fst gs).
Proof.
  induction gs as [|[k0 xs] gs IH]; simpl; [intuition|].
  destruct (Z.compare_spec k' k0); simpl; rewrite ?IH; subst; intuition.
Qed.

Lemma add_to_group_sorted {X} (k' : Z) (x : X) (gs : Indexed (list X)) :
  StronglySorted Z.lt (map fst gs) ->
  StronglySorted Z.lt (map fst (add_to_group k' x gs)).
Proof.
  induction gs as [|[k0 xs] gs IH]; simpl; intros Hs.
  - repeat constructor.
  - inversion Hs as [|? ? Hs' Hlt]; subst.
    destruct (Z.compare_spec k' k0); simpl.
    + now constructor.
    + constructor; [assumption|]. constructor; [assumption|].
      rewrite List.Forall_forall in *. intros z Hz. specialize (Hlt z Hz). lia.
    + constructor; [auto|].
      rewrite List.Forall_forall in *. intros z Hz.
      apply add_to_group_keys in Hz as [->|Hz]; [lia|auto].
Qed.

Lemma add_to_group_get {X} (k k' : Z) (x : X) (gs : Indexed (list X)) :
  StronglySorted Z.lt (map fst gs) ->
  index_get k (add_to_group k' x gs)
  = if k =? k'
    then Some (match index_get k' gs with Some xs => xs ++ [x] | None => [x] end)
    else index_get k gs.
Proof.
  induction gs as [|[k0 xs] gs IH]; simpl; intros Hs; [reflexivity|].
  inversion Hs as [|? ? Hs' Hlt]; subst.
  destruct (Z.compare_spec k' k0) as [->|Hlt'|Hgt]; simpl.
  - rewrite Z.eqb_refl. now destruct (k =? k0).
  - destruct (Z.eqb_spec k' k0); [lia|].
    rewrite (index_get_below gs k'); [reflexivity|].
    rewrite List.Forall_forall in *. intros z Hz. specialize (Hlt z Hz). lia.
  - rewrite (IH Hs'). destruct (Z.eqb_spec k' k0); [lia|].
    destruct (Z.eqb_spec k k0), (Z.eqb_spec k k'); subst; try reflexivity; lia.
Qed.

Lemma split_groups_snoc {X} (kv : list (Z * X)) (k : Z) (x : X) :
  split_groups (kv ++ [(k, x)]) = add_to_group k x (split_groups kv).
Proof. unfold split_groups. now rewrite fold_left_app. Qed.

Lemma split_groups_sorted {X} (kv : list (Z * X)) :
  StronglySorted Z.lt (map fst (split_groups kv)).
Proof.
  induction kv as [|[k x] kv IH] using rev_ind; [constructor|].
  rewrite split_groups_snoc. now apply add_to_group_sorted.
Qed.

(** The group of [k] holds exactly the values paired with [k], in their
    order; a key without values has no group. *)
Lemma split_groups_get {X} (kv : list (Z * X)) (k : Z) :
  index_get k (split_groups kv)
  = match selected k kv with [] => None | vs => Some vs end.
Proof.
  induction kv as [|[k' x] kv IH] using rev_ind; [reflexivity|].
  rewrite split_groups_snoc, add_to_group_get by apply split_groups_sorted.
  rewrite selected_app. unfold selected at 2. simpl.
  destruct (Z.eqb_spec k k') as [->|Hne].
  - rewrite Z.eqb_refl. simpl. rewrite IH.
    destruct (selected k' kv); reflexivity.
  - destruct (Z.eqb_spec k' k); [congruence|]. simpl.
    now rewrite app_nil_r.
Qed.

Lemma split_groups_keys {X} (kv : list (Z * X)) :
  sorted_distinct_of (map fst (split_groups kv)) (map fst kv).
Proof.
  split; [apply split_groups_sorted|].
  intros k. rewrite index_get_keys, split_groups_get.
  pose proof (selected_nil_iff k kv) as H.
  destruct (selected k kv) eqn:E.
  - split; [congruence|]. intros Hin. exfalso. now apply (proj1 H).
  - split; [|congruence]. intros _.
    destruct (in_dec Z.eq_dec k (map fst kv)) as [|Hn]; [assumption|].
    apply H in Hn. discriminate.
Qed.

Lemma split_groups_keys_eq {X} (kv : list (Z * X)) :
  map fst (split_groups kv) = sorted (unique (map fst kv)).
Proof.
  destruct (split_groups_keys kv) as [Hs Hk].
  destruct (sorted_unique_spec (map fst kv)) as [Hs' Hk'].
  apply strictly_sorted_ext; try assumption.
  intros k. now rewrite Hk, Hk'.
Qed.

(** ** Computations that return *)

Lemma bind_Ok {A B} (m : result A) (k : A -> result B) (b : B) :
  bind m k = Ok b -> exists a, m = Ok a /\ k a = Ok b.
Proof. destruct m as [a|e]; simpl; [eauto|discriminate]. Qed.

Lemma getitem_Ok (df : DataFrame) (c : string) (u : unit) :
  getitem df c = Ok u -> has_column df c = true.
Proof. unfold getitem. now destruct (has_column df c). Qed.

Lemma getitem_present (df : DataFrame) (c : string) :
  has_column df c = true -> getitem df c = Ok tt.
Proof. unfold getitem. now intros ->. Qed.

Lemma groupby_mean_present (df : DataFrame) (d : Dim) (m : Metric) :
  has_column df (dim_name d) = true ->
  has_column df (metric_name m) = true ->
  groupby_mean df d m
  = Ok (group_means mean
          (split_groups (map (fun r => (dim_of d r, metric_of m r)) (rows df)))).
Proof.
  intros Hd Hm. unfold groupby_mean.
  now rewrite (getitem_present _ _ Hd), (getitem_present _ _ Hm).
Qed.

(** What [data[k]] holds after [data = df.groupby(d)[m].mean()]. *)
Lemma group_means_get (d : Dim) (m : Metric) (rs : list Row) (k : Z) :
  index_get k
    (group_means mean (split_groups (map (fun r => (dim_of d r, metric_of m r)) rs)))
  = match List.filter (fun r => dim_of d r =? k) rs with
    | [] => None
    | g => Some (mean (map (metric_of m) g))
    end.
Proof.
  rewrite index_get_group_means, split_groups_get, selected_rows.
  destruct (List.filter _ rs); reflexivity.
Qed.


Lemma groupby_mean_Ok (df : DataFrame) (d : Dim) (m : Metric) (s : Series) :
  groupby_mean df d m = Ok s ->
  s = group_means mean
        (split_groups (map (fun r => (dim_of d r, metric_of m r)) (rows df))).
Proof.
  unfold groupby_mean. intros H.
  apply bind_Ok in H as (? & _ & H). apply bind_Ok in H as (? & _ & H).
  congruence.
Qed.

Lemma where_eq_Ok (df sub : DataFrame) (d : Dim) (v : Z) :
  where_eq df d v = Ok sub ->
  sub = mkFrame (columns df) (List.filter (fun r => dim_of d r =? v) (rows df)).
Proof. unfold where_eq. intros H. apply bind_Ok in H as (? & _ & H). congruence. Qed.

Lemma where_eq2_Ok (df sub : DataFrame) (d1 d2 : Dim) (v1 v2 : Z) :
  where_eq2 df d1 v1 d2 v2 = Ok sub ->
  sub = mkFrame (columns df)
          (List.filter (fun r => (dim_of d1 r =? v1) && (dim_of d2 r =? v2)) (rows df)).
Proof.
  unfold where_eq2. intros H.
  apply bind_Ok in H as (? & _ & H). apply bind_Ok in H as (? & _ & H).
  congruence.
Qed.

Lemma where_eq2_present (df : DataFrame) (d1 d2 : Dim) (v1 v2 : Z) :
  has_column df (dim_name d1) = true ->
  has_column df (dim_name d2) = true ->
  where_eq2 df d1 v1 d2 v2
  = Ok (mkFrame (columns df)
          (List.filter (fun r => (dim_of d1 r =? v1) && (dim_of d2 r =? v2)) (rows df))).
Proof.
  intros H1 H2. unfold where_eq2.
  now rewrite (getitem_present _ _ H1), (getitem_present _ _ H2).
Qed.

Lemma where_eq_present (df : DataFrame) (d : Dim) (v : Z) :
  has_column df (dim_name d) = true ->
  where_eq df d v
  = Ok (mkFrame (columns df) (List.filter (fun r => dim_of d r =? v) (rows df))).
Proof. intros H. unfold where_eq. now rewrite (getitem_present _ _ H). Qed.

Lemma sorted_unique_Ok (df : DataFrame) (d : Dim) (ks : list Z) :
  sorted_unique df d = Ok ks -> ks = sorted (unique (map (dim_of d) (rows df))).
Proof.
  unfold sorted_unique, int_column. intros H.
  apply bind_Ok in H as (? & H1 & H). apply bind_Ok in H1 as (? & _ & H1).
  congruence.
Qed.

Lemma sorted_unique_present (df : DataFrame) (d : Dim) :
  has_column df (dim_name d) = true ->
  sorted_unique df d = Ok (sorted (unique (map (dim_of d) (rows df)))).
Proof.
  intros H. unfold sorted_unique, int_column. now rewrite (getitem_present _ _ H).
Qed.

(** Every element a loop produced comes from one of its passes. *)
Lemma for_each_In {A B} (f : nat -> A -> result (list B)) (l : list A) (i : nat)
    (bs : list (list B)) (b : B) :
  for_each f i l = Ok bs -> In b (concat bs) ->
  exists j a out, In a l /\ f j a = Ok out /\ In b out.
Proof.
  revert i bs. induction l as [|a l IH]; simpl; intros i bs H Hin.
  - injection H as <-. destruct Hin.
  - apply bind_Ok in H as (out & Hf & H). apply bind_Ok in H as (rest & Hrest & H).
    injection H as <-. simpl in Hin. apply in_app_or in Hin as [Hin|Hin].
    + exists i, a, out. auto.
    + destruct (IH _ _ Hrest Hin) as (j & a' & out' & ? & ? & ?).
      exists j, a', out'. auto.
Qed.

(** ** The mean of a group *)

Lemma total_from (xs : list Q) (a : Q) : (fold_left Qplus xs a == a + sum_of xs)%Q.
Proof.
  revert a. induction xs as [|x xs IH]; intros a; simpl.
  - now rewrite Qplus_0_r.
  - rewrite IH. now rewrite Qplus_assoc.
Qed.

Lemma total_sum_of (xs : list Q) : (total xs == sum_of xs)%Q.
Proof. unfold total. rewrite total_from. apply Qplus_0_l. Qed.

(** [.mean()] of a group with at least one row is the arithmetic mean of its
    values. *)
Lemma mean_arithmetic (xs : list Q) : xs <> [] -> arithmetic_mean xs (mean xs).
Proof.
  intros Hne. split; [exact Hne|]. unfold mean.
  rewrite Qmult_comm, Qmult_div_r; [apply total_sum_of|].
  destruct xs as [|x xs]; [congruence|].
  unfold Qeq. simpl. lia.
Qed.

(** ** Grouped means *)

(** C1: grouping a dataset by one dimension, without filter, gives one entry
    per distinct value of the dimension present in the dataset, in ascending
    order, and the value of the entry of [k] is the arithmetic mean (sum
    over count) of the metric over exactly the rows whose dimension is [k].
    On the two example rows (batch size 512, throughputs 50000 and 70000)
    the only entry is the one of 512 and its mean is 60000. *)
Theorem groupby_mean_one_entry_per_value :
  (forall (D : DataFrame) (dim : Dim) (M : Metric),
      has_column D (dim_name dim) = true ->
      has_column D (metric_name M) = true ->
      exists s : Series,
        groupby_mean D dim M = Ok s
        /\ sorted_distinct_of (map fst s) (map (dim_of dim) (rows D))
        /\ List.NoDup (map fst s)
        /\ forall k v,
            In (k, v) s ->
            arithmetic_mean
              (map (metric_of M) (List.filter (fun r => dim_of dim r =? k) (rows D)))
              v)
  /\ (exists v : Q,
        groupby_mean example_dataset BatchSize EntriesPerSec = Ok [(512, v)]
        /\ (v == 60000)%Q).
Proof.
  split.
  - intros D dim M Hd Hm. eexists. split; [now apply groupby_mean_present|].
    set (kv := map (fun r => (dim_of dim r, metric_of M r)) (rows D)).
    assert (Hkeys : sorted_distinct_of (map fst (group_means mean (split_groups kv)))
                      (map (dim_of dim) (rows D))).
    { rewrite keys_group_means.
      replace (map (dim_of dim) (rows D)) with (map fst kv)
        by (unfold kv; rewrite map_map; reflexivity).
      apply split_groups_keys. }
    split; [exact Hkeys|]. split; [apply strictly_sorted_NoDup, Hkeys|].
    intros k v Hkv. destruct Hkeys as [Hsorted Hin].
    pose proof (In_index_get _ _ _ Hsorted Hkv) as Hget.
    unfold kv in Hget. rewrite group_means_get in Hget.
    destruct (List.filter _ (rows D)) as [|r rs] eqn:E; [discriminate|].
    injection Hget as <-. now apply mean_arithmetic.
  - eexists. split; [vm_compute; reflexivity|]. vm_compute. reflexivity.
Qed.

Lemma groupby_mean_one_entry_per_value_witness :
  exists s : Series,
    groupby_mean example_dataset BatchSize EntriesPerSec = Ok s
    /\ sorted_distinct_of (map fst s) (map (dim_of BatchSize) (rows example_dataset))
    /\ List.NoDup (map fst s)
    /\ forall k v,
        In (k, v) s ->
        arithmetic_mean
          (map (metric_of EntriesPerSec)
             (List.filter (fun r => dim_of BatchSize r =? k) (rows example_dataset)))
          v.
Proof.
  apply (proj1 groupby_mean_one_entry_per_value example_dataset BatchSize EntriesPerSec);
    reflexivity.
Defined.

(** ** The loader *)

Lemma has_column_app (cols : list string) (rs : list Row) (name c : string) :
  has_column (mkFrame (cols ++ [name]) rs) c
  = has_column (mkFrame cols rs) c || String.eqb c name.
Proof. unfold has_column. simpl. rewrite existsb_app. simpl. now rewrite orb_false_r. Qed.

Lemma has_column_rows (cols : list string) (rs rs' : list Row) (c : string) :
  has_column (mkFrame cols rs) c = has_column (mkFrame cols rs') c.
Proof. reflexivity. Qed.

Lemma assign_labels_ok (df : DataFrame) (name : string) (src : Dim)
    (table : list (Z * string)) (set : option string -> Row -> Row) :
  has_column df (dim_name src) = true ->
  exists cols,
    assign_labels df name src table set
    = Ok (mkFrame cols (map (fun r => set (dict_get table (dim_of src r)) r) (rows df)))
    /\ forall c, has_column (mkFrame cols []) c = has_column df c || String.eqb c name.
Proof.
  intros H. unfold assign_labels. rewrite (getitem_present _ _ H). simpl.
  eexists. split; [reflexivity|]. intros c.
  destruct (has_column df name) eqn:E.
  - destruct (String.eqb_spec c name) as [->|].
    + unfold has_column in *. simpl. now rewrite E.
    + unfold has_column. simpl. now rewrite orb_false_r.
  - destruct df as [cols rs]. simpl. now rewrite has_column_app.
Qed.

Lemma add_labels_ok (table : DataFrame) :
  has_column table "use_encryption" = true ->
  has_column table "compression_level" = true ->
  has_column table "entry_size_bytes" = true ->
  exists cols,
    add_labels table = Ok (mkFrame cols (map labelled (rows table)))
    /\ forall c,
        has_column (mkFrame cols []) c
        = has_column table c || String.eqb c "encryption_label"
          || String.eqb c "compression_label" || String.eqb c "entry_size_label".
Proof.
  intros He Hc Hs. unfold add_labels.
  destruct (assign_labels_ok table "encryption_label" UseEncryption
              encryption_labels set_encryption_label He) as (c1 & E1 & H1).
  rewrite E1. cbn [bind].
  match goal with |- context [assign_labels ?df "compression_label"] =>
    destruct (assign_labels_ok df "compression_label" CompressionLevel
                compression_labels set_compression_label) as (c2 & E2 & H2);
      [rewrite (has_column_rows _ _ []), H1; simpl; now rewrite Hc|]
  end.
  rewrite E2. cbn [bind].
  match goal with |- context [assign_labels ?df "entry_size_label"] =>
    destruct (assign_labels_ok df "entry_size_label" EntrySizeBytes
                entry_size_labels set_entry_size_label) as (c3 & E3 & H3);
      [rewrite (has_column_rows _ _ []), H2, (has_column_rows _ _ []), H1;
       simpl; now rewrite Hs|]
  end.
  rewrite E3. exists c3. split.
  - f_equal. f_equal. simpl. rewrite !map_map. reflexivity.
  - intros c. rewrite H3, (has_column_rows _ _ []), H2, (has_column_rows _ _ []), H1.
    reflexivity.
Qed.

Lemma dict_get_encryption (v : Z) :
  dict_get encryption_labels v = spec_encryption_label v.
Proof.
  unfold spec_encryption_label. simpl.
  destruct (v =? 0); [reflexivity|]. now destruct (v =? 1).
Qed.

Lemma dict_get_compression (v : Z) :
  dict_get compression_labels v = spec_compression_label v.
Proof.
  unfold spec_compression_label. simpl.
  destruct (v =? 0); [reflexivity|]. destruct (v =? 5); [reflexivity|].
  now destruct (v =? 9).
Qed.

Lemma dict_get_entry_size (v : Z) :
  dict_get entry_size_labels v = spec_entry_size_label v.
Proof.
  unfold spec_entry_size_label. simpl.
  destruct (v =? 1024); [reflexivity|]. destruct (v =? 2048); [reflexivity|].
  now destruct (v =? 4096).
Qed.

Lemma labelled_keeps_numbers (r : Row) :
  (forall d, dim_of d (labelled r) = dim_of d r)
  /\ (forall m, metric_of m (labelled r) = metric_of m r).
Proof. split; [intros []|intros []]; reflexivity. Qed.

Lemma Forall2_map_right {A B} (P : A -> B -> Prop) (f : A -> B) (l : list A) :
  (forall a, P a (f a)) -> List.Forall2 P l (map f l).
Proof. intros H. induction l; simpl; constructor; auto. Qed.

(** Adding the label columns changes no aggregate. *)
Lemma groupby_mean_labelled (cols : list string) (table : DataFrame) (d : Dim) (m : Metric) :
  (forall c,
      has_column (mkFrame cols []) c
      = has_column table c || String.eqb c "encryption_label"
        || String.eqb c "compression_label" || String.eqb c "entry_size_label") ->
  groupby_mean (mkFrame cols (map labelled (rows table))) d m = groupby_mean table d m.
Proof.
  intros H. unfold groupby_mean, getitem.
  rewrite !(has_column_rows cols (map labelled (rows table)) []), !H.
  replace (has_column table (dim_name d) || String.eqb (dim_name d) "encryption_label"
           || String.eqb (dim_name d) "compression_label"
           || String.eqb (dim_name d) "entry_size_label")
    with (has_column table (dim_name d))
    by (destruct d; simpl; now rewrite !orb_false_r).
  replace (has_column table (metric_name m) || String.eqb (metric_name m) "encryption_label"
           || String.eqb (metric_name m) "compression_label"
           || String.eqb (metric_name m) "entry_size_label")
    with (has_column table (metric_name m))
    by (destruct m; simpl; now rewrite !orb_false_r).
  simpl rows. rewrite map_map.
  rewrite (map_ext (fun r => (dim_of d (labelled r), metric_of m (labelled r)))
             (fun r => (dim_of d r, metric_of m r)))
    by (intros r; destruct (labelled_keeps_numbers r) as [Hd Hm]; now rewrite Hd, Hm).
  destruct (has_column table (dim_name d)); [|reflexivity].
  destruct (has_column table (metric_name m)); reflexivity.
Qed.

(** C6: the loader derives the three label columns by the fixed tables; a
    value outside its table (an entry size of 8192) gets a missing label and
    nothing fails; every row of the file stays, with its nine numbers
    unchanged, so every grouped mean over the loaded dataset is the one over
    the file's rows. *)
Theorem load_derives_labels_keeps_rows :
  (forall (input_file : string) (w : World) (table : DataFrame),
      inputs w !! input_file = Some (Table table) ->
      has_column table "use_encryption" = true ->
      has_column table "compression_level" = true ->
      has_column table "entry_size_bytes" = true ->
      exists df,
        load_gdpr_data input_file w = (Ok df, w)
        /\ List.Forall2
             (fun r0 r =>
                (forall d, dim_of d r = dim_of d r0)
                /\ (forall m, metric_of m r = metric_of m r0)
                /\ encryption_label r = spec_encryption_label (use_encryption r0)
                /\ compression_label r = spec_compression_label (compression_level r0)
                /\ entry_size_label r = spec_entry_size_label (entry_size_bytes r0))
             (rows table) (rows df)
        /\ forall d m, groupby_mean df d m = groupby_mean table d m)
  /\ spec_entry_size_label 4096 = Some "4KB"
  /\ spec_entry_size_label 8192 = None
  /\ (exists df v1 v2,
        load_gdpr_data "results.csv" unmapped_world = (Ok df, unmapped_world)
        /\ map entry_size_bytes (rows df) = [8192; 1024]
        /\ map entry_size_label (rows df) = [None; Some "1KB"]
        /\ groupby_mean df EntrySizeBytes EntriesPerSec = Ok [(1024, v1); (8192, v2)]
        /\ (v2 == 50000)%Q).
Proof.
  split; [|split; [reflexivity|split; [reflexivity|]]].
  - intros input_file w table Hfile He Hc Hs.
    destruct (add_labels_ok table He Hc Hs) as (cols & Hadd & Hcols).
    exists (mkFrame cols (map labelled (rows table))). split; [|split].
    + unfold load_gdpr_data, bindM, read_csv, lift. now rewrite Hfile, Hadd.
    + simpl. apply Forall2_map_right. intros r.
      destruct (labelled_keeps_numbers r) as [Hd Hm].
      split; [apply Hd|]. split; [apply Hm|]. simpl.
      split; [apply dict_get_encryption|].
      split; [apply dict_get_compression|apply dict_get_entry_size].
    + intros d m. now apply groupby_mean_labelled.
  - do 3 eexists. split; [vm_compute; reflexivity|].
    repeat split; vm_compute; reflexivity.
Qed.

Lemma load_derives_labels_keeps_rows_witness :
  exists df,
    load_gdpr_data "results.csv" unmapped_world = (Ok df, unmapped_world)
    /\ List.Forall2
         (fun r0 r =>
            (forall d, dim_of d r = dim_of d r0)
            /\ (forall m, metric_of m r = metric_of m r0)
            /\ encryption_label r = spec_encryption_label (use_encryption r0)
            /\ compression_label r = spec_compression_label (compression_level r0)
            /\ entry_size_label r = spec_entry_size_label (entry_size_bytes r0))
         (rows unmapped_dataset) (rows df)
    /\ forall d m, groupby_mean df d m = groupby_mean unmapped_dataset d m.
Proof.
  apply (proj1 load_derives_labels_keeps_rows "results.csv" unmapped_world
           unmapped_dataset); reflexivity.
Defined.

(** ** The batch-analysis subplots *)

Lemma present_points_In (f : Q -> Q) (data : Series) (xs : list Q) (keys : list Z)
    (x y : Q) :
  In (x, y) (present_points f data xs keys) <->
  exists k v, In (x, k) (combine xs keys) /\ index_get k data = Some v /\ y = f v.
Proof.
  unfold present_points. rewrite in_flat_map. split.
  - intros ([x' k] & Hin & Hp). simpl in Hp.
    destruct (index_get k data) as [v|] eqn:E; [|destruct Hp].
    destruct Hp as [[= <- <-]|[]]. eauto.
  - intros (k & v & Hin & Hget & ->). exists (x, k). split; [assumption|].
    simpl. rewrite Hget. now left.
Qed.

(** Every point of a variant's line is [f] of the mean of the metric over the
    variant's rows of one batch size of the axis. *)
Lemma variant_lines_points (filtered_df : DataFrame) (m : Metric) (f : Q -> Q)
    (x_positions : list Q) (batch_sizes : list Z) (draws : list Draw)
    (xs ys : list Q) (label : Text) (y : Q) :
  variant_lines filtered_df m f x_positions batch_sizes = Ok draws ->
  In (Plot xs ys label) draws -> In y ys ->
  exists c e bs,
    let g := List.filter (fun r => batch_size r =? bs)
               (List.filter (fun r => (consumers r =? c) && (entry_size_bytes r =? e))
                  (rows filtered_df)) in
    g <> [] /\ In bs batch_sizes /\ y = f (mean (map (metric_of m) g)).
Proof.
  unfold variant_lines, enumerate. intros H Hin Hy.
  apply bind_Ok in H as (ds & Hloop & [= <-]).
  destruct (for_each_In _ _ _ _ _ Hloop Hin) as (j & [[c e] lbl] & out & _ & Hf & Hout).
  apply bind_Ok in Hf as (variant_df & Hv & Hf).
  apply where_eq2_Ok in Hv. simpl in Hv.
  destruct (empty variant_df); [injection Hf as <-; destruct Hout|].
  apply bind_Ok in Hf as (data & Hdata & [= <-]).
  destruct Hout as [[= <- <- _]|[]].
  apply in_map_iff in Hy as ([x y'] & <- & Hp). simpl.
  apply present_points_In in Hp as (bs & v & Hxk & Hget & ->).
  apply groupby_mean_Ok in Hdata. subst data variant_df. simpl in Hget.
  change batch_size with (dim_of BatchSize) in Hget.
  rewrite (group_means_get BatchSize m) in Hget.
  exists c, e, bs. simpl. change batch_size with (dim_of BatchSize).
  destruct (List.filter _ _) eqn:E; [discriminate|].
  injection Hget as <-. split; [discriminate|].
  split; [|reflexivity]. eapply in_combine_r, Hxk.
Qed.

(** C7: the transform applied to write amplification before display is
    [(ratio - 1) * 100]; a ratio of 1.0 gives 0.0 and a ratio of 1.25 gives
    25.0; and every value drawn in the write-amplification subplot of the
    batch-analysis view is this transform of an aggregated ratio, the mean
    write amplification of a variant's rows at one batch size of the axis. *)
Theorem write_amplification_shown_as_percent :
  (forall ratio : Q, (wa_percent ratio == (ratio - 1) * 100)%Q)
  /\ (wa_percent 1 == 0)%Q
  /\ (wa_percent 1.25 == 25)%Q
  /\ (forall (filtered_df : DataFrame) (fig : Figure),
        batch_analysis_figure filtered_df = Ok fig ->
        exists left title keys draws,
          fig = [left; Chart title keys draws]
          /\ forall xs ys label y,
              In (Plot xs ys label) draws -> In y ys ->
              exists c e bs,
                let g := List.filter (fun r => batch_size r =? bs)
                           (List.filter
                              (fun r => (consumers r =? c) && (entry_size_bytes r =? e))
                              (rows filtered_df)) in
                g <> [] /\ In bs keys
                /\ y = wa_percent (mean (map write_amplification g))).
Proof.
  split; [intros ratio; reflexivity|].
  split; [vm_compute; reflexivity|]. split; [vm_compute; reflexivity|].
  intros filtered_df fig H. unfold batch_analysis_figure in H.
  apply bind_Ok in H as (batch_sizes & _ & H).
  apply bind_Ok in H as (left & _ & H).
  apply bind_Ok in H as (right & Hright & [= <-]).
  do 4 eexists. split; [reflexivity|].
  intros xs ys label y Hin Hy.
  exact (variant_lines_points _ WriteAmplification _ _ _ _ _ _ _ _ Hright Hin Hy).
Qed.

Lemma write_amplification_shown_as_percent_witness :
  exists left title keys draws,
    [Chart "(a) Throughput" [512]
       [Plot [1%Q] [120000 # 2000] (Lit "4 Writers, 1KB Entry")];
     Chart "(b) Write Amplification" [512]
       [Plot [1%Q] [4000 # 200] (Lit "4 Writers, 1KB Entry")]]
    = [left; Chart title keys draws]
    /\ forall xs ys label y,
        In (Plot xs ys label) draws -> In y ys ->
        exists c e bs,
          let g := List.filter (fun r => batch_size r =? bs)
                     (List.filter
                        (fun r => (consumers r =? c) && (entry_size_bytes r =? e))
                        (rows example_dataset)) in
          g <> [] /\ In bs keys
          /\ y = wa_percent (mean (map write_amplification g)).
Proof.
  apply (proj2 (proj2 (proj2 write_amplification_shown_as_percent)) example_dataset).
  vm_compute. reflexivity.
Defined.

(** ** The empty subset of the batch-analysis view *)

Lemma filter_none {A} (f : A -> bool) (l : list A) :
  (forall a, In a l -> f a = false) -> List.filter f l = [].
Proof.
  induction l as [|a l IH]; simpl; intros H; [reflexivity|].
  rewrite (H a) by now left. apply IH. intros b Hb. apply H. now right.
Qed.

(** When the filtered subset is empty the view prints its diagnostic and
    returns; nothing is drawn or saved. *)
Lemma batch_analysis_when_empty (df filtered_df : DataFrame) (output_dir : string)
    (w : World) :
  where_eq2 df CompressionLevel 0 UseEncryption 1 = Ok filtered_df ->
  empty filtered_df = true ->
  create_encryption_batch_analysis_plot df output_dir w
  = (Ok tt, mkWorld (inputs w) (files w) (console w ++ [no_data_message])).
Proof.
  intros Hf He. unfold create_encryption_batch_analysis_plot, bindM, lift.
  now rewrite Hf, He.
Qed.

Lemma no_encrypted_uncompressed_row (df : DataFrame) :
  (forall r, In r (rows df) -> ~ (compression_level r = 0 /\ use_encryption r = 1)) ->
  List.filter (fun r => (dim_of CompressionLevel r =? 0) && (dim_of UseEncryption r =? 1))
    (rows df) = [].
Proof.
  intros Hnone. apply filter_none. intros r Hr. simpl. specialize (Hnone r Hr).
  destruct (Z.eqb_spec (compression_level r) 0), (Z.eqb_spec (use_encryption r) 1);
    simpl; tauto.
Qed.

(** C2: on a dataset without any row of compression level 0 and encryption
    1, the batch-analysis view finds its filtered subset empty, prints its
    diagnostic and returns normally; the artifact store is left as it was,
    so [batch_analysis.png] and [batch_analysis.pdf] are neither created nor
    overwritten. *)
Theorem batch_analysis_skips_empty_subset :
  forall (df : DataFrame) (output_dir : string) (w : World),
    has_column df "compression_level" = true ->
    has_column df "use_encryption" = true ->
    (forall r, In r (rows df) -> ~ (compression_level r = 0 /\ use_encryption r = 1)) ->
    create_encryption_batch_analysis_plot df output_dir w
    = (Ok tt, mkWorld (inputs w) (files w) (console w ++ [no_data_message])).
Proof.
  intros df output_dir w Hc He Hnone.
  apply (batch_analysis_when_empty df
           (mkFrame (columns df)
              (List.filter
                 (fun r => (dim_of CompressionLevel r =? 0) && (dim_of UseEncryption r =? 1))
                 (rows df)))).
  - now apply where_eq2_present.
  - now rewrite no_encrypted_uncompressed_row.
Qed.

Lemma batch_analysis_skips_empty_subset_witness :
  create_encryption_batch_analysis_plot unencrypted_dataset "gdpr_plots" earlier_run
  = (Ok tt, mkWorld (inputs earlier_run) (files earlier_run)
              (console earlier_run ++ [no_data_message])).
Proof.
  apply batch_analysis_skips_empty_subset; [reflexivity|reflexivity|].
  intros r [<-|[<-|[]]]; simpl; intros [? ?]; discriminate.
Defined.

(** ** Lookup with a default *)

Lemma fill_nth (p : Fill) (data : Series) (keys : list Z) (i : nat) :
  nth_error (fill p data keys) i
  = option_map (fun k => match index_get k data with
                         | Some v => scaled (fill_per p) v
                         | None => fill_default p
                         end) (nth_error keys i).
Proof. unfold fill. apply nth_error_map. Qed.

Lemma fill_length (p : Fill) (data : Series) (keys : list Z) :
  length (fill p data keys) = length keys.
Proof. unfold fill. apply length_map. Qed.

(** A key that no row of the grouped subset carries has no entry in the
    aggregation result. *)
Lemma groupby_mean_absent (sub : DataFrame) (x : Dim) (m : Metric) (data : Series) (k : Z) :
  groupby_mean sub x m = Ok data ->
  (forall r, In r (rows sub) -> dim_of x r <> k) ->
  index_get k data = None /\ ~ In k (map fst data).
Proof.
  intros H Hno. apply groupby_mean_Ok in H. subst data.
  assert (Hget : index_get k
            (group_means mean
               (split_groups (map (fun r => (dim_of x r, metric_of m r)) (rows sub))))
          = None).
  { rewrite group_means_get, filter_none; [reflexivity|].
    intros r Hr. specialize (Hno r Hr). now destruct (Z.eqb_spec (dim_of x r) k). }
  split; [exact Hget|]. rewrite index_get_keys. tauto.
Qed.


(** ** The scaling-efficiency series *)

Lemma positive_iff (x : Q) : positive x = true <-> (0 < x)%Q.
Proof.
  unfold positive. rewrite negb_true_iff, <- not_true_iff_false, Qle_bool_iff.
  split; [apply Qnot_le_lt|apply Qlt_not_le].
Qed.

Lemma sorted_unique_column (df : DataFrame) (d : Dim) (ks : list Z) :
  sorted_unique df d = Ok ks -> has_column df (dim_name d) = true.
Proof.
  unfold sorted_unique, int_column. intros H.
  apply bind_Ok in H as (? & H & _). apply bind_Ok in H as (? & H & _).
  now apply getitem_Ok in H.
Qed.

Lemma strictly_sorted_head (c0 : Z) (rest : list Z) (c : Z) :
  StronglySorted Z.lt (c0 :: rest) -> In c (c0 :: rest) -> c0 <= c.
Proof.
  intros Hs [->|Hin]; [lia|].
  inversion Hs as [|? ? _ Hlt]; subst.
  rewrite List.Forall_forall in Hlt. specialize (Hlt c Hin). lia.
Qed.

(** C10: in the scaling-efficiency subplot, the series of an entry size is
    computed only when the smallest observed writer-thread count has a mean
    throughput for that entry size and this mean is strictly positive; every
    value of the series is then a mean divided by this non-zero baseline (or
    the default 0), and otherwise the series is left out.  The subscript
    [consumers_list[0]] never fails. *)
Theorem scaling_series_needs_positive_baseline :
  forall (df : DataFrame) (consumers_list : list Z) (i : nat) (entry_size : Z),
    has_column df "entry_size_bytes" = true ->
    has_column df "entries_per_sec" = true ->
    sorted_unique df Consumers = Ok consumers_list ->
    In entry_size (map entry_size_bytes (rows df)) ->
    exists c0,
      hd_error consumers_list = Some c0
      /\ In c0 (map consumers (rows df))
      /\ (forall c, In c (map consumers (rows df)) -> c0 <= c)
      /\ let of_threads c :=
           List.filter (fun r => consumers r =? c)
             (List.filter (fun r => entry_size_bytes r =? entry_size) (rows df)) in
         let baseline := mean (map entries_per_sec (of_threads c0)) in
         (of_threads c0 <> [] -> (0 < baseline)%Q ->
          ~ (baseline == 0)%Q
          /\ exists ys,
              scaling_line df consumers_list i entry_size
              = Ok [Plot (as_floats consumers_list) ys (kb_label entry_size)]
              /\ length ys = length consumers_list
              /\ forall j c,
                  nth_error consumers_list j = Some c ->
                  nth_error ys j
                  = Some (match of_threads c with
                          | [] => 0%Q
                          | g => (mean (map entries_per_sec g) / baseline)%Q
                          end))
         /\ (of_threads c0 = [] \/ ~ (0 < baseline)%Q ->
             scaling_line df consumers_list i entry_size = Ok []).
Proof.
  intros df consumers_list i entry_size Hes Heps Hsu Hobs.
  pose proof (sorted_unique_column _ _ _ Hsu) as Hc.
  apply sorted_unique_Ok in Hsu.
  destruct (sorted_unique_spec (map (dim_of Consumers) (rows df))) as [Hsorted Hmem].
  rewrite <- Hsu in Hsorted, Hmem.
  apply in_map_iff in Hobs as (r0 & _ & Hr0).
  assert (Hin0 : In (consumers r0) consumers_list)
    by (apply Hmem; apply (in_map consumers _ _ Hr0)).
  destruct consumers_list as [|c0 rest]; [destruct Hin0|].
  exists c0. split; [reflexivity|].
  split; [apply Hmem; now left|].
  split; [intros c Hcin; apply (strictly_sorted_head c0 rest c Hsorted), Hmem, Hcin|].
  intros of_threads baseline.
  assert (Hget : forall c,
             index_get c
               (group_means mean
                  (split_groups
                     (map (fun r => (dim_of Consumers r, metric_of EntriesPerSec r))
                        (List.filter (fun r => entry_size_bytes r =? entry_size)
                           (rows df)))))
             = match of_threads c with
               | [] => None
               | g => Some (mean (map entries_per_sec g))
               end)
    by (intros c; apply group_means_get).
  assert (Hrun : scaling_line df (c0 :: rest) i entry_size
                 = match of_threads c0 with
                   | [] => Ok []
                   | g =>
                       if positive (mean (map entries_per_sec g))
                       then Ok [Plot (as_floats (c0 :: rest))
                                  (fill (normalized_by (mean (map entries_per_sec g)))
                                     (group_means mean
                                        (split_groups
                                           (map (fun r => (dim_of Consumers r,
                                                           metric_of EntriesPerSec r))
                                              (List.filter
                                                 (fun r => entry_size_bytes r =? entry_size)
                                                 (rows df)))))
                                     (c0 :: rest))
                                  (kb_label entry_size)]
                       else Ok []
                   end).
  { unfold scaling_line.
    rewrite (where_eq_present df EntrySizeBytes entry_size Hes). cbn [bind].
    rewrite (groupby_mean_present
               (mkFrame (columns df)
                  (List.filter (fun r => dim_of EntrySizeBytes r =? entry_size) (rows df)))
               Consumers EntriesPerSec Hc Heps).
    cbn [bind item nth_error rows].
    rewrite Hget. destruct (of_threads c0); reflexivity. }
  split.
  - intros Hne Hpos. split; [intros Hz; rewrite Hz in Hpos; now apply Qlt_irrefl in Hpos|].
    apply positive_iff in Hpos. subst baseline.
    rewrite Hrun. revert Hpos.
    destruct (of_threads c0) as [|r g]; [congruence|]. intros Hpos.
    cbv beta iota zeta. rewrite Hpos.
    eexists. split; [reflexivity|]. split; [apply fill_length|].
    intros j c Hj. rewrite fill_nth, Hj. simpl. rewrite Hget.
    now destruct (of_threads c).
  - intros Hskip. rewrite Hrun. subst baseline. revert Hskip.
    destruct (of_threads c0) as [|r g]; [reflexivity|].
    intros [|Hnp]; [discriminate|]. cbv beta iota zeta.
    destruct (positive _) eqn:Ep; [|reflexivity].
    apply positive_iff in Ep. contradiction.
Qed.

Lemma scaling_series_needs_positive_baseline_witness :
  exists c0,
    hd_error [4] = Some c0
    /\ In c0 (map consumers (rows example_dataset))
    /\ (forall c, In c (map consumers (rows example_dataset)) -> c0 <= c)
    /\ let of_threads c :=
         List.filter (fun r => consumers r =? c)
           (List.filter (fun r => entry_size_bytes r =? 1024) (rows example_dataset)) in
       let baseline := mean (map entries_per_sec (of_threads c0)) in
       (of_threads c0 <> [] -> (0 < baseline)%Q ->
        ~ (baseline == 0)%Q
        /\ exists ys,
            scaling_line example_dataset [4] 0 1024
            = Ok [Plot (as_floats [4]) ys (kb_label 1024)]
            /\ length ys = length [4]
            /\ forall j c,
                nth_error [4] j = Some c ->
                nth_error ys j
                = Some (match of_threads c with
                        | [] => 0%Q
                        | g => (mean (map entries_per_sec g) / baseline)%Q
                        end))
       /\ (of_threads c0 = [] \/ ~ (0 < baseline)%Q ->
           scaling_line example_dataset [4] 0 1024 = Ok []).
Proof.
  apply (scaling_series_needs_positive_baseline example_dataset [4] 0%nat 1024);
    [reflexivity|reflexivity|vm_compute; reflexivity|simpl; auto].
Defined.

(** ** Axis keys *)

Ltac invert_binds :=
  repeat match goal with
         | H : bind _ _ = Ok _ |- _ =>
             let a := fresh "a" in
             let E := fresh "E" in
             apply bind_Ok in H as (a & E & H)
         end.

Ltac observed_keys :=
  repeat match goal with
         | H : sorted_unique _ _ = Ok _ |- _ => apply sorted_unique_Ok in H; subst
         end.

Lemma encryption_panel_axis (df : DataFrame) (title : string) (d : Dim) (m : Metric)
    (per : option Q) (s : Subplot) :
  encryption_panel df title d m per = Ok s -> axes_of s = [observed df d].
Proof.
  unfold encryption_panel. intros H. invert_binds. observed_keys.
  injection H as <-. reflexivity.
Qed.

Lemma pivot_mean_axes (df : DataFrame) (d1 d2 : Dim) (m : Metric) (p : Pivot) :
  pivot_mean df d1 d2 m = Ok p ->
  p_index p = observed df d1 /\ p_columns p = observed df d2.
Proof.
  unfold pivot_mean. intros H. invert_binds. injection H as <-. simpl.
  split; [|reflexivity].
  rewrite split_groups_keys_eq, map_map. reflexivity.
Qed.

Lemma sns_heatmap_Ok (title : string) (table : Pivot) (s : Subplot) :
  sns_heatmap title table = Ok s ->
  s = Heatmap title table /\ p_index table <> [] /\ p_columns table <> [].
Proof.
  unfold sns_heatmap. destruct (p_index table), (p_columns table); try discriminate.
  intros [= <-]. repeat split; discriminate.
Qed.

(** The encryption axis of the two bar charts is the literal [[0, 1]], whatever
    was measured: on a dataset measured with encryption only, 0 is on the
    axis and is not an observed value. *)
Lemma encryption_axis_is_fixed :
  (exists a b c d,
      compression_effect_figure example_dataset
      = Ok [a; b; Chart "(c) Compression vs Encryption" [0; 1] c; d])
  /\ (exists a b c d,
         entry_size_effect_figure example_dataset
         = Ok [a; b; Chart "(c) Entry Size vs Encryption" [0; 1] c; d])
  /\ observed example_dataset UseEncryption = [1]
  /\ ~ sorted_distinct_of [0; 1] (map use_encryption (rows example_dataset)).
Proof.
  split; [do 4 eexists; vm_compute; reflexivity|].
  split; [do 4 eexists; vm_compute; reflexivity|].
  split; [reflexivity|].
  intros [_ H]. destruct (proj1 (H 0) (or_introl eq_refl)) as [|[|[]]]; discriminate.
Qed.

(** C5, as the code has it: in every view the keys along an axis are the
    ascending distinct values observed for the axis dimension in the dataset
    the view works on (the filtered subset in the batch-analysis view), with
    one exception: the encryption axis of the compression-vs-encryption and
    entry-size-vs-encryption subplots is the fixed list [[0, 1]]. *)
Theorem axis_keys_observed_except_encryption_axis :
  forall df : DataFrame,
    (forall d, sorted_distinct_of (observed df d) (map (dim_of d) (rows df)))
    /\ (forall fig,
           encryption_effect_figure df = Ok fig ->
           map axes_of fig
           = [[observed df BatchSize]; [observed df EntrySizeBytes];
              [observed df CompressionLevel]; [observed df Consumers]])
    /\ (forall fig,
           compression_effect_figure df = Ok fig ->
           map axes_of fig
           = [[observed df BatchSize]; [observed df EntrySizeBytes];
              [[0; 1]]; [observed df Consumers]])
    /\ (forall fig,
           entry_size_effect_figure df = Ok fig ->
           map axes_of fig
           = [[observed df BatchSize]; [observed df CompressionLevel];
              [[0; 1]]; [observed df Consumers]])
    /\ (forall fig,
           writer_threads_effect_figure df = Ok fig ->
           map axes_of fig
           = [[observed df Consumers]; [observed df Consumers];
              [observed df Consumers]; [observed df Consumers]])
    /\ (forall fig,
           batch_size_effect_figure df = Ok fig ->
           map axes_of fig
           = [[observed df BatchSize]; [observed df BatchSize];
              [observed df BatchSize]; [observed df BatchSize]])
    /\ (forall fig,
           heatmaps_figure df = Ok fig ->
           map axes_of fig
           = [[observed df BatchSize; observed df CompressionLevel];
              [observed df EntrySizeBytes; observed df UseEncryption];
              [observed df Consumers; observed df EntrySizeBytes];
              [observed df BatchSize; observed df Consumers]])
    /\ (forall filtered_df fig,
           where_eq2 df CompressionLevel 0 UseEncryption 1 = Ok filtered_df ->
           batch_analysis_figure filtered_df = Ok fig ->
           map axes_of fig
           = [[observed filtered_df BatchSize]; [observed filtered_df BatchSize]]
           /\ forall r, In r (rows filtered_df) <->
                        In r (rows df) /\ compression_level r = 0 /\ use_encryption r = 1).
Proof.
  intros df.
  split; [intros d; apply sorted_unique_spec|].
  split.
  { intros fig H. unfold encryption_effect_figure in H. invert_binds.
    injection H as <-. simpl.
    repeat match goal with
           | H : encryption_panel _ _ _ _ _ = Ok _ |- _ =>
               apply encryption_panel_axis in H; rewrite H; clear H
           end.
    reflexivity. }
  split.
  { intros fig H. unfold compression_effect_figure in H. invert_binds.
    observed_keys. injection H as <-. reflexivity. }
  split.
  { intros fig H. unfold entry_size_effect_figure in H. invert_binds.
    observed_keys. injection H as <-. reflexivity. }
  split.
  { intros fig H. unfold writer_threads_effect_figure in H. invert_binds.
    observed_keys. injection H as <-. reflexivity. }
  split.
  { intros fig H. unfold batch_size_effect_figure in H. invert_binds.
    observed_keys. injection H as <-. reflexivity. }
  split.
  { intros fig H. unfold heatmaps_figure in H. invert_binds.
    injection H as <-.
    repeat match goal with
           | H : sns_heatmap _ _ = Ok _ |- _ =>
               apply sns_heatmap_Ok in H; destruct H as (-> & _ & _)
           end.
    simpl.
    repeat match goal with
           | H : pivot_mean _ _ _ _ = Ok _ |- _ =>
               apply pivot_mean_axes in H; destruct H as [-> ->]
           end.
    reflexivity. }
  intros filtered_df fig Hf H. split.
  - unfold batch_analysis_figure in H. invert_binds.
    observed_keys. injection H as <-. reflexivity.
  - apply where_eq2_Ok in Hf. subst filtered_df. simpl. intros r.
    rewrite List.filter_In, andb_true_iff, !Z.eqb_eq. tauto.
Qed.

Lemma axis_keys_observed_except_encryption_axis_witness :
  (exists fig,
      compression_effect_figure example_dataset = Ok fig
      /\ map axes_of fig
         = [[observed example_dataset BatchSize]; [observed example_dataset EntrySizeBytes];
            [[0; 1]]; [observed example_dataset Consumers]])
  /\ (exists fig,
         heatmaps_figure example_dataset = Ok fig
         /\ map axes_of fig
            = [[observed example_dataset BatchSize;
                observed example_dataset CompressionLevel];
               [observed example_dataset EntrySizeBytes;
                observed example_dataset UseEncryption];
               [observed example_dataset Consumers;
                observed example_dataset EntrySizeBytes];
               [observed example_dataset BatchSize; observed example_dataset Consumers]])
  /\ (exists fig,
         batch_analysis_figure example_dataset = Ok fig
         /\ map axes_of fig
            = [[observed example_dataset BatchSize];
               [observed example_dataset BatchSize]]).
Proof.
  split; [|split].
  - destruct (compression_effect_figure example_dataset) as [fig|e] eqn:E;
      [|vm_compute in E; discriminate].
    exists fig. split; [reflexivity|].
    apply (axis_keys_observed_except_encryption_axis example_dataset), E.
  - destruct (heatmaps_figure example_dataset) as [fig|e] eqn:E;
      [|vm_compute in E; discriminate].
    exists fig. split; [reflexivity|].
    apply (axis_keys_observed_except_encryption_axis example_dataset), E.
  - destruct (batch_analysis_figure example_dataset) as [fig|e] eqn:E;
      [|vm_compute in E; discriminate].
    exists fig. split; [reflexivity|].
    apply (axis_keys_observed_except_encryption_axis example_dataset);
      [vm_compute; reflexivity|exact E].
Defined.

(** ** Before the first view *)

Lemma main_phases (input_file output_dir : string) (w : World) :
  main input_file output_dir w
  = (df <~ startup input_file output_dir ;;
     _ <~ generate_all_plots df output_dir ;;
     closing output_dir) w.
Proof.
  unfold main, startup, closing, bindM, ret, print, print_observed, lift.
  cbv beta iota.
  destruct (makedirs output_dir w) as [[[]|e] w0]; cbv beta iota; [|reflexivity].
  destruct (load_gdpr_data input_file _) as [[df|e] w']; cbv beta iota; [|reflexivity].
  repeat (match goal with
          | |- context [sorted_unique ?a ?b] => destruct (sorted_unique a b)
          end; cbv beta iota; try reflexivity).
Qed.

Lemma assign_labels_missing (df : DataFrame) (name : string) (src : Dim)
    (table : list (Z * string)) (set : option string -> Row -> Row) :
  has_column df (dim_name src) = false ->
  assign_labels df name src table set = Raise (KeyError (dim_name src)).
Proof. intros H. unfold assign_labels, getitem. now rewrite H. Qed.

Lemma add_labels_missing (table : DataFrame) :
  ~ has_loader_columns table -> exists c, add_labels table = Raise (KeyError c).
Proof.
  intros Hno. unfold add_labels.
  destruct (has_column table "use_encryption") eqn:He.
  2:{ rewrite (assign_labels_missing table _ UseEncryption) by exact He. simpl. eauto. }
  destruct (assign_labels_ok table "encryption_label" UseEncryption
              encryption_labels set_encryption_label He) as (c1 & E1 & H1).
  rewrite E1. cbn [bind].
  destruct (has_column table "compression_level") eqn:Hc.
  2:{ rewrite (assign_labels_missing _ _ CompressionLevel).
      - simpl. eauto.
      - rewrite (has_column_rows _ _ []), H1. simpl. now rewrite Hc. }
  match goal with |- context [assign_labels ?df "compression_label"] =>
    destruct (assign_labels_ok df "compression_label" CompressionLevel
                compression_labels set_compression_label) as (c2 & E2 & H2);
      [rewrite (has_column_rows _ _ []), H1; simpl; now rewrite Hc|]
  end.
  rewrite E2. cbn [bind].
  destruct (has_column table "entry_size_bytes") eqn:Hs.
  - exfalso. apply Hno. now repeat split.
  - rewrite (assign_labels_missing _ _ EntrySizeBytes).
    + eauto.
    + rewrite (has_column_rows _ _ []), H2, (has_column_rows _ _ []), H1.
      simpl. now rewrite Hs.
Qed.

Lemma sorted_unique_missing (df : DataFrame) (d : Dim) :
  has_column df (dim_name d) = false ->
  sorted_unique df d = Raise (KeyError (dim_name d)).
Proof. intros H. unfold sorted_unique, int_column, getitem. now rewrite H. Qed.

Lemma makedirs_cases (path : string) (w : World) :
  makedirs path w = (Ok tt, w) \/ exists e, makedirs path w = (Raise e, w).
Proof.
  unfold makedirs. destruct path as [|c path]; [eauto|].
  destruct (inputs w !! String c path), (files w !! String c path); eauto.
Qed.

(** The load succeeds exactly on a table that has the columns the loader
    reads; it depends on what the path holds only and leaves the world as
    it was. *)
Lemma load_gdpr_data_cases (input_file : string) (w : World) :
  (exists table cols,
      inputs w !! input_file = Some (Table table)
      /\ has_loader_columns table
      /\ (forall w', inputs w' !! input_file = inputs w !! input_file ->
                     load_gdpr_data input_file w'
                     = (Ok (mkFrame cols (map labelled (rows table))), w'))
      /\ forall d, has_column (mkFrame cols (map labelled (rows table))) (dim_name d)
                   = has_column table (dim_name d))
  \/ ((~ exists table,
          inputs w !! input_file = Some (Table table) /\ has_loader_columns table)
      /\ exists e, forall w', inputs w' !! input_file = inputs w !! input_file ->
                              files w' !! input_file = files w !! input_file ->
                              load_gdpr_data input_file w' = (Raise e, w')).
Proof.
  assert (Hrun : forall w', inputs w' !! input_file = inputs w !! input_file ->
            files w' !! input_file = files w !! input_file ->
            load_gdpr_data input_file w'
            = (match inputs w !! input_file with
               | Some EmptyFile => Raise EmptyDataError
               | Some Malformed => Raise ParserError
               | Some (Table df) => add_labels df
               | None =>
                   match files w !! input_file with
                   | Some _ => Raise UnicodeDecodeError
                   | None => Raise (FileNotFoundError input_file)
                   end
               end, w')).
  { intros w' Hw' Hf'. unfold load_gdpr_data, bindM, read_csv, lift.
    rewrite Hw', Hf'.
    destruct (inputs w !! input_file) as [[| |table]|]; try reflexivity.
    now destruct (files w !! input_file). }
  destruct (inputs w !! input_file) as [[| |table]|] eqn:Hfile.
  - right. split; [intros (t & [=] & _)|eauto].
  - right. split; [intros (t & [=] & _)|eauto].
  - destruct (has_column table "use_encryption") eqn:He;
      [destruct (has_column table "compression_level") eqn:Hc;
       [destruct (has_column table "entry_size_bytes") eqn:Hs|]|].
    + left. destruct (add_labels_ok table He Hc Hs) as (cols & Hadd & Hcols).
      exists table, cols. split; [reflexivity|]. split; [now repeat split|].
      split.
      { intros w' Hw'. unfold load_gdpr_data, bindM, read_csv, lift.
        now rewrite Hw', Hadd. }
      intros d. rewrite (has_column_rows _ _ []), Hcols.
      destruct d; simpl; now rewrite !orb_false_r.
    + right. assert (Hno : ~ has_loader_columns table)
        by (intros (_ & _ & H); congruence).
      split; [intros (t & [= <-] & H); contradiction|].
      destruct (add_labels_missing table Hno) as (c & Hc').
      exists (KeyError c). intros w' Hw' Hf'. now rewrite (Hrun w' Hw' Hf'), Hc'.
    + right. assert (Hno : ~ has_loader_columns table)
        by (intros (_ & H & _); congruence).
      split; [intros (t & [= <-] & H); contradiction|].
      destruct (add_labels_missing table Hno) as (c & Hc').
      exists (KeyError c). intros w' Hw' Hf'. now rewrite (Hrun w' Hw' Hf'), Hc'.
    + right. assert (Hno : ~ has_loader_columns table)
        by (intros (H & _ & _); congruence).
      split; [intros (t & [= <-] & H); contradiction|].
      destruct (add_labels_missing table Hno) as (c & Hc').
      exists (KeyError c). intros w' Hw' Hf'. now rewrite (Hrun w' Hw' Hf'), Hc'.
  - right. split; [intros (t & [=] & _)|].
    destruct (files w !! input_file); eauto.
Qed.

Ltac step := unfold bindM at 1; cbv beta iota.
Ltac step_print := unfold bindM at 1; unfold print at 1; cbv beta iota.

Lemma print_observed_present (what : string) (df : DataFrame) (d : Dim) (w : World) :
  has_column df (dim_name d) = true ->
  print_observed what df d w
  = (Ok tt, mkWorld (inputs w) (files w)
              (console w ++ [[Str "  - "; Str what; Str ": "; Keys (observed df d)]])).
Proof.
  intros H. unfold print_observed, bindM, lift, print.
  now rewrite (sorted_unique_present df d H).
Qed.

Lemma print_observed_missing (what : string) (df : DataFrame) (d : Dim) (w : World) :
  has_column df (dim_name d) = false ->
  print_observed what df d w = (Raise (KeyError (dim_name d)), w).
Proof.
  intros H. unfold print_observed, bindM, lift.
  now rewrite (sorted_unique_missing df d H).
Qed.

(** Without a table that has the five parameter columns, [main] ends before
    its first view, and before announcing that it generates plots. *)
Lemma startup_stops (input_file output_dir : string) (w : World) :
  ~ (exists table,
        inputs w !! input_file = Some (Table table)
        /\ forall d, has_column table (dim_name d) = true) ->
  exists e out,
    startup input_file output_dir w
    = (Raise e, mkWorld (inputs w) (files w) (console w ++ out))
    /\ ~ In (Lit "Generating plots...") out.
Proof.
  intros Hno.
  destruct (makedirs_cases output_dir w) as [Hdir|(e & Hdir)].
  2:{ exists e, []. split; [|intros []].
      unfold startup. step. rewrite Hdir. rewrite app_nil_r. now destruct w. }
  destruct (load_gdpr_data_cases input_file w)
    as [(table & cols & Hfile & (He & Hc & Hs) & Hload & Hdims)|(_ & e & Hload)].
  - destruct (has_column table "batch_size") eqn:Hb;
      [destruct (has_column table "consumers") eqn:Hw|].
    + exfalso. apply Hno. exists table. split; [assumption|].
      intros []; assumption.
    + do 2 eexists. split.
      * unfold startup. step. rewrite Hdir. cbv beta iota.
        step_print. step. rewrite Hload by reflexivity.
        cbv beta iota. step_print. step_print. step.
        rewrite print_observed_present by (rewrite (Hdims BatchSize); exact Hb).
        step.
        rewrite print_observed_present by (rewrite (Hdims EntrySizeBytes); exact Hs).
        step.
        rewrite print_observed_missing by (rewrite (Hdims Consumers); exact Hw).
        cbn [inputs files console]. rewrite <- !app_assoc. reflexivity.
      * simpl. intros [H|[H|[H|[H|[H|[]]]]]]; discriminate.
    + do 2 eexists. split.
      * unfold startup. step. rewrite Hdir. cbv beta iota.
        step_print. step. rewrite Hload by reflexivity.
        cbv beta iota. step_print. step_print. step.
        rewrite print_observed_missing by (rewrite (Hdims BatchSize); exact Hb).
        cbn [inputs files console]. rewrite <- !app_assoc. reflexivity.
      * simpl. intros [H|[H|[H|[]]]]; discriminate.
  - do 2 eexists. split.
    + unfold startup. step. rewrite Hdir. cbv beta iota.
      step_print. step. rewrite Hload by reflexivity. reflexivity.
    + simpl. intros [H|[]]; discriminate.
Qed.

(** A table without the [logical_throughput_gib_sec] column loads, the first
    two views run and write their files, and the process ends with a
    [KeyError] in the third view. *)
Lemma missing_measurement_is_not_a_load_error :
  has_column no_data_throughput "logical_throughput_gib_sec" = false
  /\ (exists df,
         load_gdpr_data "results.csv" no_data_throughput_world
         = (Ok df, no_data_throughput_world))
  /\ exists w',
      main "results.csv" "gdpr_plots" no_data_throughput_world
      = (Raise (KeyError "logical_throughput_gib_sec"), w')
      /\ In (Lit "Generating plots...") (console w')
      /\ is_Some (files w' !! "gdpr_plots/encryption_effect.png")
      /\ is_Some (files w' !! "gdpr_plots/compression_effect.pdf")
      /\ files w' !! "gdpr_plots/entry_size_effect.png" = None.
Proof.
  split; [reflexivity|]. split; [eexists; vm_compute; reflexivity|].
  eexists. split; [vm_compute; reflexivity|].
  split; [simpl; tauto|].
  split; [vm_compute; eauto|]. split; [vm_compute; eauto|]. vm_compute. reflexivity.
Qed.

(** C3, as the code has it: the load fails exactly when the file is absent,
    does not parse, or lacks one of the three columns the loader reads
    ([use_encryption], [compression_level], [entry_size_bytes]); whenever the
    file is unreadable or lacks any of the five parameter columns (those
    three, [batch_size], [consumers]) the process ends with an exception
    before any chart-generation work: no artifact is touched and
    [Generating plots...] is never printed. *)
Theorem unreadable_or_missing_parameter_stops_before_charts :
  forall (input_file output_dir : string) (w : World),
    ((exists e, load_gdpr_data input_file w = (Raise e, w))
     <-> ~ exists table,
           inputs w !! input_file = Some (Table table) /\ has_loader_columns table)
    /\ ((exists df, load_gdpr_data input_file w = (Ok df, w))
        <-> exists table,
            inputs w !! input_file = Some (Table table) /\ has_loader_columns table)
    /\ (~ (exists table,
              inputs w !! input_file = Some (Table table)
              /\ forall d, has_column table (dim_name d) = true) ->
        exists e out,
          main input_file output_dir w
          = (Raise e, mkWorld (inputs w) (files w) (console w ++ out))
          /\ ~ In (Lit "Generating plots...") out).
Proof.
  intros input_file output_dir w. split; [|split].
  - destruct (load_gdpr_data_cases input_file w)
      as [(table & cols & Hfile & Hcols & Hload & _)|(Hno & e & Hload)].
    + rewrite (Hload w eq_refl).
      split; [intros (e & [=])|]. intros Hno. exfalso. apply Hno. eauto.
    + rewrite (Hload w eq_refl eq_refl). split; [intros _; exact Hno|eauto].
  - destruct (load_gdpr_data_cases input_file w)
      as [(table & cols & Hfile & Hcols & Hload & _)|(Hno & e & Hload)].
    + rewrite (Hload w eq_refl). split; eauto.
    + rewrite (Hload w eq_refl eq_refl).
      split; [intros (df & [=])|]. intros H. contradiction.
  - intros Hno.
    destruct (startup_stops input_file output_dir w Hno) as (e & out & Hs & Hout).
    exists e, out. split; [|exact Hout].
    rewrite main_phases. unfold bindM at 1. now rewrite Hs.
Qed.

Lemma unreadable_or_missing_parameter_stops_before_charts_witness :
  exists e out,
    main "results.csv" "gdpr_plots" no_batch_size_world
    = (Raise e, mkWorld (inputs no_batch_size_world) (files no_batch_size_world)
                  (console no_batch_size_world ++ out))
    /\ ~ In (Lit "Generating plots...") out.
Proof.
  apply (unreadable_or_missing_parameter_stops_before_charts
           "results.csv" "gdpr_plots" no_batch_size_world).
  intros (table & Hfile & Hall). vm_compute in Hfile. injection Hfile as <-.
  specialize (Hall BatchSize). discriminate.
Defined.

(** ** The views in sequence *)

Lemma generate_all_plots_views (df : DataFrame) (output_dir : string) (w : World) :
  generate_all_plots df output_dir w = for_M (fun v => v df output_dir) views w.
Proof.
  unfold generate_all_plots, views, figure_views. cbn [app for_M]. unfold bindM, ret.
  repeat match goal with
         | |- context [match ?v df output_dir ?w0 with _ => _ end] =>
             destruct (v df output_dir w0) as [[[]|?] ?]; try reflexivity
         end.
Qed.

Lemma for_M_app {A} (f : A -> M unit) (l1 l2 : list A) (w w1 : World) :
  for_M f l1 w = (Ok tt, w1) -> for_M f (l1 ++ l2) w = for_M f l2 w1.
Proof.
  revert w. induction l1 as [|a l1 IH]; simpl; intros w.
  - unfold ret. now intros [= ->].
  - unfold bindM. destruct (f a w) as [[[]|e] w']; [apply IH|discriminate].
Qed.

(** A pass that raises ends the loop: the passes after it do not run. *)
Lemma for_M_raise {A} (f : A -> M unit) (before after : list A) (a : A) (e : Exn)
    (w w1 w2 : World) :
  for_M f before w = (Ok tt, w1) ->
  f a w1 = (Raise e, w2) ->
  for_M f (before ++ a :: after) w = (Raise e, w2).
Proof.
  intros Hb Ha. rewrite (for_M_app _ _ _ _ _ Hb). simpl. unfold bindM. now rewrite Ha.
Qed.

Lemma startup_columns (input_file output_dir : string) (w w0 : World) (df : DataFrame) :
  startup input_file output_dir w = (Ok df, w0) ->
  forall d, has_column df (dim_name d) = true.
Proof.
  unfold startup, bindM, print, print_observed, lift, ret. cbv beta iota.
  destruct (makedirs output_dir w) as [[[]|e] w1]; cbv beta iota; [|discriminate].
  destruct (load_gdpr_data input_file _) as [[df'|e] w']; cbv beta iota; [|discriminate].
  destruct (sorted_unique df' BatchSize) eqn:E1; cbv beta iota; [|discriminate].
  destruct (sorted_unique df' EntrySizeBytes) eqn:E2; cbv beta iota; [|discriminate].
  destruct (sorted_unique df' Consumers) eqn:E3; cbv beta iota; [|discriminate].
  destruct (sorted_unique df' UseEncryption) eqn:E4; cbv beta iota; [|discriminate].
  destruct (sorted_unique df' CompressionLevel) eqn:E5; cbv beta iota; [|discriminate].
  intros [= <- _]. intros []; eapply sorted_unique_column; eassumption.
Qed.

Lemma prints_only_print (t : Text) : prints_only (print t).
Proof. exists [t]. reflexivity. Qed.

Lemma prints_only_bind (m : M unit) (k : unit -> M unit) :
  prints_only m -> prints_only (k tt) -> prints_only (bindM m k).
Proof.
  intros (out & Hm) (out' & Hk). exists (out ++ out'). intros w.
  unfold bindM. rewrite Hm, Hk. simpl. now rewrite app_assoc.
Qed.

Lemma prints_only_for_M {A} (f : A -> M unit) (l : list A) :
  (forall a, prints_only (f a)) -> prints_only (for_M f l).
Proof.
  intros Hf. induction l as [|a l IH]; simpl.
  - exists []. intros [i f' c]. unfold ret. simpl. now rewrite app_nil_r.
  - apply prints_only_bind; [apply Hf|exact IH].
Qed.

Lemma closing_returns (output_dir : string) : prints_only (closing output_dir).
Proof.
  unfold closing, print_plot_summary.
  do 4 (apply prints_only_bind; [apply prints_only_print|]).
  apply prints_only_bind.
  { apply prints_only_for_M. intros [i [filename description]].
    apply prints_only_bind; apply prints_only_print. }
  do 8 (apply prints_only_bind; [apply prints_only_print|]).
  apply prints_only_print.
Qed.

(** With eleven compression levels the second view raises [IndexError] at
    [hatches[10]]; the exception leaves [main]: the third view, which would
    have succeeded, never runs, its files do not appear, and the last line
    printed is the announcement made before the first view. *)
Lemma failing_view_ends_the_run :
  exists df w',
    load_gdpr_data "results.csv" eleven_levels_world = (Ok df, eleven_levels_world)
    /\ compression_effect_figure df = Raise IndexError
    /\ (exists fig, entry_size_effect_figure df = Ok fig)
    /\ main "results.csv" "gdpr_plots" eleven_levels_world = (Raise IndexError, w')
    /\ List.last (console w') [] = Lit "Generating plots..."
    /\ is_Some (files w' !! "gdpr_plots/encryption_effect.png")
    /\ files w' !! "gdpr_plots/compression_effect.png" = None
    /\ files w' !! "gdpr_plots/entry_size_effect.png" = None
    /\ files w' !! "gdpr_plots/heatmaps.png" = None.
Proof.
  do 2 eexists. split; [vm_compute; reflexivity|].
  split; [vm_compute; reflexivity|].
  split; [eexists; vm_compute; reflexivity|].
  split; [vm_compute; reflexivity|].
  split; [vm_compute; reflexivity|].
  split; [vm_compute; eauto|].
  repeat split; vm_compute; reflexivity.
Qed.

(** C4, as the code has it: [main] has no handler around its views.  Once
    the dataset is loaded, the first view that raises ends the run with that
    exception: the views after it are not executed and nothing more is
    printed; the artifacts of the views before it stay written.  An empty
    subset of the batch-analysis view, the last one, is not a failure: the
    view prints its diagnostic and [main] goes on to its closing summary and
    returns normally. *)
Theorem first_failing_view_ends_the_run :
  forall (input_file output_dir : string) (w w0 : World) (df : DataFrame),
    startup input_file output_dir w = (Ok df, w0) ->
    (forall before view after e w1 w2,
        views = before ++ view :: after ->
        for_M (fun v => v df output_dir) before w0 = (Ok tt, w1) ->
        view df output_dir w1 = (Raise e, w2) ->
        main input_file output_dir w = (Raise e, w2))
    /\ (forall w1,
           for_M (fun v => v df output_dir) figure_views w0 = (Ok tt, w1) ->
           (forall r, In r (rows df) ->
                      ~ (compression_level r = 0 /\ use_encryption r = 1)) ->
           exists out,
             main input_file output_dir w
             = (Ok tt, mkWorld (inputs w1) (files w1)
                         (console w1 ++ no_data_message :: out))).
Proof.
  intros input_file output_dir w w0 df Hstart.
  assert (Hmain : main input_file output_dir w
                  = (_ <~ for_M (fun v => v df output_dir) views ;;
                     closing output_dir) w0).
  { rewrite main_phases. unfold bindM at 1. rewrite Hstart.
    unfold bindM. now rewrite generate_all_plots_views. }
  split.
  - intros before view after e w1 w2 Hviews Hbefore Hview.
    rewrite Hmain. unfold bindM. rewrite Hviews.
    now rewrite (for_M_raise _ before after view e w0 w1 w2 Hbefore Hview).
  - intros w1 Hsix Hnone.
    pose proof (startup_columns _ _ _ _ _ Hstart) as Hcols.
    destruct (closing_returns output_dir) as (out & Hclose).
    exists out. rewrite Hmain. unfold bindM, views.
    rewrite (for_M_app _ _ _ _ _ Hsix). cbn [for_M]. unfold bindM, ret.
    rewrite (batch_analysis_when_empty df _ output_dir w1
               (where_eq2_present df CompressionLevel UseEncryption 0 1
                  (Hcols CompressionLevel) (Hcols UseEncryption))
               (f_equal (fun rs => empty (mkFrame (columns df) rs))
                  (no_encrypted_uncompressed_row df Hnone))).
    rewrite Hclose. cbn [inputs files console]. now rewrite <- app_assoc.
Qed.

Lemma first_failing_view_ends_the_run_witness :
  exists w2, main "results.csv" "gdpr_plots" eleven_levels_world = (Raise IndexError, w2).
Proof.
  eassert (Hstart : startup "results.csv" "gdpr_plots" eleven_levels_world = (Ok _, _))
    by (vm_compute; reflexivity).
  match type of Hstart with
  | _ = (Ok ?df, ?w0) =>
      eassert (Hfirst : for_M (fun v => v df "gdpr_plots")
                          [create_encryption_effect_plots] w0 = (Ok tt, _))
        by (vm_compute; reflexivity);
      match type of Hfirst with
      | _ = (_, ?w1) =>
          assert (Hsecond : create_compression_effect_plots df "gdpr_plots" w1
                            = (Raise IndexError, w1))
            by (vm_compute; reflexivity);
          exists w1;
          exact (proj1 (first_failing_view_ends_the_run
                          "results.csv" "gdpr_plots" eleven_levels_world w0 df Hstart)
                   [create_encryption_effect_plots] create_compression_effect_plots
                   [create_entry_size_effect_plots; create_writer_threads_effect_plots;
                    create_batch_size_effect_plots; create_heatmaps;
                    create_encryption_batch_analysis_plot]
                   IndexError w1 w1 eq_refl Hfirst Hsecond)
      end
  end.
Defined.

(** ** Groups and their rows *)

Lemma filter_filter_and {A} (f g : A -> bool) (l : list A) :
  List.filter g (List.filter f l) = List.filter (fun a => f a && g a) l.
Proof.
  induction l as [|a l IH]; simpl; [reflexivity|].
  destruct (f a); simpl; [|exact IH]. destruct (g a); now rewrite IH.
Qed.

(** The group a key heads holds the rows of that key, in their order. *)
Lemma split_groups_member {X} (kv : list (Z * X)) (k : Z) (xs : list X) :
  In (k, xs) (split_groups kv) -> xs = selected k kv /\ xs <> [].
Proof.
  intros Hin.
  pose proof (In_index_get _ _ _ (split_groups_sorted kv) Hin) as Hget.
  rewrite split_groups_get in Hget.
  destruct (selected k kv); [discriminate|]. injection Hget as <-. now split.
Qed.


(** ** Values observed in a subset *)

Lemma group_means_values (d : Dim) (m : Metric) (rs : list Row) :
  map snd (group_means mean
             (split_groups (map (fun r => (dim_of d r, metric_of m r)) rs)))
  = map (fun k => mean (map (metric_of m) (List.filter (fun r => dim_of d r =? k) rs)))
        (sorted (unique (map (dim_of d) rs))).
Proof.
  set (kv := map (fun r => (dim_of d r, metric_of m r)) rs).
  replace (map (dim_of d) rs) with (map fst kv)
    by (unfold kv; rewrite map_map; reflexivity).
  rewrite <- split_groups_keys_eq. unfold group_means. rewrite !map_map.
  apply map_ext_in. intros [k xs] Hin. simpl.
  apply split_groups_member in Hin as [-> _]. unfold kv.
  now rewrite selected_rows.
Qed.

Lemma observed_subset (df : DataFrame) (d : Dim) (f : Row -> bool) :
  incl (observed (mkFrame (columns df) (List.filter f (rows df))) d) (observed df d).
Proof.
  intros k. unfold observed. rewrite !sorted_In, !unique_In, !in_map_iff. simpl.
  intros (r & <- & Hr). apply List.filter_In in Hr as [Hr _]. eauto.
Qed.

Lemma observed_subset_full (df : DataFrame) (d : Dim) (f : Row -> bool) :
  observed (mkFrame (columns df) (List.filter f (rows df))) d = observed df d
  <-> forall r, In r (rows df) ->
                exists r', In r' (rows df) /\ f r' = true /\ dim_of d r' = dim_of d r.
Proof.
  split.
  - intros Heq r Hr.
    assert (Hin : In (dim_of d r) (observed df d))
      by (unfold observed; rewrite sorted_In, unique_In; now apply in_map).
    rewrite <- Heq in Hin. unfold observed in Hin.
    rewrite sorted_In, unique_In, in_map_iff in Hin. simpl in Hin.
    destruct Hin as (r' & Hk & Hr'). apply List.filter_In in Hr' as [? ?]. eauto.
  - intros Hall. apply strictly_sorted_ext; try apply sorted_unique_spec.
    intros k. split; [apply observed_subset|].
    unfold observed. rewrite !sorted_In, !unique_In, !in_map_iff. simpl.
    intros (r & <- & Hr). destruct (Hall r Hr) as (r' & Hr' & Hf & Hk).
    exists r'. split; [assumption|]. apply List.filter_In. now split.
Qed.


(** ** The ten hatch patterns *)

Lemma series_for_present (df : DataFrame) (g : Dim) (v : Z) (x : Dim) (p : Fill)
    (keys : list Z) :
  has_all_columns df -> exists vals, series_for df g v x p keys = Ok vals.
Proof.
  intros [Hd Hm]. unfold series_for.
  rewrite (where_eq_present df g v (Hd g)). cbn [bind].
  rewrite groupby_mean_present by (apply Hd || apply Hm). cbn [bind]. eauto.
Qed.

Lemma hatch_in_range (i : nat) : (i < 10)%nat -> exists h, item hatches i = Ok h.
Proof.
  intros Hi. unfold item. destruct (nth_error hatches i) eqn:E; [eauto|].
  apply nth_error_None in E. simpl in E. lia.
Qed.

Lemma hatch_out_of_range (i : nat) : (10 <= i)%nat -> item hatches i = Raise IndexError.
Proof.
  intros Hi. unfold item.
  now rewrite (proj2 (nth_error_None hatches i)) by (simpl; lia).
Qed.

(** A loop that draws bars gets through its groups when there are at most
    ten of them and stops with [IndexError] at the eleventh otherwise. *)
Lemma bars_loop (df : DataFrame) (g : Dim) (x : Dim) (keys : list Z) (p : Fill)
    (xs : list Q) (width : Q) (label : Z -> Text) (groups : list Z) (i : nat) :
  has_all_columns df ->
  (i <= 10)%nat ->
  ((i + length groups <= 10)%nat ->
   exists bars,
     for_each (fun i v => vals <- series_for df g v x p keys ;;
                          bar_at xs width label i v vals) i groups = Ok bars)
  /\ ((10 < i + length groups)%nat ->
      for_each (fun i v => vals <- series_for df g v x p keys ;;
                           bar_at xs width label i v vals) i groups = Raise IndexError).
Proof.
  intros Hall. revert i. induction groups as [|v groups IH]; intros i Hi.
  - split; [simpl; eauto|]. simpl. lia.
  - cbn [for_each length].
    destruct (series_for_present df g v x p keys Hall) as (vals & ->). cbn [bind].
    unfold bar_at at 1 3.
    destruct (Nat.eq_dec i 10%nat) as [->|Hne].
    + rewrite hatch_out_of_range by lia. split; [lia|reflexivity].
    + destruct (hatch_in_range i) as (h & ->); [lia|]. cbn [bind].
      destruct (IH (S i)) as [Hok Hbad]; [lia|]. split; intros Hlen.
      * destruct Hok as (bars & ->); [lia|]. cbn [bind]. eauto.
      * rewrite Hbad by lia. reflexivity.
Qed.

Lemma group_loop_bars (df : DataFrame) (g : Dim) (groups : list Z) (x : Dim)
    (keys : list Z) (p : Fill) (xs : list Q) (width : Q) (label : Z -> Text) :
  has_all_columns df ->
  ((length groups <= 10)%nat ->
   exists bars, group_loop df g groups x keys p (bar_at xs width label) = Ok bars)
  /\ ((10 < length groups)%nat ->
      group_loop df g groups x keys p (bar_at xs width label) = Raise IndexError).
Proof.
  intros Hall. unfold group_loop, enumerate.
  apply (bars_loop df g x keys p xs width label groups 0%nat Hall). lia.
Qed.

Ltac bars_ok Hall Hle :=
  match goal with
  | |- context [group_loop ?df ?g ?gs ?x ?k ?p (bar_at ?xs ?w ?l)] =>
      let bars := fresh "bars" in
      let E := fresh "E" in
      destruct (proj1 (group_loop_bars df g gs x k p xs w l Hall) Hle) as (bars & E);
      rewrite E; cbn [bind]
  end.

(** X3: the compression view and the entry-size view draw one bar series
    per observed compression level, respectively entry size, and give the
    i-th series the i-th of ten hatch patterns.  On a dataset with all nine
    columns each of the two views prepares its figure when there are at most
    ten such values and raises [IndexError] when there are more. *)
Theorem bar_views_stop_at_the_eleventh_group :
  forall df : DataFrame,
    has_all_columns df ->
    ((length (observed df CompressionLevel) <= 10)%nat ->
     exists fig, compression_effect_figure df = Ok fig)
    /\ ((10 < length (observed df CompressionLevel))%nat ->
        compression_effect_figure df = Raise IndexError)
    /\ ((length (observed df EntrySizeBytes) <= 10)%nat ->
        exists fig, entry_size_effect_figure df = Ok fig)
    /\ ((10 < length (observed df EntrySizeBytes))%nat ->
        entry_size_effect_figure df = Raise IndexError).
Proof.
  intros df Hall. pose proof Hall as [Hd Hm]. unfold observed.
  split; [|split; [|split]]; intros Hlen.
  - unfold compression_effect_figure.
    rewrite (sorted_unique_present df CompressionLevel (Hd _)). cbn [bind].
    rewrite (sorted_unique_present df BatchSize (Hd _)). cbn [bind].
    bars_ok Hall Hlen.
    rewrite (sorted_unique_present df EntrySizeBytes (Hd _)). cbn [bind].
    bars_ok Hall Hlen. bars_ok Hall Hlen.
    rewrite (sorted_unique_present df Consumers (Hd _)). cbn [bind].
    bars_ok Hall Hlen. eauto.
  - unfold compression_effect_figure.
    rewrite (sorted_unique_present df CompressionLevel (Hd _)). cbn [bind].
    rewrite (sorted_unique_present df BatchSize (Hd _)). cbn [bind].
    now rewrite (proj2 (group_loop_bars _ _ _ _ _ _ _ _ _ Hall) Hlen).
  - unfold entry_size_effect_figure.
    rewrite (sorted_unique_present df EntrySizeBytes (Hd _)). cbn [bind].
    rewrite (sorted_unique_present df BatchSize (Hd _)). cbn [bind].
    bars_ok Hall Hlen.
    rewrite (sorted_unique_present df CompressionLevel (Hd _)). cbn [bind].
    bars_ok Hall Hlen. bars_ok Hall Hlen.
    rewrite (sorted_unique_present df Consumers (Hd _)). cbn [bind].
    bars_ok Hall Hlen. eauto.
  - unfold entry_size_effect_figure.
    rewrite (sorted_unique_present df EntrySizeBytes (Hd _)). cbn [bind].
    rewrite (sorted_unique_present df BatchSize (Hd _)). cbn [bind].
    now rewrite (proj2 (group_loop_bars _ _ _ _ _ _ _ _ _ Hall) Hlen).
Qed.

Lemma nine_fields_all_columns (rs : list Row) : has_all_columns (mkFrame nine_fields rs).
Proof. split; [intros []|intros []]; reflexivity. Qed.

Lemma bar_views_stop_at_the_eleventh_group_witness :
  (exists fig, compression_effect_figure example_dataset = Ok fig)
  /\ compression_effect_figure eleven_levels = Raise IndexError.
Proof.
  split.
  - apply (bar_views_stop_at_the_eleventh_group example_dataset
             (nine_fields_all_columns _)).
    vm_compute. lia.
  - apply (bar_views_stop_at_the_eleventh_group eleven_levels
             (nine_fields_all_columns _)).
    vm_compute. lia.
Defined.

(** ** The lines of the combination charts *)

Lemma has_column_nonempty (df : DataFrame) (c : string) :
  has_column df c = true -> columns df <> [].
Proof. unfold has_column. destruct (columns df); [discriminate|congruence]. Qed.

Lemma where_eq2_columns (df sub : DataFrame) (d1 d2 : Dim) (v1 v2 : Z) :
  where_eq2 df d1 v1 d2 v2 = Ok sub -> columns df <> [].
Proof.
  unfold where_eq2. intros H. apply bind_Ok in H as (? & H & _).
  apply getitem_Ok in H. eapply has_column_nonempty, H.
Qed.

Lemma empty_iff_no_rows (cols : list string) (rs : list Row) :
  cols <> [] -> empty (mkFrame cols rs) = match rs with [] => true | _ => false end.
Proof. intros H. unfold empty. simpl. destruct rs; [reflexivity|]. now destruct cols. Qed.

Lemma combo_pass (df : DataFrame) (x : Dim) (keys : list Z) (p : Fill)
    (c : Z * Z * string) (out : list Draw) :
  (let '(enc, comp, label) := c in
   subset <- where_eq2 df UseEncryption enc CompressionLevel comp ;;
   if empty subset then Ok []
   else
     data <- groupby_mean subset x (fill_metric p) ;;
     Ok [Plot (as_floats keys) (fill p data keys) (Lit label)]) = Ok out ->
  if measured df c
  then exists ys, out = [Plot (as_floats keys) ys (Lit (snd c))]
                  /\ length ys = length keys
  else out = [].
Proof.
  destruct c as [[enc comp] label]. intros H.
  apply bind_Ok in H as (subset & Hs & H).
  pose proof (where_eq2_columns _ _ _ _ _ _ Hs) as Hcols.
  apply where_eq2_Ok in Hs. subst subset.
  rewrite (empty_iff_no_rows _ _ Hcols) in H.
  unfold measured, rows_at. cbn [fst snd].
  destruct (List.filter _ (rows df)); [now injection H as <-|].
  apply bind_Ok in H as (data & _ & H). injection H as <-.
  eexists. split; [reflexivity|apply fill_length].
Qed.

Lemma combo_passes (df : DataFrame) (x : Dim) (keys : list Z) (p : Fill)
    (combos : list (Z * Z * string)) (i : nat) (ds : list (list Draw)) :
  for_each (fun (i : nat) (c : Z * Z * string) =>
              let '(enc, comp, label) := c in
              subset <- where_eq2 df UseEncryption enc CompressionLevel comp ;;
              if empty subset then Ok []
              else
                data <- groupby_mean subset x (fill_metric p) ;;
                Ok [Plot (as_floats keys) (fill p data keys) (Lit label)])
           i combos = Ok ds ->
  map label_of (concat ds)
  = map (fun c => Lit (snd c)) (List.filter (measured df) combos)
  /\ List.Forall (fun d => positions_of d = as_floats keys
                           /\ length (heights_of d) = length keys) (concat ds).
Proof.
  revert i ds. induction combos as [|c combos IH]; intros i ds H.
  - injection H as <-. split; [reflexivity|constructor].
  - cbn [for_each] in H. apply bind_Ok in H as (out & Hout & H).
    apply bind_Ok in H as (rest & Hrest & H). injection H as <-.
    destruct (IH _ _ Hrest) as [Hl Hf]. apply combo_pass in Hout.
    cbn [concat List.filter]. rewrite map_app, Hl.
    destruct (measured df c).
    + destruct Hout as (ys & -> & Hlen). split; [reflexivity|].
      constructor; [now split|exact Hf].
    + subst out. split; [reflexivity|exact Hf].
Qed.

(** X4: a chart drawn over encryption/compression combinations has one
    line per combination that was measured at all, in the order of the
    combination list and under its label; a combination without rows gets no
    line and no legend entry.  Every line has one value per key of the
    axis. *)
Theorem combination_charts_draw_measured_combinations :
  forall (df : DataFrame) (combos : list (Z * Z * string)) (x : Dim) (keys : list Z)
         (p : Fill) (draws : list Draw),
    combo_loop df combos x keys p = Ok draws ->
    map label_of draws = map (fun c => Lit (snd c)) (List.filter (measured df) combos)
    /\ List.Forall (fun d => positions_of d = as_floats keys
                             /\ length (heights_of d) = length keys) draws.
Proof.
  intros df combos x keys p draws H. unfold combo_loop, enumerate in H.
  apply bind_Ok in H as (ds & Hloop & H). injection H as <-.
  exact (combo_passes df x keys p combos 0%nat ds Hloop).
Qed.

Lemma combination_charts_draw_measured_combinations_witness :
  exists draws,
    combo_loop example_dataset writer_combinations Consumers [4] throughput_k = Ok draws
    /\ map label_of draws
       = map (fun c => Lit (snd c))
           (List.filter (measured example_dataset) writer_combinations)
    /\ List.Forall (fun d => positions_of d = as_floats [4]
                             /\ length (heights_of d) = length [4]) draws.
Proof.
  destruct (combo_loop example_dataset writer_combinations Consumers [4] throughput_k)
    as [draws|e] eqn:E; [|vm_compute in E; discriminate].
  exists draws. split; [reflexivity|].
  exact (combination_charts_draw_measured_combinations _ _ _ _ _ _ E).
Defined.

(** ** The points of the batch-analysis lines *)

Lemma present_points_length (f : Q -> Q) (data : Series) (xs : list Q) (keys : list Z) :
  length xs = length keys ->
  length (present_points f data xs keys)
  = length (List.filter (fun k => match index_get k data with
                                  | Some _ => true
                                  | None => false
                                  end) keys).
Proof.
  unfold present_points. revert xs. induction keys as [|k keys IH]; intros [|x xs] H;
    try discriminate; [reflexivity|].
  simpl. rewrite length_app, IH by (simpl in H; lia).
  now destruct (index_get k data).
Qed.

Lemma same_members_same_length (l1 l2 : list Z) :
  List.NoDup l1 -> List.NoDup l2 -> (forall k, In k l1 <-> In k l2) ->
  length l1 = length l2.
Proof.
  intros H1 H2 H. apply Nat.le_antisymm; apply NoDup_incl_length; try assumption;
    intros k; apply H.
Qed.

Lemma present_keys_length (data : Series) (keys : list Z) :
  List.NoDup keys -> StronglySorted Z.lt (map fst data) -> incl (map fst data) keys ->
  length (List.filter (fun k => match index_get k data with
                                | Some _ => true
                                | None => false
                                end) keys)
  = length (map fst data).
Proof.
  intros Hk Hd Hincl. apply same_members_same_length.
  - now apply NoDup_List_filter.
  - now apply strictly_sorted_NoDup.
  - intros k. rewrite List.filter_In, index_get_keys. split.
    + intros [_ H]. now destruct (index_get k data).
    + intros H. split; [apply Hincl; now apply index_get_keys|].
      now destruct (index_get k data).
Qed.

Lemma combine_ticks_In (keys : list Z) (s : nat) (x : Q) (k : Z) :
  In (x, k) (combine (map (fun i => inject_Z (Z.of_nat i)) (seq (S s) (length keys))) keys)
  <-> exists i, nth_error keys i = Some k /\ x = inject_Z (Z.of_nat (S (s + i))).
Proof.
  revert s. induction keys as [|k0 keys IH]; intros s; simpl.
  - split; [tauto|]. intros ([|i] & H & _); discriminate.
  - rewrite IH. split.
    + intros [[= <- <-]|(i & Hi & ->)].
      * exists 0%nat. now rewrite Nat.add_0_r.
      * exists (S i). split; [exact Hi|]. now rewrite Nat.add_succ_r.
    + intros ([|i] & Hi & ->).
      * injection Hi as ->. left. now rewrite Nat.add_0_r.
      * right. exists i. split; [exact Hi|]. now rewrite Nat.add_succ_r.
Qed.

Lemma tick_inj (i j : nat) : tick i = tick j -> i = j.
Proof. unfold tick, inject_Z. intros [= H]. lia. Qed.

Lemma variant_lines_measured (filtered_df : DataFrame) (m : Metric) (f : Q -> Q)
    (draws : list Draw) :
  variant_lines filtered_df m f
    (map (fun i => inject_Z (Z.of_nat i))
       (seq 1 (length (observed filtered_df BatchSize))))
    (observed filtered_df BatchSize) = Ok draws ->
  one_point_per_measured_batch_size filtered_df draws.
Proof.
  unfold variant_lines, enumerate. intros H d Hin.
  apply bind_Ok in H as (ds & Hloop & [= <-]).
  destruct (for_each_In _ _ _ _ _ Hloop Hin) as (j & [[c e] lbl] & out & Hv & Hf & Hout).
  apply bind_Ok in Hf as (variant_df & Hsub & Hf).
  apply where_eq2_Ok in Hsub.
  destruct (empty variant_df) eqn:Hempty; [injection Hf as <-; destruct Hout|].
  apply bind_Ok in Hf as (data & Hdata & [= <-]).
  destruct Hout as [<-|[]].
  apply groupby_mean_Ok in Hdata.
  assert (Hrows : rows variant_df = variant_rows filtered_df c e) by now subst variant_df.
  rewrite Hrows in Hdata.
  assert (Hget : forall k,
             index_get k data
             = match List.filter (fun r => dim_of BatchSize r =? k)
                       (variant_rows filtered_df c e) with
               | [] => None
               | g => Some (mean (map (metric_of m) g))
               end)
    by (intros k; subst data; apply group_means_get).
  assert (Hkeys : map fst data
                  = sorted (unique (map batch_size (variant_rows filtered_df c e)))).
  { subst data. rewrite keys_group_means, split_groups_keys_eq, map_map. reflexivity. }
  exists c, e, lbl. split; [exact Hv|]. split; [reflexivity|].
  split.
  { unfold empty in Hempty. rewrite Hrows in Hempty.
    destruct (variant_rows filtered_df c e); [discriminate|congruence]. }
  cbn [positions_of heights_of]. rewrite !length_map.
  split; [reflexivity|].
  assert (Hlen : length (present_points f data
                           (map (fun i => inject_Z (Z.of_nat i))
                              (seq 1 (length (observed filtered_df BatchSize))))
                           (observed filtered_df BatchSize))
                 = length (sorted (unique (map batch_size
                                             (variant_rows filtered_df c e))))).
  { rewrite present_points_length by now rewrite length_map, length_seq.
    rewrite <- Hkeys. apply present_keys_length.
    - apply strictly_sorted_NoDup, sorted_unique_spec.
    - rewrite Hkeys. apply sorted_unique_spec.
    - rewrite Hkeys. apply (observed_subset filtered_df BatchSize). }
  split; [exact Hlen|]. split.
  { rewrite Hlen, <- (length_map batch_size). apply NoDup_incl_length.
    - apply strictly_sorted_NoDup, sorted_unique_spec.
    - intros k. now rewrite sorted_In, unique_In. }
  intros i bs Hi. rewrite in_map_iff. split.
  - intros ([x y] & Hx & Hp). simpl in Hx. subst x.
    apply present_points_In in Hp as (k & v & Hxk & Hgetk & _).
    apply (combine_ticks_In _ 0%nat) in Hxk as (i' & Hi' & Heq).
    apply tick_inj in Heq. simpl in Heq. subst i'.
    assert (k = bs) by congruence. subst k.
    rewrite Hget in Hgetk.
    destruct (List.filter _ (variant_rows filtered_df c e)) as [|r g] eqn:E;
      [discriminate|].
    assert (Hr : In r (r :: g)) by now left.
    rewrite <- E in Hr. apply List.filter_In in Hr as [Hr Hb].
    apply Z.eqb_eq in Hb. eauto.
  - intros (r & Hr & Hb).
    destruct (index_get bs data) as [v|] eqn:Hgetk.
    + exists (tick i, f v). split; [reflexivity|].
      apply present_points_In. exists bs, v. split; [|now split].
      apply (combine_ticks_In _ 0%nat). exists i. now split.
    + exfalso. rewrite Hget in Hgetk.
      assert (Hin' : In r (List.filter (fun r0 => dim_of BatchSize r0 =? bs)
                             (variant_rows filtered_df c e)))
        by (apply List.filter_In; split; [assumption|now apply Z.eqb_eq]).
      destruct (List.filter _ (variant_rows filtered_df c e)); [destruct Hin'|discriminate].
Qed.

(** X5: in both subplots of the batch-analysis view a line is drawn only
    for a variant that has rows in the filtered subset, and it has exactly
    one point per batch size that variant was measured at, placed at the tick
    of that batch size; a batch size the variant lacks gets no point (no
    default is substituted).  The number of points is the number of distinct
    batch sizes of the variant, at most its number of rows. *)
Theorem batch_analysis_lines_skip_unmeasured_batch_sizes :
  forall (filtered_df : DataFrame) (fig : Figure),
    batch_analysis_figure filtered_df = Ok fig ->
    exists left right,
      fig = [Chart "(a) Throughput" (observed filtered_df BatchSize) left;
             Chart "(b) Write Amplification" (observed filtered_df BatchSize) right]
      /\ one_point_per_measured_batch_size filtered_df left
      /\ one_point_per_measured_batch_size filtered_df right.
Proof.
  intros filtered_df fig H. unfold batch_analysis_figure in H.
  apply bind_Ok in H as (batch_sizes & Hb & H). apply sorted_unique_Ok in Hb.
  fold (observed filtered_df BatchSize) in Hb. subst batch_sizes.
  apply bind_Ok in H as (left & Hl & H). apply bind_Ok in H as (right & Hr & H).
  injection H as <-. exists left, right. split; [reflexivity|].
  split; eapply variant_lines_measured; eassumption.
Qed.

Lemma batch_analysis_lines_skip_unmeasured_batch_sizes_witness :
  exists fig left right,
    batch_analysis_figure example_dataset = Ok fig
    /\ fig = [Chart "(a) Throughput" (observed example_dataset BatchSize) left;
              Chart "(b) Write Amplification" (observed example_dataset BatchSize) right]
    /\ one_point_per_measured_batch_size example_dataset left
    /\ one_point_per_measured_batch_size example_dataset right.
Proof.
  destruct (batch_analysis_figure example_dataset) as [fig|e] eqn:E;
    [|vm_compute in E; discriminate].
  destruct (batch_analysis_lines_skip_unmeasured_batch_sizes _ _ E)
    as (left & right & H).
  exists fig, left, right. split; [reflexivity|exact H].
Defined.

(** ** Where the scaling lines start *)

(** X6: a normalised series of the scaling-efficiency subplot has one value
    per writer-thread count of the axis and starts at 1: its first value is
    the baseline divided by itself.  The ideal-scaling line starts at 1 as
    well when the smallest thread count is not 0. *)
Theorem scaling_lines_start_at_one :
  (forall (df : DataFrame) (consumers_list : list Z) (i : nat) (entry_size : Z)
          (draws : list Draw),
      scaling_line df consumers_list i entry_size = Ok draws ->
      List.Forall
        (fun d =>
           positions_of d = as_floats consumers_list
           /\ length (heights_of d) = length consumers_list
           /\ exists y0, hd_error (heights_of d) = Some y0 /\ (y0 == 1)%Q)
        draws)
  /\ (forall (c0 : Z) (rest : list Z),
         c0 <> 0 ->
         exists y0, hd_error (ideal_scaling (c0 :: rest)) = Some y0 /\ (y0 == 1)%Q).
Proof.
  split.
  - intros df consumers_list i entry_size draws H. unfold scaling_line in H.
    apply bind_Ok in H as (sub & _ & H). apply bind_Ok in H as (data & _ & H).
    apply bind_Ok in H as (c0 & Hc0 & H).
    destruct consumers_list as [|c rest]; [discriminate|]. injection Hc0 as ->.
    destruct (index_get c0 data) as [baseline|] eqn:Hget;
      [|injection H as <-; constructor].
    destruct (positive baseline) eqn:Hpos; [|injection H as <-; constructor].
    injection H as <-. constructor; [|constructor].
    cbn [positions_of heights_of]. split; [reflexivity|].
    split; [simpl; now rewrite fill_length|].
    exists (baseline / baseline)%Q. split; [simpl; now rewrite Hget|].
    apply positive_iff in Hpos.
    unfold Qdiv. apply Qmult_inv_r. intros Hz. rewrite Hz in Hpos.
    now apply Qlt_irrefl in Hpos.
  - intros c0 rest Hne. unfold ideal_scaling. cbn [map hd_error hd].
    eexists. split; [reflexivity|]. unfold Qdiv. apply Qmult_inv_r.
    unfold Qeq. simpl. lia.
Qed.

Lemma scaling_lines_start_at_one_witness :
  (exists draws,
      scaling_line example_dataset [4] 0 1024 = Ok draws
      /\ List.Forall
           (fun d =>
              positions_of d = as_floats [4]
              /\ length (heights_of d) = length [4]
              /\ exists y0, hd_error (heights_of d) = Some y0 /\ (y0 == 1)%Q)
           draws)
  /\ exists y0, hd_error (ideal_scaling [4; 8]) = Some y0 /\ (y0 == 1)%Q.
Proof.
  split.
  - destruct (scaling_line example_dataset [4] 0 1024) as [draws|e] eqn:E;
      [|vm_compute in E; discriminate].
    exists draws. split; [reflexivity|].
    exact (proj1 scaling_lines_start_at_one _ _ _ _ _ E).
  - apply (proj2 scaling_lines_start_at_one 4 [8]). discriminate.
Defined.

(** ** Deriving the labels *)

Lemma has_column_with_column (cols : list string) (rs rs' : list Row) (name c : string) :
  has_column (mkFrame (with_column cols name) rs) c
  = has_column (mkFrame cols rs') c || String.eqb c name.
Proof.
  unfold with_column, has_column. simpl.
  destruct (existsb (String.eqb name) cols) eqn:E.
  - destruct (String.eqb_spec c name) as [->|]; [now rewrite E|now rewrite orb_false_r].
  - rewrite existsb_app. simpl. now rewrite orb_false_r.
Qed.

Lemma assign_labels_run (df : DataFrame) (name : string) (src : Dim)
    (table : list (Z * string)) (set : option string -> Row -> Row) :
  assign_labels df name src table set
  = if has_column df (dim_name src)
    then Ok (mkFrame (with_column (columns df) name)
               (map (fun r => set (dict_get table (dim_of src r)) r) (rows df)))
    else Raise (KeyError (dim_name src)).
Proof. unfold assign_labels, getitem. now destruct (has_column df (dim_name src)). Qed.

Lemma add_labels_run (table : DataFrame) :
  add_labels table = labels_outcome table.
Proof.
  unfold add_labels, labels_outcome. rewrite assign_labels_run.
  change (dim_name UseEncryption) with "use_encryption".
  destruct (has_column table "use_encryption"); [|reflexivity]. cbn [bind negb].
  rewrite assign_labels_run. cbn [columns rows].
  rewrite (has_column_with_column _ _ (rows table)).
  change (dim_name CompressionLevel) with "compression_level". cbn [String.eqb Ascii.eqb].
  rewrite orb_false_r.
  replace (has_column (mkFrame (columns table) (rows table)) "compression_level")
    with (has_column table "compression_level") by now destruct table.
  destruct (has_column table "compression_level"); [|reflexivity]. cbn [bind negb].
  rewrite assign_labels_run. cbn [columns rows].
  rewrite (has_column_with_column _ _ (rows table)),
          (has_column_with_column _ _ (rows table)).
  change (dim_name EntrySizeBytes) with "entry_size_bytes".
  replace (has_column (mkFrame (columns table) (rows table)) "entry_size_bytes")
    with (has_column table "entry_size_bytes") by now destruct table.
  replace (("entry_size_bytes" =? "encryption_label")%string) with false by reflexivity.
  replace (("entry_size_bytes" =? "compression_label")%string) with false by reflexivity.
  rewrite !orb_false_r.
  destruct (has_column table "entry_size_bytes"); [|reflexivity]. cbn [negb].
  rewrite !map_map. reflexivity.
Qed.

(** ** Labels are a function of the numbers *)

Lemma with_column_present (cols : list string) (name : string) :
  existsb (String.eqb name) cols = true -> with_column cols name = cols.
Proof. unfold with_column. now intros ->. Qed.

Lemma with_column_has (cols : list string) (name c : string) :
  existsb (String.eqb c) (with_column cols name)
  = existsb (String.eqb c) cols || String.eqb c name.
Proof. apply (has_column_with_column cols [] [] name c). Qed.

Lemma labelled_twice (r : Row) : labelled (labelled r) = labelled r.
Proof. reflexivity. Qed.

Lemma labelled_by_numbers (r r' : Row) :
  (forall d, dim_of d r = dim_of d r') ->
  (forall m, metric_of m r = metric_of m r') ->
  labelled r = labelled r'.
Proof.
  intros Hd Hm. destruct r, r'.
  pose proof (Hd BatchSize). pose proof (Hd EntrySizeBytes). pose proof (Hd Consumers).
  pose proof (Hd UseEncryption). pose proof (Hd CompressionLevel).
  pose proof (Hm EntriesPerSec). pose proof (Hm WriteAmplification).
  pose proof (Hm AvgLatencyMs). pose proof (Hm LogicalThroughputGibSec).
  simpl in *. subst. reflexivity.
Qed.

(** X11: the labels of a loaded row are decided by its nine numbers alone:
    label columns a file already has are overwritten, and deriving the
    labels of a loaded dataset once more returns it unchanged. *)
Theorem labels_depend_on_numbers_only :
  (forall r r' : Row,
      (forall d, dim_of d r = dim_of d r') ->
      (forall m, metric_of m r = metric_of m r') ->
      labelled r = labelled r')
  /\ (forall df df' : DataFrame, add_labels df = Ok df' -> add_labels df' = Ok df').
Proof.
  split; [exact labelled_by_numbers|].
  intros df df'. rewrite !add_labels_run. unfold labels_outcome.
  destruct (has_column df "use_encryption") eqn:He; [|discriminate].
  destruct (has_column df "compression_level") eqn:Hc; [|discriminate].
  destruct (has_column df "entry_size_bytes") eqn:Hs; [|discriminate].
  cbn [negb]. intros [= <-].
  rewrite !(has_column_with_column _ _ (rows df)).
  change (has_column (mkFrame (columns df) (rows df)) "use_encryption")
    with (has_column df "use_encryption").
  change (has_column (mkFrame (columns df) (rows df)) "compression_level")
    with (has_column df "compression_level").
  change (has_column (mkFrame (columns df) (rows df)) "entry_size_bytes")
    with (has_column df "entry_size_bytes").
  rewrite He, Hc, Hs.
  cbn [orb negb columns rows]. f_equal. f_equal.
  - rewrite (with_column_present _ "encryption_label");
      [rewrite (with_column_present _ "compression_label");
       [apply with_column_present|]|];
      rewrite !with_column_has; cbn [String.eqb Ascii.eqb];
      rewrite ?String.eqb_refl, ?orb_true_r; reflexivity.
  - rewrite map_map. apply map_ext. intros r. apply labelled_twice.
Qed.

Lemma labels_depend_on_numbers_only_witness :
  exists df',
    add_labels unmapped_dataset = Ok df' /\ add_labels df' = Ok df'.
Proof.
  destruct (add_labels unmapped_dataset) as [df'|e] eqn:E;
    [|vm_compute in E; discriminate].
  exists df'. split; [reflexivity|].
  exact (proj2 labels_depend_on_numbers_only unmapped_dataset df' E).
Defined.

(** ** One series per group *)

(** The n-th result of a loop comes from its n-th pass. *)
Lemma for_each_nth {A B} (f : nat -> A -> result B) (l : list A) (i : nat) (bs : list B) :
  for_each f i l = Ok bs ->
  length bs = length l
  /\ forall n b, nth_error bs n = Some b ->
                 exists a, nth_error l n = Some a /\ f (i + n)%nat a = Ok b.
Proof.
  revert i bs. induction l as [|a l IH]; intros i bs H.
  - injection H as <-. split; [reflexivity|]. intros [|n] b; discriminate.
  - cbn [for_each] in H. apply bind_Ok in H as (b0 & Hb0 & H).
    apply bind_Ok in H as (rest & Hrest & H). injection H as <-.
    destruct (IH _ _ Hrest) as [Hlen Hnth]. split; [simpl; now rewrite Hlen|].
    intros [|n] b Hb.
    + injection Hb as <-. exists a. now rewrite Nat.add_0_r.
    + destruct (Hnth n b Hb) as (a' & Ha' & Hf). exists a'. split; [exact Ha'|].
      now rewrite Nat.add_succ_r.
Qed.

Lemma series_for_length (df : DataFrame) (g : Dim) (v : Z) (x : Dim) (p : Fill)
    (keys : list Z) (vals : list Q) :
  series_for df g v x p keys = Ok vals -> length vals = length keys.
Proof.
  unfold series_for. intros H. apply bind_Ok in H as (? & _ & H).
  apply bind_Ok in H as (? & _ & H). injection H as <-. apply fill_length.
Qed.

Lemma hatches_distinct : List.NoDup hatches.
Proof.
  unfold hatches.
  repeat (constructor; [simpl; intros H; repeat destruct H as [H|H]; try discriminate;
                        exact H|]).
  constructor.
Qed.

(** X12: a chart that loops over the observed values of a dimension draws
    exactly one series per value, in ascending order of the value and under
    its label, with one value per key of the axis.  In a bar chart the n-th
    series is shifted by n bar widths and takes the n-th hatch pattern, so
    no two series of a chart share a pattern. *)
Theorem grouped_charts_draw_one_series_per_group :
  forall (df : DataFrame) (g : Dim) (groups : list Z) (x : Dim) (keys : list Z)
         (p : Fill),
    (forall xs width label draws,
        group_loop df g groups x keys p (bar_at xs width label) = Ok draws ->
        length draws = length groups
        /\ (forall n d,
               nth_error draws n = Some d ->
               exists v vals h,
                 nth_error groups n = Some v
                 /\ series_for df g v x p keys = Ok vals
                 /\ length vals = length keys
                 /\ nth_error hatches n = Some h
                 /\ d = Bar (shift xs (inject_Z (Z.of_nat n) * width)%Q) vals (label v) h)
        /\ (forall n n' d d',
               nth_error draws n = Some d -> nth_error draws n' = Some d' ->
               n <> n' -> hatch_of d <> hatch_of d'))
    /\ (forall label draws,
           group_loop df g groups x keys p (line_over keys label) = Ok draws ->
           length draws = length groups
           /\ forall n d,
               nth_error draws n = Some d ->
               exists v vals,
                 nth_error groups n = Some v
                 /\ series_for df g v x p keys = Ok vals
                 /\ length vals = length keys
                 /\ d = Plot (as_floats keys) vals (label v)).
Proof.
  intros df g groups x keys p. split.
  - intros xs width label draws H. unfold group_loop, enumerate in H.
    destruct (for_each_nth _ _ _ _ H) as [Hlen Hnth].
    assert (Hbar : forall n d,
               nth_error draws n = Some d ->
               exists v vals h,
                 nth_error groups n = Some v
                 /\ series_for df g v x p keys = Ok vals
                 /\ length vals = length keys
                 /\ nth_error hatches n = Some h
                 /\ d = Bar (shift xs (inject_Z (Z.of_nat n) * width)%Q) vals
                          (label v) h).
    { intros n d Hd. destruct (Hnth n d Hd) as (v & Hv & Hf). simpl in Hf.
      apply bind_Ok in Hf as (vals & Hvals & Hf). unfold bar_at, item in Hf.
      destruct (nth_error hatches n) as [h|] eqn:Hh; [|discriminate].
      injection Hf as <-. exists v, vals, h.
      repeat split; try assumption. eapply series_for_length, Hvals. }
    split; [exact Hlen|]. split; [exact Hbar|].
    intros n n' d d' Hd Hd' Hne.
    destruct (Hbar n d Hd) as (? & ? & h & _ & _ & _ & Hh & ->).
    destruct (Hbar n' d' Hd') as (? & ? & h' & _ & _ & _ & Hh' & ->).
    simpl. intros [= <-]. apply Hne.
    apply (proj1 (NoDup_nth_error hatches) hatches_distinct).
    + apply nth_error_Some. congruence.
    + congruence.
  - intros label draws H. unfold group_loop, enumerate in H.
    destruct (for_each_nth _ _ _ _ H) as [Hlen Hnth].
    split; [exact Hlen|]. intros n d Hd.
    destruct (Hnth n d Hd) as (v & Hv & Hf). simpl in Hf.
    apply bind_Ok in Hf as (vals & Hvals & Hf). unfold line_over in Hf.
    injection Hf as <-. exists v, vals.
    repeat split; try assumption. eapply series_for_length, Hvals.
Qed.

Lemma grouped_charts_draw_one_series_per_group_witness :
  exists draws,
    group_loop unencrypted_dataset CompressionLevel [0; 9] BatchSize [512; 2048]
      throughput_k (bar_at (arange 2) 0.25%Q (fun c => FInt "Compression " c ""))
    = Ok draws
    /\ length draws = length [0; 9].
Proof.
  destruct (group_loop unencrypted_dataset CompressionLevel [0; 9] BatchSize [512; 2048]
              throughput_k (bar_at (arange 2) 0.25%Q (fun c => FInt "Compression " c "")))
    as [draws|e] eqn:E; [|vm_compute in E; discriminate].
  exists draws. split; [reflexivity|].
  exact (proj1 (proj1 (grouped_charts_draw_one_series_per_group unencrypted_dataset
                         CompressionLevel [0; 9] BatchSize [512; 2048] throughput_k)
                  _ _ _ _ E)).
Defined.

(** ** Charts that fill by lookup with a default, and the one that does not *)

Lemma fill_filled (p : Fill) (m : Metric) (per : option Q) (sub : DataFrame) (x : Dim)
    (data : Series) (keys : list Z) :
  fill_metric p = m -> fill_per p = per -> fill_default p = fallback_of m ->
  groupby_mean sub x m = Ok data ->
  filled_from m per x keys (rows sub) (fill p data keys).
Proof.
  intros Hm Hper Hdefault Hdata. split; [apply fill_length|].
  intros i k Hk. rewrite fill_nth, Hk. cbn [option_map].
  apply groupby_mean_Ok in Hdata. subst data. rewrite group_means_get.
  destruct (List.filter _ (rows sub)) as [|r g].
  - now rewrite Hdefault.
  - rewrite Hper. eexists. split; [reflexivity|]. now apply mean_arithmetic.
Qed.

Lemma series_for_filled (df : DataFrame) (g : Dim) (v : Z) (x : Dim) (p : Fill)
    (m : Metric) (per : option Q) (keys : list Z) (vals : list Q) :
  fill_metric p = m -> fill_per p = per -> fill_default p = fallback_of m ->
  series_for df g v x p keys = Ok vals ->
  filled_from m per x keys (rows_with df g v) vals.
Proof.
  intros Hm Hper Hdefault H. unfold series_for in H.
  apply bind_Ok in H as (sub & Hsub & H). apply bind_Ok in H as (data & Hdata & [= <-]).
  apply where_eq_Ok in Hsub. subst sub. rewrite Hm in Hdata.
  exact (fill_filled p m per _ x data keys Hm Hper Hdefault Hdata).
Qed.

(** The results of a loop, in the order of its passes. *)
Lemma for_each_Forall2 {A B} (f : nat -> A -> result B) (l : list A) (i : nat)
    (bs : list B) :
  for_each f i l = Ok bs -> List.Forall2 (fun a b => exists j, f j a = Ok b) l bs.
Proof.
  revert i bs. induction l as [|a l IH]; intros i bs H.
  - injection H as <-. constructor.
  - cbn [for_each] in H. apply bind_Ok in H as (b & Hb & H).
    apply bind_Ok in H as (rest & Hrest & [= <-]).
    constructor; [eauto|]. eapply IH, Hrest.
Qed.

Lemma bar_at_heights (xs : list Q) (width : Q) (label : Z -> Text) (i : nat) (v : Z)
    (vals : list Q) (d : Draw) :
  bar_at xs width label i v vals = Ok d -> heights_of d = vals.
Proof.
  unfold bar_at. intros H. apply bind_Ok in H as (h & _ & [= <-]). reflexivity.
Qed.

Lemma line_over_heights (keys : list Z) (label : Z -> Text) (i : nat) (v : Z)
    (vals : list Q) (d : Draw) :
  line_over keys label i v vals = Ok d -> heights_of d = vals.
Proof. now intros [= <-]. Qed.

Lemma group_loop_filled (df : DataFrame) (g : Dim) (groups : list Z) (x : Dim)
    (keys : list Z) (p : Fill) (draw : nat -> Z -> list Q -> result Draw)
    (draws : list Draw) (m : Metric) (per : option Q) :
  group_loop df g groups x keys p draw = Ok draws ->
  (forall i v vals d, draw i v vals = Ok d -> heights_of d = vals) ->
  fill_metric p = m -> fill_per p = per -> fill_default p = fallback_of m ->
  List.Forall2
    (fun v d => filled_from m per x keys (rows_with df g v) (heights_of d))
    groups draws.
Proof.
  intros H Hdraw Hm Hper Hdefault. unfold group_loop, enumerate in H.
  apply for_each_Forall2 in H.
  eapply Forall2_impl; [exact H|].
  intros v d (j & Hj). cbv beta in Hj. apply bind_Ok in Hj as (vals & Hvals & Hd).
  rewrite (Hdraw _ _ _ _ Hd).
  exact (series_for_filled df g v x p m per keys vals Hm Hper Hdefault Hvals).
Qed.

Lemma combo_loop_filled (df : DataFrame) (combos : list (Z * Z * string)) (x : Dim)
    (keys : list Z) (p : Fill) (draws : list Draw) (m : Metric) (per : option Q) :
  combo_loop df combos x keys p = Ok draws ->
  fill_metric p = m -> fill_per p = per -> fill_default p = fallback_of m ->
  List.Forall2
    (fun c d =>
       filled_from m per x keys
         (rows_at df UseEncryption (fst (fst c)) CompressionLevel (snd (fst c)))
         (heights_of d))
    (List.filter (measured df) combos) draws.
Proof.
  intros H Hm Hper Hdefault. unfold combo_loop, enumerate in H.
  apply bind_Ok in H as (ds & Hloop & [= <-]).
  revert Hloop. generalize 0%nat. revert ds.
  induction combos as [|c combos IH]; intros ds i Hloop.
  - injection Hloop as <-. constructor.
  - cbn [for_each] in Hloop. apply bind_Ok in Hloop as (out & Hout & Hloop).
    apply bind_Ok in Hloop as (rest & Hrest & [= <-]).
    specialize (IH _ _ Hrest). cbn [concat List.filter].
    destruct c as [[enc comp] label].
    apply bind_Ok in Hout as (subset & Hs & Hout).
    pose proof (where_eq2_columns _ _ _ _ _ _ Hs) as Hcols.
    apply where_eq2_Ok in Hs. subst subset.
    rewrite (empty_iff_no_rows _ _ Hcols) in Hout.
    change (List.filter
              (fun r => (dim_of UseEncryption r =? enc) && (dim_of CompressionLevel r =? comp))
              (rows df))
      with (rows_at df UseEncryption enc CompressionLevel comp) in Hout.
    unfold measured at 1. cbn [fst snd].
    destruct (rows_at df UseEncryption enc CompressionLevel comp) as [|r g] eqn:E.
    + injection Hout as <-. exact IH.
    + apply bind_Ok in Hout as (data & Hdata & [= <-]). cbn [app].
      constructor; [|exact IH]. cbn [fst snd heights_of].
      rewrite Hm in Hdata.
      pose proof (fill_filled p m per _ x data keys Hm Hper Hdefault Hdata) as Hfill.
      cbn [rows] in Hfill. now rewrite E.
Qed.

Lemma scaling_line_filled (df : DataFrame) (consumers_list : list Z) (i : nat)
    (entry_size : Z) (ds : list Draw) :
  scaling_line df consumers_list i entry_size = Ok ds ->
  List.Forall
    (fun d =>
       exists e baseline,
         filled_from EntriesPerSec (Some baseline) Consumers consumers_list
           (rows_with df EntrySizeBytes e) (heights_of d))
    ds.
Proof.
  unfold scaling_line. intros H.
  apply bind_Ok in H as (sub & Hsub & H). apply bind_Ok in H as (data & Hdata & H).
  apply bind_Ok in H as (c0 & _ & H). apply where_eq_Ok in Hsub. subst sub.
  destruct (index_get c0 data) as [baseline|]; [|injection H as <-; constructor].
  destruct (positive baseline); injection H as <-; constructor; [|constructor].
  exists entry_size, baseline.
  exact (fill_filled (normalized_by baseline) EntriesPerSec (Some baseline) _ Consumers
           data consumers_list eq_refl eq_refl eq_refl Hdata).
Qed.

Lemma scaling_lines_filled (df : DataFrame) (consumers_list : list Z)
    (entry_sizes : list Z) (i : nat) (ds : list (list Draw)) :
  for_each (scaling_line df consumers_list) i entry_sizes = Ok ds ->
  List.Forall
    (fun d =>
       exists e baseline,
         filled_from EntriesPerSec (Some baseline) Consumers consumers_list
           (rows_with df EntrySizeBytes e) (heights_of d))
    (concat ds).
Proof.
  revert i ds. induction entry_sizes as [|e entry_sizes IH]; intros i ds H.
  - injection H as <-. constructor.
  - cbn [for_each] in H. apply bind_Ok in H as (out & Hout & H).
    apply bind_Ok in H as (rest & Hrest & [= <-]). cbn [concat].
    apply Forall_app. split; [eapply scaling_line_filled, Hout|eapply IH, Hrest].
Qed.

Lemma variant_lines_unfilled (filtered_df : DataFrame) (title : string)
    (draws : list Draw) :
  one_point_per_measured_batch_size filtered_df draws ->
  unfilled_chart filtered_df (Chart title (observed filtered_df BatchSize) draws).
Proof.
  intros Hone. exists title, draws. split; [reflexivity|]. intros d Hd.
  destruct (Hone d Hd) as (c & e & label & Hv & Hl & _ & Hlen & _ & _ & Hticks).
  exists c, e, label. repeat (split; [assumption|]).
  intros i bs Hi Hno Hin. apply (Hticks i bs Hi) in Hin as (r & Hr & Hb).
  exact (Hno r Hr Hb).
Qed.

(** On a dataset in which the 4-writer variant was not measured at batch
    size 2048, the axis of the batch-analysis charts has the three batch
    sizes, and the line of that variant has two points, at the first and the
    third tick: at the key 2048 nothing is plotted, neither 0 nor 1.0. *)
Lemma batch_analysis_plots_no_fallback :
  exists left right,
    batch_analysis_figure gap_dataset
    = Ok [Chart "(a) Throughput" [512; 2048; 8192] left;
          Chart "(b) Write Amplification" [512; 2048; 8192] right]
    /\ map label_of left = [Lit "4 Writers, 1KB Entry"; Lit "8 Writers, 1KB Entry"]
    /\ map positions_of left = [[1; 3]; [2]]%Q
    /\ map (fun d => length (heights_of d)) left = [2; 1]%nat
    /\ map label_of right = [Lit "4 Writers, 1KB Entry"; Lit "8 Writers, 1KB Entry"]
    /\ map positions_of right = [[1; 3]; [2]]%Q
    /\ map (fun d => length (heights_of d)) right = [2; 1]%nat
    /\ (exists data,
           groupby_mean (mkFrame nine_fields (variant_rows gap_dataset 4 1024))
             BatchSize EntriesPerSec = Ok data
           /\ map fst data = [512; 8192]).
Proof.
  do 2 eexists. split; [vm_compute; reflexivity|].
  repeat (split; [vm_compute; reflexivity|]).
  eexists. split; vm_compute; reflexivity.
Qed.

Ltac grouped :=
  eexists _, _, _; split; [reflexivity|];
  eapply group_loop_filled;
  [eassumption
  |intros ? ? ? ?; first [apply bar_at_heights | apply line_over_heights]
  |reflexivity..].

Ltac combined :=
  eexists _, _, _; split; [reflexivity|];
  eapply combo_loop_filled; [eassumption|reflexivity..].

(** C8, as the code has it: a group key that no row of the charted subset
    carries has no entry in the aggregation result itself.  The charts that
    define a fallback (the bar charts of the compression and entry-size
    views, the line charts of the writer-threads and batch-size views) draw
    one value per key of the axis for every series: the mean where the key
    has rows, and otherwise 0 where the chart shows a throughput or the
    latency and 1.0 where it shows the write amplification.  The
    batch-analysis view defines no fallback: a line has no point at a batch
    size its variant has no row of. *)
Theorem filling_charts_take_their_fallback :
  forall df : DataFrame,
    (forall (sub : DataFrame) (x : Dim) (m : Metric) (data : Series) (k : Z),
        groupby_mean sub x m = Ok data ->
        (forall r, In r (rows sub) -> dim_of x r <> k) ->
        index_get k data = None /\ ~ In k (map fst data))
    /\ (forall fig,
           compression_effect_figure df = Ok fig ->
           exists a b c d,
             fig = [a; b; c; d]
             /\ grouped_chart df CompressionLevel BatchSize EntriesPerSec (Some 1000%Q) a
             /\ grouped_chart df CompressionLevel EntrySizeBytes EntriesPerSec
                  (Some 1000%Q) b
             /\ grouped_chart df CompressionLevel UseEncryption WriteAmplification None c
             /\ grouped_chart df CompressionLevel Consumers WriteAmplification None d)
    /\ (forall fig,
           entry_size_effect_figure df = Ok fig ->
           exists a b c d,
             fig = [a; b; c; d]
             /\ grouped_chart df EntrySizeBytes BatchSize EntriesPerSec (Some 1000%Q) a
             /\ grouped_chart df EntrySizeBytes CompressionLevel LogicalThroughputGibSec
                  None b
             /\ grouped_chart df EntrySizeBytes UseEncryption EntriesPerSec (Some 1000%Q) c
             /\ grouped_chart df EntrySizeBytes Consumers EntriesPerSec (Some 1000%Q) d)
    /\ (forall fig,
           writer_threads_effect_figure df = Ok fig ->
           exists a b c d,
             fig = [a; b; c; d]
             /\ grouped_chart df BatchSize Consumers EntriesPerSec (Some 1000%Q) a
             /\ combination_chart df writer_combinations Consumers EntriesPerSec
                  (Some 1000%Q) b
             /\ scaling_chart df c
             /\ combination_chart df writer_combinations Consumers AvgLatencyMs None d)
    /\ (forall fig,
           batch_size_effect_figure df = Ok fig ->
           exists a b c d,
             fig = [a; b; c; d]
             /\ combination_chart df batch_combinations BatchSize EntriesPerSec
                  (Some 1000%Q) a
             /\ grouped_chart df EntrySizeBytes BatchSize EntriesPerSec (Some 1000%Q) b
             /\ grouped_chart df Consumers BatchSize AvgLatencyMs None c
             /\ combination_chart df selected_combinations BatchSize WriteAmplification
                  None d)
    /\ (forall filtered_df fig,
           batch_analysis_figure filtered_df = Ok fig ->
           exists a b,
             fig = [a; b]
             /\ unfilled_chart filtered_df a
             /\ unfilled_chart filtered_df b).
Proof.
  intros df. split; [intros sub x m data k; apply groupby_mean_absent|].
  split.
  { intros fig H. unfold compression_effect_figure in H. invert_binds.
    observed_keys. injection H as <-. do 4 eexists. split; [reflexivity|].
    repeat split; grouped. }
  split.
  { intros fig H. unfold entry_size_effect_figure in H. invert_binds.
    observed_keys. injection H as <-. do 4 eexists. split; [reflexivity|].
    repeat split; grouped. }
  split.
  { intros fig H. unfold writer_threads_effect_figure in H. invert_binds.
    observed_keys. injection H as <-. do 4 eexists. split; [reflexivity|].
    split; [grouped|]. split; [combined|]. split; [|combined].
    eexists _, _, _, _. split; [reflexivity|].
    match goal with
    | Hc : enumerate (scaling_line df _) _ = Ok _ |- _ =>
        exact (scaling_lines_filled _ _ _ _ _ Hc)
    end. }
  split.
  { intros fig H. unfold batch_size_effect_figure in H. invert_binds.
    observed_keys. injection H as <-. do 4 eexists. split; [reflexivity|].
    split; [combined|]. split; [grouped|]. split; [grouped|combined]. }
  intros filtered_df fig H. unfold batch_analysis_figure in H.
  apply bind_Ok in H as (batch_sizes & Hb & H). apply sorted_unique_Ok in Hb.
  fold (observed filtered_df BatchSize) in Hb. subst batch_sizes.
  apply bind_Ok in H as (left & Hl & H). apply bind_Ok in H as (right & Hr & H).
  injection H as <-. do 2 eexists. split; [reflexivity|].
  split; apply variant_lines_unfilled; eapply variant_lines_measured; eassumption.
Qed.

Lemma filling_charts_take_their_fallback_witness :
  exists a b c d,
    compression_effect_figure example_dataset = Ok [a; b; c; d]
    /\ grouped_chart example_dataset CompressionLevel UseEncryption WriteAmplification
         None c
    /\ exists xs ys label hatch,
        c = Chart "(c) Compression vs Encryption" [0; 1] [Bar xs ys label hatch]
        /\ nth_error ys 0 = Some 1%Q.
Proof.
  destruct (compression_effect_figure example_dataset) as [fig|e] eqn:E;
    [|vm_compute in E; discriminate].
  destruct (proj1 (proj2 (filling_charts_take_their_fallback example_dataset)) fig E)
    as (a & b & c & d & -> & _ & _ & Hc & _).
  exists a, b, c, d. split; [reflexivity|]. split; [exact Hc|].
  vm_compute in E. injection E as _ _ <- _. do 4 eexists. split; reflexivity.
Defined.

(** ** Heatmap tables *)

Lemma pivot_mean_cells (df : DataFrame) (d1 d2 : Dim) (m : Metric) (p : Pivot) :
  pivot_mean df d1 d2 m = Ok p -> pivot_of df d1 d2 m None p.
Proof.
  intros H. destruct (pivot_mean_axes _ _ _ _ _ H) as [Hi Hc].
  split; [exact Hi|]. split; [exact Hc|].
  unfold pivot_mean in H. invert_binds. injection H as <-. cbn [p_cells p_index p_columns].
  split; [now rewrite !length_map|].
  intros i j ka kb Ha Hb.
  rewrite nth_error_map in Ha.
  destruct (nth_error (split_groups _) i) as [[ka' rs]|] eqn:Hg; [|discriminate].
  injection Ha as ->.
  eexists. split; [rewrite nth_error_map, Hg; reflexivity|].
  split; [apply length_map|].
  rewrite nth_error_map, Hb. cbn [option_map snd].
  apply nth_error_In in Hg. apply split_groups_member in Hg as [-> _].
  rewrite (selected_rows (dim_of d1) (fun r => r)), map_id.
  rewrite (group_means_get d2 m), filter_filter_and. unfold rows_at.
  destruct (List.filter _ (rows df)) as [|r g]; [reflexivity|].
  eexists. split; [reflexivity|]. now apply mean_arithmetic.
Qed.

Lemma pivot_div_cells (df : DataFrame) (d1 d2 : Dim) (m : Metric) (p : Pivot) (u : Q) :
  pivot_of df d1 d2 m None p -> pivot_of df d1 d2 m (Some u) (pivot_div p u).
Proof.
  intros (Hi & Hc & Hlen & Hcell). unfold pivot_of, pivot_div. simpl.
  split; [exact Hi|]. split; [exact Hc|]. split; [now rewrite length_map|].
  intros i j a b Ha Hb. destruct (Hcell i j a b Ha Hb) as (line & Hl & Hn & Hj).
  eexists. split; [rewrite nth_error_map, Hl; reflexivity|].
  split; [now rewrite length_map|].
  rewrite nth_error_map.
  destruct (rows_at df d1 a d2 b) as [|r g].
  - now rewrite Hj.
  - destruct Hj as (v & -> & Hv). exists v. split; [reflexivity|exact Hv].
Qed.

Lemma pivot_mean_present (df : DataFrame) (d1 d2 : Dim) (m : Metric) :
  has_all_columns df -> exists p, pivot_mean df d1 d2 m = Ok p.
Proof.
  intros [Hd Hm]. unfold pivot_mean.
  rewrite !(getitem_present _ _ (Hd _)), (getitem_present _ _ (Hm _)). cbn [bind]. eauto.
Qed.

Lemma observed_nil (df : DataFrame) (d : Dim) : rows df = [] <-> observed df d = [].
Proof.
  unfold observed. split; [now intros ->|]. intros H.
  destruct (rows df) as [|r rs]; [reflexivity|]. exfalso.
  assert (Hin : In (dim_of d r) (sorted (unique (map (dim_of d) (r :: rs)))))
    by (rewrite sorted_In, unique_In; now left).
  rewrite H in Hin. destruct Hin.
Qed.

(** X1: when the heatmap view prepares its figure the dataset has rows and
    the four heatmaps are the tables of means by two dimensions: rows and
    columns are the observed values, every line has one cell per column, and
    the cell of a pair of values is the arithmetic mean over the rows
    carrying both (divided by 1000 for the throughput maps), or empty when
    there is none.  On a dataset with the nine columns and no row the view
    raises [ValueError] at its first heatmap. *)
Theorem heatmap_cells_are_means_by_pair :
  forall df : DataFrame,
    (forall fig : Figure,
        heatmaps_figure df = Ok fig ->
        rows df <> []
        /\ exists a b c d,
            fig = [Heatmap "(a) Throughput: Batch Size vs Compression" a;
                   Heatmap "(b) Write Amplification: Size vs Encryption" b;
                   Heatmap "(c) Throughput: Writers vs Entry Size" c;
                   Heatmap "(d) Latency: Batch Size vs Writers" d]
            /\ pivot_of df BatchSize CompressionLevel EntriesPerSec (Some 1000%Q) a
            /\ pivot_of df EntrySizeBytes UseEncryption WriteAmplification None b
            /\ pivot_of df Consumers EntrySizeBytes EntriesPerSec (Some 1000%Q) c
            /\ pivot_of df BatchSize Consumers AvgLatencyMs None d)
    /\ (has_all_columns df -> rows df = [] -> heatmaps_figure df = Raise ValueError).
Proof.
  intros df. split.
  - intros fig H. unfold heatmaps_figure in H. invert_binds. injection H as <-.
    repeat match goal with
           | H : sns_heatmap _ _ = Ok _ |- _ =>
               apply sns_heatmap_Ok in H; destruct H as (-> & ? & ?)
           end.
    repeat match goal with
           | H : pivot_mean _ _ _ _ = Ok _ |- _ => apply pivot_mean_cells in H
           end.
    split.
    + intros Hnil.
      match goal with
      | H : pivot_of df EntrySizeBytes _ _ _ ?p, Hne : p_index ?p <> [] |- _ =>
          apply Hne; rewrite (proj1 H); now apply observed_nil
      end.
    + do 4 eexists. split; [reflexivity|].
      split; [now apply pivot_div_cells|]. split; [assumption|].
      split; [now apply pivot_div_cells|assumption].
  - intros Hall Hnil. unfold heatmaps_figure.
    destruct (pivot_mean_present df BatchSize CompressionLevel EntriesPerSec Hall)
      as (p & Hp).
    rewrite Hp. cbn [bind]. apply pivot_mean_axes in Hp as [Hi _].
    unfold sns_heatmap, pivot_div. cbn [p_index p_columns].
    rewrite Hi, (proj1 (observed_nil df BatchSize) Hnil). reflexivity.
Qed.

Lemma heatmap_cells_are_means_by_pair_witness :
  (exists fig a b c d,
      heatmaps_figure unmapped_dataset = Ok fig
      /\ fig = [Heatmap "(a) Throughput: Batch Size vs Compression" a;
                Heatmap "(b) Write Amplification: Size vs Encryption" b;
                Heatmap "(c) Throughput: Writers vs Entry Size" c;
                Heatmap "(d) Latency: Batch Size vs Writers" d]
      /\ pivot_of unmapped_dataset BatchSize CompressionLevel EntriesPerSec
           (Some 1000%Q) a
      /\ pivot_of unmapped_dataset EntrySizeBytes UseEncryption WriteAmplification None b
      /\ pivot_of unmapped_dataset Consumers EntrySizeBytes EntriesPerSec (Some 1000%Q) c
      /\ pivot_of unmapped_dataset BatchSize Consumers AvgLatencyMs None d)
  /\ heatmaps_figure (mkFrame nine_fields []) = Raise ValueError.
Proof.
  split.
  - destruct (heatmaps_figure unmapped_dataset) as [fig|e] eqn:E;
      [|vm_compute in E; discriminate].
    destruct (proj1 (heatmap_cells_are_means_by_pair unmapped_dataset) fig E)
      as (_ & a & b & c & d & H).
    exists fig, a, b, c, d. split; [reflexivity|exact H].
  - apply (proj2 (heatmap_cells_are_means_by_pair (mkFrame nine_fields []))).
    + split; [intros []|intros []]; reflexivity.
    + reflexivity.
Defined.

(** ** The bars of the encryption view *)

Lemma broadcast_Some {A B} (xs : list A) (ys : list B) :
  (exists r, broadcast xs ys = Some r) <-> broadcastable (length xs) (length ys).
Proof.
  unfold broadcast, broadcastable.
  destruct (Nat.eqb_spec (length xs) (length ys)) as [Heq|Hne].
  - split; [now left|eauto].
  - destruct xs as [|x [|x' xs]], ys as [|y [|y' ys]]; simpl in *; split;
      first [ intros _; eauto; right; auto; fail
            | intros (r & [=])
            | intros [H|[H|H]]; lia
            | idtac ].
Qed.

Lemma broadcast_same {A B} (xs : list A) (ys : list B) :
  length xs = length ys -> broadcast xs ys = Some (xs, ys).
Proof. intros H. unfold broadcast. now rewrite H, Nat.eqb_refl. Qed.

Lemma ax_bar_cases (x height : list Q) (label : Text) (hatch : string) :
  (broadcastable (length x) (length height)
   /\ exists bars, ax_bar x height label hatch = Ok bars)
  \/ (~ broadcastable (length x) (length height)
      /\ ax_bar x height label hatch = Raise ValueError).
Proof.
  unfold ax_bar. destruct (broadcast x height) as [[x' h']|] eqn:E.
  - left. split; [apply broadcast_Some; eauto|eauto].
  - right. split; [|reflexivity].
    intros H. apply broadcast_Some in H as (r & Hr). congruence.
Qed.

Lemma length_shift (xs : list Q) (d : Q) : length (shift xs d) = length xs.
Proof. apply length_map. Qed.

Lemma length_arange (n : nat) : length (arange n) = n.
Proof. unfold arange. now rewrite length_map, length_seq. Qed.

Lemma length_bar_heights (df : DataFrame) (e : Z) (d : Dim) (m : Metric) (per : option Q) :
  length (bar_heights df e d m per) = length (observed (encrypted_as df e) d).
Proof. apply length_map. Qed.

(** With its columns present, a panel computes its keys and its two series
    and hands each series to [ax.bar] with the positions of all the keys. *)
Lemma encryption_panel_run (df : DataFrame) (title : string) (d : Dim) (m : Metric)
    (per : option Q) :
  has_column df (dim_name d) = true ->
  has_column df "use_encryption" = true ->
  has_column df (metric_name m) = true ->
  encryption_panel df title d m per
  = (bars0 <- ax_bar (shift (arange (length (observed df d))) (- (0.35 / 2))%Q)
                (bar_heights df 0 d m per) (Lit "No Encryption") "" ;;
     bars1 <- ax_bar (shift (arange (length (observed df d))) (0.35 / 2)%Q)
                (bar_heights df 1 d m per) (Lit "With Encryption") "///" ;;
     Ok (Chart title (observed df d) [bars0; bars1])).
Proof.
  intros Hd He Hm. unfold encryption_panel.
  rewrite (sorted_unique_present df d Hd). cbn [bind].
  rewrite !(where_eq_present df UseEncryption _ He). cbn [bind].
  rewrite !groupby_mean_present by assumption. cbn [bind item nth_error hatches].
  assert (Hh : forall e,
             map (scaled per)
               (map snd
                  (group_means mean
                     (split_groups
                        (map (fun r => (dim_of d r, metric_of m r))
                           (rows (mkFrame (columns df)
                                    (List.filter (fun r => dim_of UseEncryption r =? e)
                                       (rows df))))))))
             = bar_heights df e d m per).
  { intros e. unfold bar_heights, observed, encrypted_as, rows_at. simpl rows.
    rewrite group_means_values, map_map. apply map_ext. intros k.
    now rewrite filter_filter_and. }
  now rewrite !Hh.
Qed.

Lemma bar_heights_nth (df : DataFrame) (e : Z) (d : Dim) (m : Metric) (per : option Q)
    (i : nat) (key : Z) :
  observed (encrypted_as df e) d = observed df d ->
  nth_error (observed df d) i = Some key ->
  exists v,
    nth_error (bar_heights df e d m per) i = Some (scaled per v)
    /\ arithmetic_mean (map (metric_of m) (rows_at df UseEncryption e d key)) v.
Proof.
  intros Hsame Hkey. unfold bar_heights. rewrite Hsame, nth_error_map, Hkey.
  eexists. split; [reflexivity|]. apply mean_arithmetic.
  assert (Hin : In key (observed (encrypted_as df e) d))
    by (rewrite Hsame; eapply nth_error_In, Hkey).
  unfold observed, encrypted_as in Hin. simpl rows in Hin.
  rewrite sorted_In, unique_In, in_map_iff in Hin.
  destruct Hin as (r & Hk & Hr). apply List.filter_In in Hr as [Hr He].
  intros Hnil. apply map_eq_nil in Hnil.
  assert (Hin : In r (rows_at df UseEncryption e d key)).
  { unfold rows_at. apply List.filter_In. split; [exact Hr|].
    apply andb_true_iff. split; [exact He|now apply Z.eqb_eq]. }
  rewrite Hnil in Hin. destruct Hin.
Qed.

(** X2: with its columns present, a panel of the encryption view hands
    [ax.bar] one position per observed value of its dimension and, for each
    encryption setting, one height per value observed under that setting.
    It fails with [ValueError] exactly when these two numbers do not
    broadcast for one of the settings (they differ and neither is 1), and
    prepares its chart otherwise.  When every observed value was measured
    under both settings, each series has one bar per tick, the i-th being
    the arithmetic mean over the rows of the i-th value under that
    setting. *)
Theorem encryption_bars_need_matching_settings :
  forall (df : DataFrame) (title : string) (d : Dim) (m : Metric) (per : option Q),
    has_column df (dim_name d) = true ->
    has_column df "use_encryption" = true ->
    has_column df (metric_name m) = true ->
    let ticks := length (observed df d) in
    let bars := fun e => length (observed (encrypted_as df e) d) in
    (encryption_panel df title d m per = Raise ValueError
     <-> ~ (broadcastable ticks (bars 0) /\ broadcastable ticks (bars 1)))
    /\ ((exists s, encryption_panel df title d m per = Ok s)
        <-> broadcastable ticks (bars 0) /\ broadcastable ticks (bars 1))
    /\ ((forall r, In r (rows df) ->
                   rows_at df UseEncryption 0 d (dim_of d r) <> []
                   /\ rows_at df UseEncryption 1 d (dim_of d r) <> []) ->
        exists x0 x1 h0 h1 hatch0 hatch1,
          encryption_panel df title d m per
          = Ok (Chart title (observed df d)
                  [Bar x0 h0 (Lit "No Encryption") hatch0;
                   Bar x1 h1 (Lit "With Encryption") hatch1])
          /\ length x0 = ticks
          /\ length x1 = ticks
          /\ forall i key,
              nth_error (observed df d) i = Some key ->
              (exists v,
                  nth_error h0 i = Some (scaled per v)
                  /\ arithmetic_mean
                       (map (metric_of m) (rows_at df UseEncryption 0 d key)) v)
              /\ (exists v,
                     nth_error h1 i = Some (scaled per v)
                     /\ arithmetic_mean
                          (map (metric_of m) (rows_at df UseEncryption 1 d key)) v)).
Proof.
  intros df title d m per Hd He Hm ticks bars.
  rewrite (encryption_panel_run df title d m per Hd He Hm).
  fold ticks.
  assert (Hcases :
            (broadcastable ticks (bars 0) /\ broadcastable ticks (bars 1)
             /\ exists s,
                 (bars0 <- ax_bar (shift (arange ticks) (- (0.35 / 2))%Q)
                             (bar_heights df 0 d m per) (Lit "No Encryption") "" ;;
                  bars1 <- ax_bar (shift (arange ticks) (0.35 / 2)%Q)
                             (bar_heights df 1 d m per) (Lit "With Encryption") "///" ;;
                  Ok (Chart title (observed df d) [bars0; bars1])) = Ok s)
            \/ (~ (broadcastable ticks (bars 0) /\ broadcastable ticks (bars 1))
                /\ (bars0 <- ax_bar (shift (arange ticks) (- (0.35 / 2))%Q)
                               (bar_heights df 0 d m per) (Lit "No Encryption") "" ;;
                    bars1 <- ax_bar (shift (arange ticks) (0.35 / 2)%Q)
                               (bar_heights df 1 d m per) (Lit "With Encryption") "///" ;;
                    Ok (Chart title (observed df d) [bars0; bars1]))
                   = Raise ValueError)).
  { destruct (ax_bar_cases (shift (arange ticks) (- (0.35 / 2))%Q)
                (bar_heights df 0 d m per) (Lit "No Encryption") "")
      as [(H0 & b0 & ->)|(H0 & ->)];
      rewrite length_shift, length_arange, length_bar_heights in H0.
    - cbn [bind].
      destruct (ax_bar_cases (shift (arange ticks) (0.35 / 2)%Q)
                  (bar_heights df 1 d m per) (Lit "With Encryption") "///")
        as [(H1 & b1 & ->)|(H1 & ->)];
        rewrite length_shift, length_arange, length_bar_heights in H1.
      + left. cbn [bind]. eauto.
      + right. split; [tauto|reflexivity].
    - right. split; [tauto|reflexivity]. }
  split; [|split].
  - destruct Hcases as [(H0 & H1 & s & ->)|(Hno & ->)].
    + split; [discriminate|tauto].
    + tauto.
  - destruct Hcases as [(H0 & H1 & s & ->)|(Hno & ->)].
    + split; eauto.
    + split; [intros (s & [=])|tauto].
  - intros Hboth.
    assert (Hsame : forall e, e = 0 \/ e = 1 ->
               observed (encrypted_as df e) d = observed df d).
    { intros e Hcase. unfold encrypted_as. apply observed_subset_full.
      intros r Hr. destruct (Hboth r Hr) as [Hoff Hon].
      assert (Hne : rows_at df UseEncryption e d (dim_of d r) <> [])
        by (destruct Hcase as [->| ->]; assumption).
      unfold rows_at in Hne.
      destruct (List.filter _ (rows df)) as [|r' g] eqn:E; [congruence|].
      assert (Hin : In r' (r' :: g)) by now left.
      rewrite <- E in Hin. apply List.filter_In in Hin as [Hr' Hc].
      apply andb_true_iff in Hc as [Hc Hk]. apply Z.eqb_eq in Hk.
      exists r'. auto. }
    assert (Hlen : forall e shift_by, e = 0 \/ e = 1 ->
               length (shift (arange ticks) shift_by)
               = length (bar_heights df e d m per)).
    { intros e shift_by Hcase.
      now rewrite length_shift, length_arange, length_bar_heights, (Hsame e Hcase). }
    unfold ax_bar.
    rewrite (broadcast_same _ _ (Hlen 0 _ (or_introl eq_refl))). cbn [bind].
    rewrite (broadcast_same _ _ (Hlen 1 _ (or_intror eq_refl))). cbn [bind].
    do 6 eexists. split; [reflexivity|].
    split; [now rewrite length_shift, length_arange|].
    split; [now rewrite length_shift, length_arange|].
    intros i key Hkey. split; apply bar_heights_nth; auto.
Qed.

Lemma encryption_bars_need_matching_settings_witness :
  encryption_panel unencrypted_dataset "(a) Encryption Impact vs Batch Size"
    BatchSize EntriesPerSec (Some 1000%Q) = Raise ValueError
  /\ exists x0 x1 h0 h1 hatch0 hatch1,
      encryption_panel balanced_dataset "(c) Encryption Impact on Write Amplification"
        CompressionLevel WriteAmplification None
      = Ok (Chart "(c) Encryption Impact on Write Amplification"
              (observed balanced_dataset CompressionLevel)
              [Bar x0 h0 (Lit "No Encryption") hatch0;
               Bar x1 h1 (Lit "With Encryption") hatch1])
      /\ length x0 = 2%nat /\ length x1 = 2%nat.
Proof.
  split.
  - apply (proj1 (encryption_bars_need_matching_settings unencrypted_dataset
                    "(a) Encryption Impact vs Batch Size" BatchSize EntriesPerSec
                    (Some 1000%Q) eq_refl eq_refl eq_refl)).
    intros [_ H]. vm_compute in H. destruct H as [H|[H|H]]; discriminate.
  - destruct (proj2 (proj2 (encryption_bars_need_matching_settings balanced_dataset
                              "(c) Encryption Impact on Write Amplification"
                              CompressionLevel WriteAmplification None
                              eq_refl eq_refl eq_refl)))
      as (x0 & x1 & h0 & h1 & hatch0 & hatch1 & Hrun & Hx0 & Hx1 & _).
    + intros r [<-|[<-|[<-|[<-|[]]]]]; split; discriminate.
    + exists x0, x1, h0, h1, hatch0, hatch1. auto.
Defined.

(** ** Artifact paths *)

Lemma append_inj_r (s a b : string) : (s ++ a = s ++ b)%string -> a = b.
Proof. induction s as [|c s IH]; simpl; [auto|]. intros [= H]. auto. Qed.

Lemma length_append (s t : string) :
  String.length (s ++ t) = (String.length s + String.length t)%nat.
Proof. induction s as [|c s IH]; simpl; [reflexivity|]. now rewrite IH. Qed.

(** Under one directory, different relative names are different paths. *)
Lemma path_join_inj (dir n1 n2 : string) :
  is_absolute n1 = false -> is_absolute n2 = false ->
  path_join dir n1 = path_join dir n2 -> n1 = n2.
Proof.
  unfold path_join. intros -> ->. destruct dir as [|c dir]; [auto|].
  destruct (ends_with_slash (String c dir)); intros H.
  - now apply append_inj_r in H.
  - apply append_inj_r in H. now apply (append_inj_r "/") in H.
Qed.

(** A file in a directory is not the directory. *)
Lemma path_join_longer (dir name : string) :
  is_absolute name = false -> name <> EmptyString -> path_join dir name <> dir.
Proof.
  unfold path_join. intros -> Hname. destruct dir as [|c dir]; [exact Hname|].
  destruct (ends_with_slash (String c dir)); intros H;
    apply (f_equal String.length) in H; rewrite !length_append in H;
    destruct name; [congruence|simpl in H; lia|congruence|simpl in H; lia].
Qed.

Lemma artifact_paths_inside (output_dir : string) :
  ~ In output_dir (artifact_paths output_dir).
Proof.
  unfold artifact_paths. rewrite in_map_iff. intros (name & Hp & Hin).
  revert Hp. apply path_join_longer;
    simpl in Hin; repeat destruct Hin as [<-|Hin]; try destruct Hin;
    reflexivity || discriminate.
Qed.

(** ** What a run leaves alone *)

Lemma touches_ret {A} (a : A) : touches_only [] (ret a).
Proof. intros w. unfold ret. simpl. split; [auto|]. exists []. now rewrite app_nil_r. Qed.

Lemma touches_lift {A} (r : result A) : touches_only [] (lift r).
Proof. intros w. unfold lift. simpl. split; [auto|]. exists []. now rewrite app_nil_r. Qed.

Lemma touches_print (t : Text) : touches_only [] (print t).
Proof. intros w. unfold print. simpl. split; [auto|]. now exists [t]. Qed.

Lemma touches_read_csv (path : string) : touches_only [] (read_csv path).
Proof.
  intros w. unfold read_csv. simpl. split; [auto|]. exists []. now rewrite app_nil_r.
Qed.

Lemma touches_makedirs (path : string) : touches_only [] (makedirs path).
Proof.
  intros w. unfold makedirs. simpl. split; [auto|]. exists []. now rewrite app_nil_r.
Qed.

Lemma touches_savefig (path : string) (fig : Figure) : touches_only [path] (savefig path fig).
Proof.
  intros w. unfold savefig. simpl. split.
  - intros p Hp. assert (path <> p) by (intros ->; apply Hp; now left).
    split; [now apply lookup_delete_ne|now apply lookup_insert_ne].
  - exists []. now rewrite app_nil_r.
Qed.

Lemma touches_more {A} (paths paths' : list string) (m : M A) :
  incl paths paths' -> touches_only paths m -> touches_only paths' m.
Proof.
  intros Hincl Hm w. destruct (Hm w) as (Hf & Hc). split; [|exact Hc].
  intros p Hp. apply Hf. intros Hin. apply Hp, Hincl, Hin.
Qed.

Lemma touches_bind {A B} (paths : list string) (m : M A) (k : A -> M B) :
  touches_only paths m -> (forall a, touches_only paths (k a)) ->
  touches_only paths (bindM m k).
Proof.
  intros Hm Hk w. unfold bindM. destruct (Hm w) as (Hf & out & Hc).
  destruct (m w) as [[a|e] w1]; simpl in *; [|eauto].
  destruct (Hk a w1) as (Hf' & out' & Hc'). split.
  - intros p Hp. destruct (Hf p Hp) as [<- <-]. now apply Hf'.
  - exists (out ++ out'). now rewrite Hc', Hc, app_assoc.
Qed.

Lemma touches_for_M {A} (paths : list string) (f : A -> M unit) (l : list A) :
  (forall a, touches_only paths (f a)) -> touches_only paths (for_M f l).
Proof.
  intros Hf. induction l as [|a l IH]; simpl.
  - apply (touches_more []); [intros ? []|apply touches_ret].
  - apply touches_bind; [apply Hf|intros _; exact IH].
Qed.

Ltac quiet lem := apply (touches_more []); [intros ? []|apply lem].

Lemma touches_save_figure (output_dir name : string) (fig : Figure) :
  touches_only [path_join output_dir (name ++ ".png"); path_join output_dir (name ++ ".pdf")]
    (save_figure output_dir name fig).
Proof.
  unfold save_figure. apply touches_bind; [|intros _].
  - apply (touches_more [path_join output_dir (name ++ ".png")]);
      [intros p [<-|[]]; now left|apply touches_savefig].
  - apply (touches_more [path_join output_dir (name ++ ".pdf")]);
      [intros p [<-|[]]; right; now left|apply touches_savefig].
Qed.

Lemma touches_figure_view (figure : result Figure) (output_dir name : string) :
  In (name ++ ".png")%string artifact_names ->
  In (name ++ ".pdf")%string artifact_names ->
  touches_only (artifact_paths output_dir)
    (fig <~ lift figure ;; save_figure output_dir name fig).
Proof.
  intros Hpng Hpdf. apply touches_bind; [quiet (@touches_lift Figure)|].
  intros fig. eapply touches_more; [|apply touches_save_figure].
  intros p [<-|[<-|[]]]; unfold artifact_paths; now apply in_map.
Qed.

Lemma touches_batch_analysis (df : DataFrame) (output_dir : string) :
  touches_only [path_join output_dir "batch_analysis.png";
                path_join output_dir "batch_analysis.pdf"]
    (create_encryption_batch_analysis_plot df output_dir).
Proof.
  unfold create_encryption_batch_analysis_plot.
  apply touches_bind; [quiet (@touches_lift DataFrame)|]. intros filtered_df.
  destruct (empty filtered_df); [quiet touches_print|].
  apply touches_bind; [quiet (@touches_lift Figure)|]. intros fig.
  apply touches_bind; [apply (touches_save_figure output_dir "batch_analysis")|].
  intros _. apply touches_bind; [quiet touches_print|]. intros _.
  apply touches_for_M. intros [[c e] label].
  apply touches_bind; [quiet (@touches_lift DataFrame)|]. intros variant_df.
  quiet touches_print.
Qed.

Lemma touches_generate_all_plots (df : DataFrame) (output_dir : string) :
  touches_only (artifact_paths output_dir) (generate_all_plots df output_dir).
Proof.
  unfold generate_all_plots.
  repeat (apply touches_bind;
          [apply touches_figure_view; simpl; tauto|intros _]).
  eapply touches_more; [|apply touches_batch_analysis].
  intros p [<-|[<-|[]]]; unfold artifact_paths; apply in_map; simpl; tauto.
Qed.

Lemma touches_startup (input_file output_dir : string) :
  touches_only [] (startup input_file output_dir).
Proof.
  unfold startup.
  apply touches_bind; [apply touches_makedirs|]. intros _.
  apply touches_bind; [apply touches_print|]. intros _.
  apply touches_bind.
  { unfold load_gdpr_data. apply touches_bind; [apply touches_read_csv|].
    intros df. apply touches_lift. }
  intros df.
  do 2 (apply touches_bind; [apply touches_print|]; intros _).
  do 5 (apply touches_bind;
        [unfold print_observed; apply touches_bind;
         [apply touches_lift|intros ks; apply touches_print]|];
        intros _).
  apply touches_bind; [apply touches_print|]. intros _. apply touches_ret.
Qed.

Lemma touches_closing (output_dir : string) : touches_only [] (closing output_dir).
Proof.
  unfold closing, print_plot_summary.
  do 4 (apply touches_bind; [apply touches_print|intros _]).
  apply touches_bind.
  { apply touches_for_M. intros [i [filename description]].
    apply touches_bind; [apply touches_print|]. intros _. apply touches_print. }
  intros _.
  do 8 (apply touches_bind; [apply touches_print|intros _]).
  apply touches_print.
Qed.

(** X8: however a run ends, normally or with an exception, the only files
    it creates, overwrites or replaces are at the fourteen artifact paths of
    its output directory: every other path holds the file it held before the
    run, text file or figure, or none as before.  (The output directory
    itself is a directory, not a file.) *)
Theorem run_touches_only_its_artifacts :
  forall (input_file output_dir : string) (w : World) (p : string),
    ~ In p (artifact_paths output_dir) ->
    let after := snd (main input_file output_dir w) in
    inputs after !! p = inputs w !! p /\ files after !! p = files w !! p.
Proof.
  intros input_file output_dir w p Hp.
  assert (Hrun : touches_only (artifact_paths output_dir) (main input_file output_dir)).
  { intros w0. rewrite main_phases. revert w0.
    apply touches_bind; [quiet touches_startup|]. intros df.
    apply touches_bind; [apply touches_generate_all_plots|]. intros _.
    quiet touches_closing. }
  exact (proj1 (Hrun w) p Hp).
Qed.

Lemma run_touches_only_its_artifacts_witness :
  inputs (snd (main "results.csv" "gdpr_plots" balanced_world)) !! "results.csv"
  = Some (Table balanced_dataset)
  /\ files (snd (main "results.csv" "gdpr_plots" balanced_world)) !! "results.csv" = None.
Proof.
  apply (run_touches_only_its_artifacts "results.csv" "gdpr_plots" balanced_world
           "results.csv").
  intros H. vm_compute in H. repeat destruct H as [H|H]; discriminate || exact H.
Defined.

(** ** What a successful run leaves in the output directory *)

Lemma touches_nothing_files {A} (m : M A) (w : World) :
  touches_only [] m -> files (snd (m w)) = files w /\ inputs (snd (m w)) = inputs w.
Proof.
  intros H. destruct (H w) as (Hf & _).
  split; apply map_eq; intros p; apply Hf; intros [].
Qed.

(** A view that draws from the whole dataset, followed by the rest of the
    run: when the run returns, the view prepared its figure and saved it
    twice before the rest went on. *)
Lemma figure_view_then (figure : result Figure) (output_dir name : string)
    (rest : M unit) (w w' : World) :
  (_ <~ (fig <~ lift figure ;; save_figure output_dir name fig) ;; rest) w = (Ok tt, w') ->
  exists fig w1,
    figure = Ok fig
    /\ files w1 = <[path_join output_dir (name ++ ".pdf") := fig]>
                    (<[path_join output_dir (name ++ ".png") := fig]> (files w))
    /\ console w1 = console w
    /\ rest w1 = (Ok tt, w').
Proof.
  unfold bindM, lift, save_figure, savefig, bindM.
  destruct figure as [fig|e]; [|discriminate]. simpl. intros H.
  eexists _, _. split; [reflexivity|]. split; [|split; [|exact H]]; reflexivity.
Qed.

(** The batch-analysis view, when it returns: with an empty subset it leaves
    the files as they are, otherwise it prepared the figure of the subset
    and saved it twice. *)
Lemma batch_analysis_files (df : DataFrame) (output_dir : string) (w w' : World) :
  has_column df "compression_level" = true ->
  has_column df "use_encryption" = true ->
  create_encryption_batch_analysis_plot df output_dir w = (Ok tt, w') ->
  match rows (batch_analysis_subset df) with
  | [] => w' = mkWorld (inputs w) (files w) (console w ++ [no_data_message])
  | _ =>
      exists fig,
        batch_analysis_figure (batch_analysis_subset df) = Ok fig
        /\ files w'
           = <[path_join output_dir "batch_analysis.pdf" := fig]>
               (<[path_join output_dir "batch_analysis.png" := fig]> (files w))
  end.
Proof.
  intros Hc He. unfold create_encryption_batch_analysis_plot.
  unfold bindM at 1. unfold lift at 1.
  rewrite (where_eq2_present df CompressionLevel UseEncryption 0 1 Hc He).
  fold (rows_at df CompressionLevel 0 UseEncryption 1).
  fold (batch_analysis_subset df).
  unfold batch_analysis_subset at 1.
  rewrite (empty_iff_no_rows _ _ (has_column_nonempty _ _ Hc)).
  cbn [rows batch_analysis_subset].
  destruct (rows_at df CompressionLevel 0 UseEncryption 1) as [|r g] eqn:E.
  - unfold print. now intros [= <-].
  - fold (batch_analysis_subset df). unfold batch_analysis_subset at 2. rewrite E.
    fold (batch_analysis_subset df) in *.
    unfold bindM at 1. unfold lift at 1.
    assert (Hsub : mkFrame (columns df) (r :: g) = batch_analysis_subset df)
      by (unfold batch_analysis_subset; now rewrite E).
    rewrite Hsub.
    destruct (batch_analysis_figure (batch_analysis_subset df)) as [fig|e];
      [|discriminate].
    unfold bindM at 1. unfold save_figure, savefig, bindM at 1. cbv beta iota.
    match goal with
    | |- ?tail ?w1 = _ -> _ =>
        assert (Ht : touches_only [] tail);
        [|intros Hrun; destruct (touches_nothing_files tail w1 Ht) as [Hf _];
          rewrite Hrun in Hf; simpl in Hf; exists fig; split; [reflexivity|exact Hf]]
    end.
    apply touches_bind; [apply touches_print|]. intros _.
    apply touches_for_M. intros [[c e] label].
    apply touches_bind; [apply touches_lift|]. intros variant_df. apply touches_print.
Qed.

Ltac other_artifact :=
  let Hp := fresh "Hp" in
  intros Hp; apply path_join_inj in Hp; [simpl in Hp; discriminate|reflexivity..].

Ltac saved :=
  repeat first [ rewrite lookup_insert_eq; reflexivity
               | rewrite lookup_insert_ne by other_artifact ].

Lemma closing_prints (output_dir : string) (w : World) :
  closing output_dir w
  = (Ok tt, mkWorld (inputs w) (files w) (console w ++ closing_lines output_dir)).
Proof.
  destruct (closing_returns output_dir) as (out & Hout).
  rewrite Hout. unfold closing_lines. now rewrite Hout.
Qed.

(** The steps of a run that returns: the start-up, the six figures, the
    batch-analysis view on the world they leave, the closing summary. *)
Lemma successful_run_steps (input_file output_dir : string) (w w' : World) :
  main input_file output_dir w = (Ok tt, w') ->
  exists df w0 fig1 fig2 fig3 fig4 fig5 fig6 w6 w7,
    startup input_file output_dir w = (Ok df, w0)
    /\ files w0 = files w
    /\ encryption_effect_figure df = Ok fig1
    /\ compression_effect_figure df = Ok fig2
    /\ entry_size_effect_figure df = Ok fig3
    /\ writer_threads_effect_figure df = Ok fig4
    /\ batch_size_effect_figure df = Ok fig5
    /\ heatmaps_figure df = Ok fig6
    /\ files w6
       = <[path_join output_dir ("heatmaps" ++ ".pdf") := fig6]>
           (<[path_join output_dir ("heatmaps" ++ ".png") := fig6]>
           (<[path_join output_dir ("batch_size_effect" ++ ".pdf") := fig5]>
           (<[path_join output_dir ("batch_size_effect" ++ ".png") := fig5]>
           (<[path_join output_dir ("writer_threads_effect" ++ ".pdf") := fig4]>
           (<[path_join output_dir ("writer_threads_effect" ++ ".png") := fig4]>
           (<[path_join output_dir ("entry_size_effect" ++ ".pdf") := fig3]>
           (<[path_join output_dir ("entry_size_effect" ++ ".png") := fig3]>
           (<[path_join output_dir ("compression_effect" ++ ".pdf") := fig2]>
           (<[path_join output_dir ("compression_effect" ++ ".png") := fig2]>
           (<[path_join output_dir ("encryption_effect" ++ ".pdf") := fig1]>
           (<[path_join output_dir ("encryption_effect" ++ ".png") := fig1]>
              (files w))))))))))))
    /\ console w6 = console w0
    /\ create_encryption_batch_analysis_plot df output_dir w6 = (Ok tt, w7)
    /\ w' = mkWorld (inputs w7) (files w7) (console w7 ++ closing_lines output_dir).
Proof.
  intros Hmain.
  rewrite main_phases in Hmain. unfold bindM at 1 in Hmain.
  destruct (startup input_file output_dir w) as [[df|e] w0] eqn:Hstart; [|discriminate].
  destruct (touches_nothing_files _ w (touches_startup input_file output_dir))
    as [Hfiles0 _].
  rewrite Hstart in Hfiles0. simpl in Hfiles0.
  unfold bindM at 1 in Hmain.
  destruct (generate_all_plots df output_dir w0) as [[[]|e] w7] eqn:Hgen; [|discriminate].
  rewrite closing_prints in Hmain. injection Hmain as <-.
  unfold generate_all_plots, create_encryption_effect_plots,
    create_compression_effect_plots, create_entry_size_effect_plots,
    create_writer_threads_effect_plots, create_batch_size_effect_plots,
    create_heatmaps in Hgen.
  apply figure_view_then in Hgen as (fig1 & w1 & E1 & F1 & C1 & Hgen).
  apply figure_view_then in Hgen as (fig2 & w2 & E2 & F2 & C2 & Hgen).
  apply figure_view_then in Hgen as (fig3 & w3 & E3 & F3 & C3 & Hgen).
  apply figure_view_then in Hgen as (fig4 & w4 & E4 & F4 & C4 & Hgen).
  apply figure_view_then in Hgen as (fig5 & w5 & E5 & F5 & C5 & Hgen).
  apply figure_view_then in Hgen as (fig6 & w6 & E6 & F6 & C6 & Hgen).
  exists df, w0, fig1, fig2, fig3, fig4, fig5, fig6, w6, w7.
  repeat (split; [assumption || reflexivity|]).
  split; [now rewrite F6, F5, F4, F3, F2, F1, Hfiles0|].
  split; [congruence|]. split; [exact Hgen|reflexivity].
Qed.

(** The six views that draw from the whole dataset have saved their figure
    under both names when the run returns; the console ends with the
    closing summary. *)
Lemma six_figures_saved (input_file output_dir : string) (w w' : World) :
  main input_file output_dir w = (Ok tt, w') ->
  exists df w0,
    startup input_file output_dir w = (Ok df, w0)
    /\ (forall name figure,
           In (name, figure) figure_artifacts ->
           exists fig,
             figure df = Ok fig
             /\ files w' !! path_join output_dir (name ++ ".png") = Some fig
             /\ files w' !! path_join output_dir (name ++ ".pdf") = Some fig)
    /\ exists shown, console w' = shown ++ closing_lines output_dir.
Proof.
  intros Hmain.
  destruct (successful_run_steps _ _ _ _ Hmain)
    as (df & w0 & fig1 & fig2 & fig3 & fig4 & fig5 & fig6 & w6 & w7
        & Hstart & Hfiles0 & E1 & E2 & E3 & E4 & E5 & E6 & Hfiles6 & _ & Hgen & ->).
  exists df, w0. split; [exact Hstart|]. split; [|cbn [console]; eauto].
  pose proof (startup_columns _ _ _ _ _ Hstart) as Hcols.
  pose proof (batch_analysis_files df output_dir _ w7
                (Hcols CompressionLevel) (Hcols UseEncryption) Hgen) as Hbatch.
  rewrite Hfiles6 in Hbatch.
  cbn [files] in *.
  assert (Hkept : forall p,
             p <> path_join output_dir "batch_analysis.png" ->
             p <> path_join output_dir "batch_analysis.pdf" ->
             files w7 !! p
             = (<[path_join output_dir ("heatmaps" ++ ".pdf") := fig6]>
                  (<[path_join output_dir ("heatmaps" ++ ".png") := fig6]>
                  (<[path_join output_dir ("batch_size_effect" ++ ".pdf") := fig5]>
                  (<[path_join output_dir ("batch_size_effect" ++ ".png") := fig5]>
                  (<[path_join output_dir ("writer_threads_effect" ++ ".pdf") := fig4]>
                  (<[path_join output_dir ("writer_threads_effect" ++ ".png") := fig4]>
                  (<[path_join output_dir ("entry_size_effect" ++ ".pdf") := fig3]>
                  (<[path_join output_dir ("entry_size_effect" ++ ".png") := fig3]>
                  (<[path_join output_dir ("compression_effect" ++ ".pdf") := fig2]>
                  (<[path_join output_dir ("compression_effect" ++ ".png") := fig2]>
                  (<[path_join output_dir ("encryption_effect" ++ ".pdf") := fig1]>
                  (<[path_join output_dir ("encryption_effect" ++ ".png") := fig1]>
                     (files w))))))))))))) !! p).
  { intros p Hpng Hpdf.
    destruct (rows (batch_analysis_subset df)).
    - now rewrite Hbatch.
    - destruct Hbatch as (fig & _ & ->). now rewrite !lookup_insert_ne by congruence. }
  intros name figure Hin. simpl in Hin.
  destruct Hin as [[= <- <-]|[[= <- <-]|[[= <- <-]|[[= <- <-]|[[= <- <-]|[[= <- <-]|[]]]]]]];
    eexists; (split; [eassumption|]);
    split; (rewrite Hkept by other_artifact); saved.
Qed.

(** X9: when a run returns normally, the dataset was loaded and for each of
    the six views that draw from the whole dataset the output directory
    holds the figure that view prepared from it, under both the [.png] and
    the [.pdf] name (a later view does not overwrite it).  The two
    batch-analysis files hold the figure of the filtered subset when it has
    rows, and are what they were before the run when it has none. *)
Theorem successful_run_saves_every_figure :
  forall (input_file output_dir : string) (w w' : World),
    main input_file output_dir w = (Ok tt, w') ->
    exists df w0,
      startup input_file output_dir w = (Ok df, w0)
      /\ (forall name figure,
             In (name, figure) figure_artifacts ->
             exists fig,
               figure df = Ok fig
               /\ files w' !! path_join output_dir (name ++ ".png") = Some fig
               /\ files w' !! path_join output_dir (name ++ ".pdf") = Some fig)
      /\ match rows (batch_analysis_subset df) with
         | [] =>
             files w' !! path_join output_dir "batch_analysis.png"
             = files w !! path_join output_dir "batch_analysis.png"
             /\ files w' !! path_join output_dir "batch_analysis.pdf"
                = files w !! path_join output_dir "batch_analysis.pdf"
         | _ =>
             exists fig,
               batch_analysis_figure (batch_analysis_subset df) = Ok fig
               /\ files w' !! path_join output_dir "batch_analysis.png" = Some fig
               /\ files w' !! path_join output_dir "batch_analysis.pdf" = Some fig
         end.
Proof.
  intros input_file output_dir w w' Hmain.
  destruct (six_figures_saved _ _ _ _ Hmain) as (df & w0 & Hstart & Hsix & _).
  exists df, w0. split; [exact Hstart|]. split; [exact Hsix|].
  destruct (successful_run_steps _ _ _ _ Hmain)
    as (df' & w0' & fig1 & fig2 & fig3 & fig4 & fig5 & fig6 & w6 & w7
        & Hstart' & Hfiles0 & _ & _ & _ & _ & _ & _ & Hfiles6 & _ & Hgen & ->).
  rewrite Hstart in Hstart'. injection Hstart' as <- <-.
  pose proof (startup_columns _ _ _ _ _ Hstart) as Hcols.
  pose proof (batch_analysis_files df output_dir _ w7
                (Hcols CompressionLevel) (Hcols UseEncryption) Hgen) as Hbatch.
  rewrite Hfiles6 in Hbatch.
  cbn [files] in *.
  destruct (rows (batch_analysis_subset df)).
  - rewrite Hbatch. cbn [files]. split; saved; reflexivity.
  - destruct Hbatch as (fig & Efig & ->). exists fig. split; [exact Efig|].
    split; saved.
Qed.

Lemma successful_run_saves_every_figure_witness :
  exists w' df w0,
    main "results.csv" "gdpr_plots" balanced_world = (Ok tt, w')
    /\ startup "results.csv" "gdpr_plots" balanced_world = (Ok df, w0)
    /\ (forall name figure,
           In (name, figure) figure_artifacts ->
           exists fig,
             figure df = Ok fig
             /\ files w' !! path_join "gdpr_plots" (name ++ ".png") = Some fig
             /\ files w' !! path_join "gdpr_plots" (name ++ ".pdf") = Some fig)
    /\ is_Some (files w' !! "gdpr_plots/batch_analysis.png").
Proof.
  destruct (main "results.csv" "gdpr_plots" balanced_world) as [[[]|e] w'] eqn:E;
    [|vm_compute in E; discriminate].
  destruct (successful_run_saves_every_figure _ _ _ _ E) as (df & w0 & Hs & Hfig & _).
  exists w', df, w0. split; [reflexivity|]. split; [assumption|]. split; [assumption|].
  vm_compute in E. injection E as <-. vm_compute. eauto.
Defined.

(** ** The closing summary does not depend on what was written *)

(** X13: the closing summary is the same fixed list whatever the views did.
    When a run returns on a dataset with no uncompressed encrypted row, the
    console ends with the no-data message followed by the summary, the
    summary still names [batch_analysis.png] as its seventh plot, and that
    file is left as it was before the run. *)
Theorem summary_names_batch_analysis_even_when_skipped :
  forall (input_file output_dir : string) (w w' : World) (df : DataFrame) (w0 : World),
    main input_file output_dir w = (Ok tt, w') ->
    startup input_file output_dir w = (Ok df, w0) ->
    rows (batch_analysis_subset df) = [] ->
    console w' = console w0 ++ no_data_message :: closing_lines output_dir
    /\ In [Str "All plots saved to "; Str output_dir; Str "/"] (closing_lines output_dir)
    /\ In [Str nl; Int 7; Str ". "; Str "batch_analysis.png"; Str ":"]
          (closing_lines output_dir)
    /\ files w' !! path_join output_dir "batch_analysis.png"
       = files w !! path_join output_dir "batch_analysis.png".
Proof.
  intros input_file output_dir w w' df w0 Hmain Hstart Hempty.
  destruct (successful_run_steps _ _ _ _ Hmain)
    as (df' & w0' & fig1 & fig2 & fig3 & fig4 & fig5 & fig6 & w6 & w7
        & Hstart' & Hfiles0 & _ & _ & _ & _ & _ & _ & Hfiles6 & Hconsole6 & Hgen & ->).
  rewrite Hstart in Hstart'. injection Hstart' as <- <-.
  pose proof (startup_columns _ _ _ _ _ Hstart) as Hcols.
  pose proof (batch_analysis_files df output_dir _ w7
                (Hcols CompressionLevel) (Hcols UseEncryption) Hgen) as Hbatch.
  rewrite Hempty in Hbatch. subst w7. cbn [inputs files console].
  split; [now rewrite Hconsole6, <- app_assoc|].
  split; [vm_compute; left; reflexivity|].
  split; [vm_compute; repeat (first [left; reflexivity | right])|].
  rewrite Hfiles6. now rewrite !lookup_insert_ne by other_artifact.
Qed.

Lemma summary_names_batch_analysis_even_when_skipped_witness :
  exists w' df w0,
    main "results.csv" "gdpr_plots" compressed_world = (Ok tt, w')
    /\ startup "results.csv" "gdpr_plots" compressed_world = (Ok df, w0)
    /\ rows (batch_analysis_subset df) = []
    /\ console w' = console w0 ++ no_data_message :: closing_lines "gdpr_plots"
    /\ files w' !! "gdpr_plots/batch_analysis.png" = Some [].
Proof.
  destruct (main "results.csv" "gdpr_plots" compressed_world) as [[[]|e] w'] eqn:Hmain;
    [|vm_compute in Hmain; discriminate].
  destruct (startup "results.csv" "gdpr_plots" compressed_world) as [[df|e] w0] eqn:Hstart;
    [|vm_compute in Hstart; discriminate].
  assert (Hempty : rows (batch_analysis_subset df) = []).
  { vm_compute in Hstart. injection Hstart as <- _. reflexivity. }
  exists w', df, w0. repeat (split; [reflexivity || exact Hempty|]).
  destruct (summary_names_batch_analysis_even_when_skipped
              _ _ _ _ _ _ Hmain Hstart Hempty) as (Hconsole & _ & _ & Hfile).
  split; [exact Hconsole|]. exact Hfile.
Defined.

(** ** Running the report again *)

Lemma write_all_lookup (ws : list (string * Figure)) :
  exists last_write : string -> option Figure,
    (forall k, ~ In k (map fst ws) -> last_write k = None)
    /\ forall (fs : gmap string Figure) (k : string),
        write_all ws fs !! k
        = match last_write k with Some v => Some v | None => fs !! k end.
Proof.
  unfold write_all. induction ws as [|[k' v] ws IH].
  - exists (fun _ => None). split; reflexivity.
  - destruct IH as (f & Hnone & Hf).
    exists (fun k => match f k with
                     | Some v' => Some v'
                     | None => if decide (k' = k) then Some v else None
                     end).
    split.
    + intros k Hk. simpl in Hk. rewrite Hnone by tauto.
      destruct (decide (k' = k)); [tauto|reflexivity].
    + intros fs k. simpl. rewrite Hf.
      destruct (f k); [reflexivity|].
      destruct (decide (k' = k)) as [->|Hne].
      * apply lookup_insert_eq.
      * now apply lookup_insert_ne.
Qed.

(** Writing the same files a second time changes nothing. *)
Lemma write_all_twice (ws : list (string * Figure)) (fs : gmap string Figure) :
  write_all ws (write_all ws fs) = write_all ws fs.
Proof.
  destruct (write_all_lookup ws) as (f & _ & Hf).
  apply map_eq. intros k. rewrite !Hf. now destruct (f k).
Qed.

Lemma write_all_other (ws : list (string * Figure)) (fs : gmap string Figure) (k : string) :
  ~ In k (map fst ws) -> write_all ws fs !! k = fs !! k.
Proof.
  intros Hk. destruct (write_all_lookup ws) as (f & Hnone & Hf).
  now rewrite Hf, Hnone.
Qed.

Lemma write_all_app (ws1 ws2 : list (string * Figure)) (fs : gmap string Figure) :
  write_all (ws1 ++ ws2) fs = write_all ws2 (write_all ws1 fs).
Proof. unfold write_all. apply fold_left_app. Qed.

Lemma remove_all_other (ps : list string) (ins : gmap string CsvFile) (k : string) :
  ~ In k ps -> remove_all ps ins !! k = ins !! k.
Proof.
  unfold remove_all. revert ins. induction ps as [|p ps IH]; intros ins Hk; simpl.
  - reflexivity.
  - rewrite IH by (intros H; apply Hk; now right).
    apply lookup_delete_ne. intros ->. apply Hk. now left.
Qed.

Lemma remove_all_removed (ps : list string) (ins : gmap string CsvFile) (k : string) :
  In k ps -> remove_all ps ins !! k = None.
Proof.
  revert ins. induction ps as [|p ps IH]; intros ins Hk; [destruct Hk|].
  change (remove_all (p :: ps) ins) with (remove_all ps (delete p ins)).
  destruct (in_dec string_dec k ps) as [Hin|Hout]; [now apply IH|].
  destruct Hk as [->|Hk]; [|contradiction].
  rewrite remove_all_other by assumption. apply lookup_delete_eq.
Qed.

Lemma remove_all_twice (ps : list string) (ins : gmap string CsvFile) :
  remove_all ps (remove_all ps ins) = remove_all ps ins.
Proof.
  apply map_eq. intros k. destruct (in_dec string_dec k ps) as [Hin|Hout].
  - now rewrite !remove_all_removed.
  - now rewrite !remove_all_other.
Qed.

Lemma remove_all_app (ps1 ps2 : list string) (ins : gmap string CsvFile) :
  remove_all (ps1 ++ ps2) ins = remove_all ps2 (remove_all ps1 ins).
Proof. unfold remove_all. apply fold_left_app. Qed.

Lemma writes_only_more {A} (paths paths' : list string) (m : M A) :
  incl paths paths' -> writes_only paths m -> writes_only paths' m.
Proof.
  intros Hincl (r & out & ws & Hws & Hrun). exists r, out, ws.
  split; [|exact Hrun]. intros p Hp. apply Hincl, Hws, Hp.
Qed.

Lemma writes_only_lift {A} (r : result A) : writes_only [] (lift r).
Proof.
  exists r, [], []. split; [intros ? []|]. intros [i f c]. unfold lift. simpl.
  now rewrite app_nil_r.
Qed.

Lemma writes_only_print (t : Text) : writes_only [] (print t).
Proof. exists (Ok tt), [t], []. split; [intros ? []|]. now intros [i f c]. Qed.

Lemma writes_only_savefig (path : string) (fig : Figure) :
  writes_only [path] (savefig path fig).
Proof.
  exists (Ok tt), [], [(path, fig)]. split; [intros p Hp; exact Hp|].
  intros [i f c]. unfold savefig. simpl. now rewrite app_nil_r.
Qed.

Lemma writes_only_bind {A B} (paths : list string) (m : M A) (k : A -> M B) :
  writes_only paths m -> (forall a, writes_only paths (k a)) ->
  writes_only paths (bindM m k).
Proof.
  intros (r & out & ws & Hws & Hrun) Hk. destruct r as [a|e].
  - destruct (Hk a) as (r' & out' & ws' & Hws' & Hrun').
    exists r', (out ++ out'), (ws ++ ws'). split.
    + rewrite map_app. now apply incl_app.
    + intros w. unfold bindM. rewrite Hrun, Hrun'. cbn [inputs files console].
      now rewrite map_app, remove_all_app, write_all_app, app_assoc.
  - exists (Raise e), out, ws. split; [exact Hws|].
    intros w. unfold bindM. now rewrite Hrun.
Qed.

Lemma writes_only_for_M {A} (paths : list string) (f : A -> M unit) (l : list A) :
  (forall a, writes_only paths (f a)) -> writes_only paths (for_M f l).
Proof.
  intros Hf. induction l as [|a l IH]; simpl.
  - apply (writes_only_more []); [intros ? []|]. apply (writes_only_lift (Ok tt)).
  - apply writes_only_bind; [apply Hf|intros _; exact IH].
Qed.

Ltac silent lem := apply (writes_only_more []); [intros ? []|apply lem].

Lemma writes_only_figure_view (figure : result Figure) (output_dir name : string) :
  In (name ++ ".png")%string artifact_names ->
  In (name ++ ".pdf")%string artifact_names ->
  writes_only (artifact_paths output_dir)
    (fig <~ lift figure ;; save_figure output_dir name fig).
Proof.
  intros Hpng Hpdf. apply writes_only_bind; [silent (@writes_only_lift Figure)|].
  intros fig. unfold save_figure.
  apply writes_only_bind; [|intros _];
    (eapply writes_only_more; [|apply writes_only_savefig]);
    intros p [<-|[]]; unfold artifact_paths; now apply in_map.
Qed.

Lemma writes_only_batch_analysis (df : DataFrame) (output_dir : string) :
  writes_only (artifact_paths output_dir)
    (create_encryption_batch_analysis_plot df output_dir).
Proof.
  unfold create_encryption_batch_analysis_plot.
  apply writes_only_bind; [silent (@writes_only_lift DataFrame)|]. intros filtered_df.
  destruct (empty filtered_df); [silent writes_only_print|].
  apply (writes_only_bind _ (lift (batch_analysis_figure filtered_df)));
    [silent (@writes_only_lift Figure)|].
  intros fig. apply writes_only_bind.
  { unfold save_figure.
    apply writes_only_bind; [|intros _];
      (eapply writes_only_more; [|apply writes_only_savefig]);
      intros p [<-|[]]; unfold artifact_paths; apply in_map; simpl; tauto. }
  intros _. apply writes_only_bind; [silent writes_only_print|]. intros _.
  apply writes_only_for_M. intros [[c e] label].
  apply writes_only_bind; [silent (@writes_only_lift DataFrame)|]. intros variant_df.
  silent writes_only_print.
Qed.

(** Once the dataset is loaded, what the run prints and writes is decided by
    the dataset: nothing more is read. *)
Lemma writes_only_report (df : DataFrame) (output_dir : string) :
  writes_only (artifact_paths output_dir) (report df output_dir).
Proof.
  unfold report.
  do 2 (apply writes_only_bind; [silent writes_only_print|]; intros _).
  do 5 (apply writes_only_bind;
        [unfold print_observed; apply writes_only_bind;
         [silent (@writes_only_lift (list Z))|intros ks; silent writes_only_print]|];
        intros _).
  apply writes_only_bind; [silent writes_only_print|]. intros _.
  apply writes_only_bind.
  { unfold generate_all_plots.
    repeat (apply writes_only_bind;
            [apply writes_only_figure_view; simpl; tauto|intros _]).
    apply writes_only_batch_analysis. }
  intros _.
  apply writes_only_bind; [silent writes_only_print|]. intros _.
  unfold print_plot_summary.
  do 3 (apply writes_only_bind; [silent writes_only_print|intros _]).
  apply writes_only_bind.
  { apply writes_only_for_M. intros [i [filename description]].
    apply writes_only_bind; [silent writes_only_print|]. intros _.
    silent writes_only_print. }
  intros _.
  do 8 (apply writes_only_bind; [silent writes_only_print|intros _]).
  silent writes_only_print.
Qed.

(** A run: the directory, the announcement, the load, the report. *)
Lemma main_cases (input_file output_dir : string) (w : World) :
  (exists e, makedirs output_dir w = (Raise e, w)
             /\ main input_file output_dir w = (Raise e, w))
  \/ (makedirs output_dir w = (Ok tt, w)
      /\ main input_file output_dir w
         = (df <~ load_gdpr_data input_file ;; report df output_dir)
             (mkWorld (inputs w) (files w)
                (console w ++ [[Str "Loading data from "; Str input_file; Str "..."]]))).
Proof.
  destruct (makedirs_cases output_dir w) as [Hdir|(e & Hdir)].
  - right. split; [exact Hdir|]. unfold main. unfold bindM at 1. now rewrite Hdir.
  - left. exists e. split; [exact Hdir|]. unfold main. unfold bindM at 1.
    now rewrite Hdir.
Qed.

(** [makedirs] looks at its own path only. *)
Lemma makedirs_same (path : string) (w w' : World) :
  inputs w' !! path = inputs w !! path ->
  files w' !! path = files w !! path ->
  makedirs path w = (Ok tt, w) -> makedirs path w' = (Ok tt, w').
Proof.
  unfold makedirs. intros Hi Hf. destruct path as [|c path]; [discriminate|].
  rewrite Hi, Hf.
  destruct (inputs w !! String c path), (files w !! String c path);
    discriminate || reflexivity.
Qed.

(** A results file that lies at an artifact path is overwritten by the run:
    the second run finds a figure where the first found the table, and
    fails. *)
Lemma aliased_input_is_overwritten :
  exists w1 e w2,
    In "gdpr_plots/encryption_effect.png" (artifact_paths "gdpr_plots")
    /\ main "gdpr_plots/encryption_effect.png" "gdpr_plots" aliased_world = (Ok tt, w1)
    /\ inputs w1 !! "gdpr_plots/encryption_effect.png" = None
    /\ is_Some (files w1 !! "gdpr_plots/encryption_effect.png")
    /\ main "gdpr_plots/encryption_effect.png" "gdpr_plots" (restart w1) = (Raise e, w2).
Proof.
  do 3 eexists. split; [simpl; tauto|].
  split; [vm_compute; reflexivity|].
  split; [vm_compute; reflexivity|].
  split; [vm_compute; eauto|]. vm_compute. reflexivity.
Qed.

(** C9: when the results file is not one of the files the run writes,
    running the report a second time on the file system the first run left
    (same input file, same output directory) ends the same way, prints
    exactly the same lines and leaves every file as the first run left it.
    When the runs return normally, what both of them leave is the console
    ending with the closing summary and, for each of the six views that draw
    from the whole dataset, the figure prepared from the loaded dataset
    under the view's two file names. *)
Theorem second_run_repeats_first :
  forall (input_file output_dir : string) (w : World),
    ~ In input_file (artifact_paths output_dir) ->
    let first := main input_file output_dir (restart w) in
    let second := main input_file output_dir (restart (snd first)) in
    second = first
    /\ (fst first = Ok tt ->
        exists df w0 shown,
          startup input_file output_dir (restart w) = (Ok df, w0)
          /\ console (snd second) = shown ++ closing_lines output_dir
          /\ forall name figure,
              In (name, figure) figure_artifacts ->
              exists fig,
                figure df = Ok fig
                /\ files (snd second) !! path_join output_dir (name ++ ".png") = Some fig
                /\ files (snd second) !! path_join output_dir (name ++ ".pdf")
                   = Some fig).
Proof.
  intros input_file output_dir w Hinput first second.
  assert (Hsame : second = first).
  { subst second first.
    destruct (main_cases input_file output_dir (restart w))
      as [(e & Hdir & Hfirst)|(Hdir & Hfirst)].
    { rewrite Hfirst. exact Hfirst. }
    set (announced := mkWorld (inputs (restart w)) (files (restart w))
                        (console (restart w)
                         ++ [[Str "Loading data from "; Str input_file; Str "..."]])) in *.
    destruct (load_gdpr_data_cases input_file (restart w))
      as [(table & cols & _ & _ & Hload & _)|(_ & e & Hload)].
    2:{ assert (Hraise : main input_file output_dir (restart w) = (Raise e, announced)).
        { rewrite Hfirst. unfold bindM. now rewrite (Hload announced) by reflexivity. }
        rewrite Hraise. exact Hraise. }
    destruct (writes_only_report (mkFrame cols (map labelled (rows table))) output_dir)
      as (r & out & ws & Hws & Hrun).
    assert (Hout : forall p, ~ In p (artifact_paths output_dir) ->
                             ~ In p (map fst ws))
      by (intros p Hp Hin; apply Hp, Hws, Hin).
    assert (Hrun1 : main input_file output_dir (restart w)
                    = (r, mkWorld (remove_all (map fst ws) (inputs w))
                            (write_all ws (files w))
                            ([[Str "Loading data from "; Str input_file; Str "..."]]
                             ++ out))).
    { rewrite Hfirst. unfold bindM. rewrite (Hload announced) by reflexivity.
      now rewrite Hrun. }
    rewrite Hrun1. cbn [snd].
    destruct (main_cases input_file output_dir
                (restart (mkWorld (remove_all (map fst ws) (inputs w))
                            (write_all ws (files w))
                            ([[Str "Loading data from "; Str input_file; Str "..."]]
                             ++ out))))
      as [(e & Hdir' & _)|(_ & Hsecond)].
    { exfalso.
      rewrite (makedirs_same output_dir (restart w)) in Hdir';
        [discriminate| | |exact Hdir].
      - cbn [restart inputs]. apply remove_all_other, Hout, artifact_paths_inside.
      - cbn [restart files]. apply write_all_other, Hout, artifact_paths_inside. }
    rewrite Hsecond. unfold bindM.
    rewrite Hload
      by (cbn [restart inputs]; apply remove_all_other, Hout, Hinput).
    rewrite Hrun. cbn [restart inputs files console].
    now rewrite remove_all_twice, write_all_twice. }
  split; [exact Hsame|].
  intros Hok. rewrite Hsame. subst first.
  destruct (main input_file output_dir (restart w)) as [r w'] eqn:Hmain.
  cbn [fst snd] in *. subst r.
  destruct (six_figures_saved _ _ _ _ Hmain) as (df & w0 & Hstart & Hsix & shown & Hshown).
  exists df, w0, shown. auto.
Qed.

Lemma second_run_repeats_first_witness :
  main "results.csv" "gdpr_plots"
    (restart (snd (main "results.csv" "gdpr_plots" (restart balanced_world))))
  = main "results.csv" "gdpr_plots" (restart balanced_world)
  /\ fst (main "results.csv" "gdpr_plots" (restart balanced_world)) = Ok tt.
Proof.
  split.
  - apply (second_run_repeats_first "results.csv" "gdpr_plots" balanced_world).
    intros H. vm_compute in H. repeat destruct H as [H|H]; discriminate || exact H.
  - vm_compute. reflexivity.
Defined.
